(** * COVID dashboard: scheduling, expiry and article filtering

    A shallow embedding of the update-scheduling core of the dashboard
    ([main.py], [covid_data_handler.py], [covid_news_handling.py]) together
    with the part of Python's [sched] module the code relies on, followed
    by the properties established for it.

    Conventions of the embedding:
    - module-level globals are the fields of one [State] record that every
      operation threads through; an exception leaves the state as it was
      when it was raised;
    - a [for] loop over a list that its own body mutates is run by index,
      as the Python list iterator does;
    - the wall clock, the HTTP providers and the configuration file are
      inputs ([World], [Config]); logging is not modelled. *)

From stdpp Require Import base gmap strings list pretty.
From Stdlib Require Import ZArith.

Local Open Scope string_scope.
Local Open Scope list_scope.
Local Open Scope Z_scope.

(* ===================================================================== *)
(** ** Exceptions and the two effect layers *)
(* ===================================================================== *)

Inductive exn :=
| SystemExit
| ValueError
| KeyError
| IndexError
| TypeError
| RecursionError.

Inductive outcome (A : Type) :=
| Normal (a : A)
| Raised (e : exn).
Arguments Normal {A} a.
Arguments Raised {A} e.

Definition obind {A B} (x : outcome A) (k : A -> outcome B) : outcome B :=
  match x with
  | Normal a => k a
  | Raised e => Raised e
  end.

Declare Scope py_scope.
Delimit Scope py_scope with py.
Notation "'let!' x ':=' c 'in' k" := (obind c (fun x => k))
  (at level 10, x name, c at level 100, k at level 200) : py_scope.
Local Open Scope py_scope.

(* ===================================================================== *)
(** ** Python values used by [time_buffer] *)
(* ===================================================================== *)

(** [time_buffer] is called with a [struct_time] and, in its own recursive
    call, with the string ["00:00"]: the arithmetic on [current_time[3]]
    is integer arithmetic in the first case and string repetition and
    concatenation in the second. *)
Inductive pyv :=
| VInt (z : Z)
| VStr (s : string).

(** Only fields 3 ([tm_hour]) and 4 ([tm_min]) of a [struct_time] are read. *)
Inductive time_arg :=
| StructTime (tm_hour tm_min : Z)
| TimeStr (s : string).

Fixpoint str_take (n : nat) (s : string) : string :=
  match n, s with
  | S n', String c s' => String c (str_take n' s')
  | _, _ => EmptyString
  end.

Fixpoint str_drop (n : nat) (s : string) : string :=
  match n, s with
  | S n', String _ s' => str_drop n' s'
  | _, _ => s
  end.

Fixpoint str_repeat (n : nat) (s : string) : string :=
  match n with
  | O => EmptyString
  | S n' => s +:+ str_repeat n' s
  end.

Definition digit_of (c : Ascii.ascii) : option Z :=
  let n := Z.of_N (Ascii.N_of_ascii c) in
  if (48 <=? n) && (n <=? 57) then Some (n - 48) else None.

Fixpoint int_digits (acc : Z) (s : string) : option Z :=
  match s with
  | EmptyString => Some acc
  | String c s' =>
      match digit_of c with
      | Some d => int_digits (10 * acc + d) s'
      | None => None
      end
  end.

(** [int(s)] on a string: a non-empty run of decimal digits gives its
    value, anything else is a [ValueError].  (Signs, surrounding blanks
    and digit-group underscores, which [int] also accepts, are outside
    the model; no time string of the dashboard has them.) *)
Definition int_of_str (s : string) : outcome Z :=
  match s with
  | EmptyString => Raised ValueError
  | _ => match int_digits 0 s with
         | Some z => Normal z
         | None => Raised ValueError
         end
  end.

Definition py_int (v : pyv) : outcome Z :=
  match v with
  | VInt z => Normal z
  | VStr s => int_of_str s
  end.

Definition py_mul (v : pyv) (n : Z) : pyv :=
  match v with
  | VInt z => VInt (z * n)
  | VStr s => VStr (str_repeat (Z.to_nat n) s)
  end.

Definition py_add (a b : pyv) : outcome pyv :=
  match a, b with
  | VInt x, VInt y => Normal (VInt (x + y))
  | VStr x, VStr y => Normal (VStr (x +:+ y))
  | _, _ => Raised TypeError
  end.

(** [current_time[i]] for [i] in 3, 4. *)
Definition time_index (t : time_arg) (i : nat) : outcome pyv :=
  match t with
  | StructTime h m =>
      match i with
      | 3%nat => Normal (VInt h)
      | 4%nat => Normal (VInt m)
      | _ => Raised IndexError
      end
  | TimeStr s =>
      match String.get i s with
      | Some c => Normal (VStr (String c EmptyString))
      | None => Raised IndexError
      end
  end.

(* ===================================================================== *)
(** ** main.py: [time_buffer] *)
(* ===================================================================== *)

(** The interpreter's recursion limit; the two recursive calls below are
    the only recursion in the program. *)
Definition recursion_limit : nat := 1000.

(** [default_time] is the value of the default argument
    [current_time = time.localtime()], an expression Python evaluates once,
    when the [def] statement runs at import.  A call that omits
    [current_time] receives [default_time]. *)
Fixpoint time_buffer_rec (depth : nat) (default_time : time_arg)
    (given_time : string) (current_time : time_arg) : outcome Z :=
  match depth with
  | O => Raised RecursionError
  | S depth' =>
      let! hrs := time_index current_time 3 in
      let! mins := time_index current_time 4 in
      let! current_time_seconds :=
        py_add (py_mul (py_mul hrs 60) 60) (py_mul mins 60) in
      let time_hours := str_take 2 given_time in
      let time_minutes := str_drop 3 given_time in
      let! h := int_of_str time_hours in
      let! m := int_of_str time_minutes in
      let entered_time_seconds := h * 60 * 60 + m * 60 in
      let! cur := py_int current_time_seconds in
      let buffer_time := entered_time_seconds - cur in
      if buffer_time <? 0 then
        let! now_midnight :=
          time_buffer_rec depth' default_time "24:00" default_time in
        let! midnight_time :=
          time_buffer_rec depth' default_time given_time (TimeStr "00:00") in
        Normal (now_midnight + midnight_time)
      else Normal buffer_time
  end.

(** [time_buffer(given_time, current_time)]; [None] for an omitted second
    argument. *)
Definition time_buffer (default_time : time_arg) (given_time : string)
    (current_time : option time_arg) : outcome Z :=
  time_buffer_rec recursion_limit default_time given_time
    (match current_time with
     | Some t => t
     | None => default_time
     end).

(* ===================================================================== *)
(** ** Data model *)
(* ===================================================================== *)

(** *** sched: events and schedulers *)

(** The callable stored in an event. *)
Inductive action :=
| covid_API_request_action
| news_API_request_action.

(** [sched.Event]: a named tuple [(time, priority, sequence, action,
    argument, kwargs)]; the program always leaves the last two empty.
    Event times are [time.time() + delay], kept here in whole seconds. *)
Record Event := mkEvent {
  ev_time : Z;
  ev_priority : Z;
  ev_sequence : nat;
  ev_action : action }.

(** A [sched.scheduler]: its heap, kept in the order the [queue] property
    returns it, and its sequence counter. *)
Record scheduler := mkScheduler {
  sq_queue : list Event;
  sq_counter : nat }.

(** An entry of [covid_queue_info] / [news_queue_info]. *)
Record queue_info := mkQueueInfo {
  event_id : Event;
  event_name : string;
  repeat_update : bool }.

(** An entry of [scheduled_updates], the dictionary built by
    [schedule_update]. *)
Record update := mkUpdate {
  title : string;
  content : string;
  covid : bool;
  news : bool;
  repeat : bool;
  time : string }.

#[global] Instance action_eq_dec : EqDecision action.
Proof. solve_decision. Defined.
#[global] Instance Event_eq_dec : EqDecision Event.
Proof. solve_decision. Defined.
#[global] Instance queue_info_eq_dec : EqDecision queue_info.
Proof. solve_decision. Defined.
#[global] Instance update_eq_dec : EqDecision update.
Proof. solve_decision. Defined.

(** *** Provider payloads *)

(** A key of a JSON object: absent, [null], or a value. *)
Inductive jfield (A : Type) :=
| Missing
| Null
| Present (a : A).
Arguments Missing {A}.
Arguments Null {A}.
Arguments Present {A} a.

(** One daily record of the statistics provider; each figure may be
    [null]. *)
Record day_record := mkDay {
  hospitalCases : option Z;
  cumDailyNsoDeathsByDeathDate : option Z;
  newCasesBySpecimenDate : option Z }.

(** A string-valued JSON value of a news article. *)
Inductive jval :=
| JNull
| JStr (s : string).

#[global] Instance jval_eq_dec : EqDecision jval.
Proof. solve_decision. Defined.

(** A news article is a Python dict: the raw ones of the provider have
    many keys, the stored ones exactly ["title"] and ["content"]. *)
Abbreviation article := (gmap string jval).

(** What [removed_article_titles.append] receives: the title string that
    [main] passes, or a list as the signature announces. *)
Inductive removed_arg :=
| RTitle (s : string)
| RList (l : list string).

#[global] Instance removed_arg_eq_dec : EqDecision removed_arg.
Proof. solve_decision. Defined.

(** A displayed figure: a number, or its comma-separated rendering. *)
Inductive stat :=
| SInt (z : Z)
| SStr (s : string).

(** The globals [england_data] / [local_data] hold, in turn, the raw
    [get_json()] result, its ["data"] list and the processed dictionary. *)
Inductive covid_global :=
| GJson (j : option (jfield (list day_record)))
| GData (l : option (list day_record))
| GDict (d : gmap string stat).

(** *** Inputs *)

(** The values read from [config.json] (numbers after their [int()]
    conversion). *)
Record Config := mkConfig {
  displayed_content : string;
  num_displayed_articles : Z;
  no_articles_message : string;
  base_update_interval : Z;
  commas : string }.

(** What one operation observes of the outside world: [time.time()],
    [time.localtime()] and the providers' answers. *)
Record World := mkWorld {
  time_time : Z;
  tm_hour : Z;
  tm_min : Z;
  england_json : option (jfield (list day_record));
  local_json : option (jfield (list day_record));
  news_json : option (jfield (list article)) }.

(** The query string of a page request. *)
Record Request := mkRequest {
  arg_notif : option string;
  arg_two : option string;
  arg_update : option string;
  arg_repeat : option string;
  arg_covid_data : option string;
  arg_news : option string;
  arg_update_item : option string }.

(** *** Program state: the module-level globals *)

(** [main.covid_news] is bound by [return_covid_news()] to the very list
    object of [covid_news_handling.covid_news], which is only ever
    appended to in place; the two names share the field [covid_news]. *)
Record State := mkState {
  (* main *)
  scheduled_updates : list update;
  england_covid_data : covid_global;
  local_covid_data : covid_global;
  displayed_covid_articles : list article;
  (* covid_data_handler *)
  covid_scheduler : scheduler;
  england_data : covid_global;
  local_data : covid_global;
  covid_queue_info : list queue_info;
  (* covid_news_handling *)
  news_scheduler : scheduler;
  removed_article_titles : list removed_arg;
  covid_news : list article;
  news_queue_info : list queue_info }.

Definition set_scheduled_updates (v : list update) (st : State) : State :=
  mkState v (england_covid_data st) (local_covid_data st)
    (displayed_covid_articles st) (covid_scheduler st) (england_data st)
    (local_data st) (covid_queue_info st) (news_scheduler st)
    (removed_article_titles st) (covid_news st) (news_queue_info st).

Definition set_main_covid_data (e l : covid_global) (st : State) : State :=
  mkState (scheduled_updates st) e l
    (displayed_covid_articles st) (covid_scheduler st) (england_data st)
    (local_data st) (covid_queue_info st) (news_scheduler st)
    (removed_article_titles st) (covid_news st) (news_queue_info st).

Definition set_displayed_covid_articles (v : list article) (st : State)
    : State :=
  mkState (scheduled_updates st) (england_covid_data st)
    (local_covid_data st) v (covid_scheduler st) (england_data st)
    (local_data st) (covid_queue_info st) (news_scheduler st)
    (removed_article_titles st) (covid_news st) (news_queue_info st).

Definition set_covid_scheduler (v : scheduler) (st : State) : State :=
  mkState (scheduled_updates st) (england_covid_data st)
    (local_covid_data st) (displayed_covid_articles st) v (england_data st)
    (local_data st) (covid_queue_info st) (news_scheduler st)
    (removed_article_titles st) (covid_news st) (news_queue_info st).

Definition set_england_data (v : covid_global) (st : State) : State :=
  mkState (scheduled_updates st) (england_covid_data st)
    (local_covid_data st) (displayed_covid_articles st) (covid_scheduler st)
    v (local_data st) (covid_queue_info st) (news_scheduler st)
    (removed_article_titles st) (covid_news st) (news_queue_info st).

Definition set_local_data (v : covid_global) (st : State) : State :=
  mkState (scheduled_updates st) (england_covid_data st)
    (local_covid_data st) (displayed_covid_articles st) (covid_scheduler st)
    (england_data st) v (covid_queue_info st) (news_scheduler st)
    (removed_article_titles st) (covid_news st) (news_queue_info st).

Definition set_covid_queue_info (v : list queue_info) (st : State) : State :=
  mkState (scheduled_updates st) (england_covid_data st)
    (local_covid_data st) (displayed_covid_articles st) (covid_scheduler st)
    (england_data st) (local_data st) v (news_scheduler st)
    (removed_article_titles st) (covid_news st) (news_queue_info st).

Definition set_news_scheduler (v : scheduler) (st : State) : State :=
  mkState (scheduled_updates st) (england_covid_data st)
    (local_covid_data st) (displayed_covid_articles st) (covid_scheduler st)
    (england_data st) (local_data st) (covid_queue_info st) v
    (removed_article_titles st) (covid_news st) (news_queue_info st).

Definition set_removed_article_titles (v : list removed_arg) (st : State)
    : State :=
  mkState (scheduled_updates st) (england_covid_data st)
    (local_covid_data st) (displayed_covid_articles st) (covid_scheduler st)
    (england_data st) (local_data st) (covid_queue_info st)
    (news_scheduler st) v (covid_news st) (news_queue_info st).

Definition set_covid_news (v : list article) (st : State) : State :=
  mkState (scheduled_updates st) (england_covid_data st)
    (local_covid_data st) (displayed_covid_articles st) (covid_scheduler st)
    (england_data st) (local_data st) (covid_queue_info st)
    (news_scheduler st) (removed_article_titles st) v (news_queue_info st).

Definition set_news_queue_info (v : list queue_info) (st : State) : State :=
  mkState (scheduled_updates st) (england_covid_data st)
    (local_covid_data st) (displayed_covid_articles st) (covid_scheduler st)
    (england_data st) (local_data st) (covid_queue_info st)
    (news_scheduler st) (removed_article_titles st) (covid_news st) v.

(** *** The state-and-exception layer *)

Definition M (A : Type) : Type := State -> outcome A * State.

Definition ret {A} (a : A) : M A := fun st => (Normal a, st).

Definition raise {A} (e : exn) : M A := fun st => (Raised e, st).

Definition bind {A B} (c : M A) (k : A -> M B) : M B :=
  fun st =>
    match c st with
    | (Normal a, st') => k a st'
    | (Raised e, st') => (Raised e, st')
    end.

Definition lift {A} (o : outcome A) : M A := fun st => (o, st).

Definition modify (f : State -> State) : M unit :=
  fun st => (Normal tt, f st).

Definition gets {A} (f : State -> A) : M A := fun st => (Normal (f st), st).

Notation "'do' x '<-' c ';' k" := (bind c (fun x => k))
  (at level 10, x name, c at level 100, k at level 200) : py_scope.
Notation "c ';;' k" := (bind c (fun _ => k))
  (at level 100, k at level 200, right associativity) : py_scope.

(** [for x in items: body(x)] when the body may mutate [items]: the list
    iterator keeps an index and re-reads the list at every step.  No loop
    of the program makes its list grow, so starting with the list's length
    as [fuel] lets the iterator run to its end. *)
Fixpoint for_in_from {A} (items : State -> list A) (body : A -> M unit)
    (fuel i : nat) : M unit :=
  fun st =>
    match fuel with
    | O => (Normal tt, st)
    | S fuel' =>
        match items st !! i with
        | None => (Normal tt, st)
        | Some x =>
            match body x st with
            | (Normal _, st') => for_in_from items body fuel' (S i) st'
            | (Raised e, st') => (Raised e, st')
            end
        end
    end.

Definition for_in {A} (items : State -> list A) (body : A -> M unit)
    : M unit :=
  fun st => for_in_from items body (length (items st)) 0 st.

(** [for x in l: body(x)] over a list the body cannot reach. *)
Fixpoint for_each {A} (l : list A) (body : A -> M unit) : M unit :=
  match l with
  | [] => ret tt
  | x :: l' => (body x ;; for_each l' body)
  end.

(** [l.remove(x)]: drops the first element equal to [x]; [ValueError]
    when there is none. *)
Fixpoint list_remove {A} `{EqDecision A} (x : A) (l : list A)
    : option (list A) :=
  match l with
  | [] => None
  | y :: l' =>
      if decide (x = y) then Some l'
      else match list_remove x l' with
           | Some r => Some (y :: r)
           | None => None
           end
  end.

(** The two modules with a scheduler of their own. *)
Inductive source :=
| Covid
| News.

Definition scheduler_of (src : source) : State -> scheduler :=
  match src with
  | Covid => covid_scheduler
  | News => news_scheduler
  end.

Definition set_scheduler_of (src : source) : scheduler -> State -> State :=
  match src with
  | Covid => set_covid_scheduler
  | News => set_news_scheduler
  end.

Definition queue_info_of (src : source) : State -> list queue_info :=
  match src with
  | Covid => covid_queue_info
  | News => news_queue_info
  end.

Definition set_queue_info_of (src : source)
    : list queue_info -> State -> State :=
  match src with
  | Covid => set_covid_queue_info
  | News => set_news_queue_info
  end.

Definition request_action (src : source) : action :=
  match src with
  | Covid => covid_API_request_action
  | News => news_API_request_action
  end.

(* ===================================================================== *)
(** ** sched: the queue operations *)
(* ===================================================================== *)

(** Events compare as tuples; [sequence] is unique within a scheduler, so
    the comparison never reaches the action. *)
Definition event_lt (a b : Event) : bool :=
  (ev_time a <? ev_time b)
  || ((ev_time a =? ev_time b)
      && ((ev_priority a <? ev_priority b)
          || ((ev_priority a =? ev_priority b)
              && (ev_sequence a <? ev_sequence b)%nat))).

Fixpoint insert_event (e : Event) (q : list Event) : list Event :=
  match q with
  | [] => [e]
  | x :: q' => if event_lt e x then e :: q else x :: insert_event e q'
  end.

(** [scheduler.enter(delay, priority, action)] at clock reading [now]. *)
Definition sched_enter (now delay priority : Z) (a : action) (s : scheduler)
    : scheduler :=
  let event := mkEvent (now + delay) priority (sq_counter s) a in
  mkScheduler (insert_event event (sq_queue s)) (S (sq_counter s)).

(** [scheduler.cancel(event)]: [None] stands for the [ValueError] of
    [list.remove]. *)
Definition sched_cancel (event : Event) (s : scheduler) : option scheduler :=
  match list_remove event (sq_queue s) with
  | Some q => Some (mkScheduler q (sq_counter s))
  | None => None
  end.

(* ===================================================================== *)
(** ** covid_data_handler.py: the statistics provider *)
(* ===================================================================== *)

Definition dict_get {V} (d : gmap string V) (k : string) : outcome V :=
  match d !! k with
  | Some v => Normal v
  | None => Raised KeyError
  end.

Fixpoint comma_loop (len : nat) (digits : list Ascii.ascii) (counter : nat)
    (return_value : list Ascii.ascii) : list Ascii.ascii :=
  match digits with
  | [] => return_value
  | c :: digits' =>
      let return_value := return_value ++ [c] in
      if (counter mod 3 =? 0)%nat then
        if (counter =? len)%nat then
          comma_loop len digits' counter return_value
        else
          comma_loop len digits' (S counter)
            (return_value ++ [Ascii.ascii_of_nat 44])
      else comma_loop len digits' (S counter) return_value
  end.

Definition comma_separator (value_to_separate : string) : string :=
  let chars := String.list_ascii_of_string value_to_separate in
  String.string_of_list_ascii
    (rev (comma_loop (length chars) (rev chars) 1%nat [])).

Definition str_of_stat (v : stat) : string :=
  match v with
  | SInt z => pretty z
  | SStr s => s
  end.

(** The [while] of [process_covid_json_data]: one shared counter, and an
    [if]/[elif] that refills at most one of the two figures per step. *)
Fixpoint backtrack_national (fuel : nat) (england_covid_data : list day_record)
    (national_data_counter : nat)
    (england_hospital_cases england_total_deaths : option Z)
    : outcome (Z * Z) :=
  match england_hospital_cases, england_total_deaths with
  | Some h, Some d => Normal (h, d)
  | _, _ =>
      match fuel with
      | O => Raised IndexError
      | S fuel' =>
          let national_data_counter := S national_data_counter in
          match england_covid_data !! national_data_counter with
          | None => Raised IndexError
          | Some england_covid_recent =>
              match england_hospital_cases with
              | None =>
                  backtrack_national fuel' england_covid_data
                    national_data_counter
                    (hospitalCases england_covid_recent)
                    england_total_deaths
              | Some _ =>
                  backtrack_national fuel' england_covid_data
                    national_data_counter england_hospital_cases
                    (cumDailyNsoDeathsByDeathDate england_covid_recent)
              end
          end
      end
  end.

(** The [while] of [seven_day_case_calculator]: the first index with a
    new-cases figure. *)
Fixpoint first_cases_index (fuel : nat) (covid_data : list day_record)
    (data_counter : nat) : outcome nat :=
  match covid_data !! data_counter with
  | None => Raised IndexError
  | Some recent_covid_data =>
      match newCasesBySpecimenDate recent_covid_data with
      | Some _ => Normal data_counter
      | None =>
          match fuel with
          | O => Raised IndexError
          | S fuel' => first_cases_index fuel' covid_data (S data_counter)
          end
      end
  end.

Fixpoint sum_cases (covid_data : list day_record) (days : list nat)
    (seven_day_cases : Z) : outcome Z :=
  match days with
  | [] => Normal seven_day_cases
  | day :: days' =>
      match covid_data !! day with
      | None => Raised IndexError
      | Some recent_covid_data =>
          match newCasesBySpecimenDate recent_covid_data with
          | None => Raised TypeError
          | Some n => sum_cases covid_data days' (seven_day_cases + n)
          end
      end
  end.

(** [None] is the Python value [None], on which [covid_data[0]] is a
    [TypeError]. *)
Definition seven_day_case_calculator (covid_data : option (list day_record))
    : outcome Z :=
  match covid_data with
  | None => Raised TypeError
  | Some covid_data =>
      let! data_counter :=
        first_cases_index (length covid_data) covid_data 0 in
      sum_cases covid_data (seq data_counter 7) 0
  end.

Definition k_cases : string := "newCasesBySpecimenDate".
Definition k_hospital : string := "hospitalCases".
Definition k_deaths : string := "cumDailyNsoDeathsByDeathDate".

Definition test_covid_API_request
    (eng_data loc_data : option (jfield (list day_record))) : outcome unit :=
  match eng_data with
  | None => Raised SystemExit
  | Some Missing => Raised KeyError
  | Some Null => Raised SystemExit
  | Some (Present _) =>
      match loc_data with
      | None => Raised SystemExit
      | Some Missing => Raised KeyError
      | Some Null => Raised SystemExit
      | Some (Present _) => Normal tt
      end
  end.

(** [json['data']]: [Normal None] is the Python value [None]. *)
Definition subscript_data (j : option (jfield (list day_record)))
    : outcome (option (list day_record)) :=
  match j with
  | None => Raised TypeError
  | Some Missing => Raised KeyError
  | Some Null => Normal None
  | Some (Present l) => Normal (Some l)
  end.

Section Program.

Context (cfg : Config) (default_time : time_arg) (w : World).

(** The dictionaries handed to [set_covid_data]. *)
Definition process_covid_json_data
    (england_covid_data local_covid_data : option (list day_record))
    : outcome (gmap string stat * gmap string stat) :=
  match england_covid_data with
  | None => Raised TypeError
  | Some england_list =>
      match england_list !! 0%nat with
      | None => Raised IndexError
      | Some england_covid_recent =>
          let! found :=
            backtrack_national (length england_list) england_list 0
              (hospitalCases england_covid_recent)
              (cumDailyNsoDeathsByDeathDate england_covid_recent) in
          let england_hospital_cases := fst found in
          let england_total_deaths := snd found in
          let! england_recent_cases :=
            seven_day_case_calculator england_covid_data in
          let! local_recent_cases :=
            seven_day_case_calculator local_covid_data in
          let shown (z : Z) : stat :=
            if decide (commas cfg = "yes")
            then SStr (comma_separator (pretty z)) else SInt z in
          Normal
            (<[k_deaths := shown england_total_deaths]>
               (<[k_hospital := shown england_hospital_cases]>
                  (<[k_cases := shown england_recent_cases]> ∅)),
             <[k_cases := shown local_recent_cases]> ∅)
      end
  end.

Definition set_covid_data (england_dict local_dict : gmap string stat)
    : M unit :=
  modify (set_england_data (GDict england_dict)) ;;
  modify (set_local_data (GDict local_dict)).

Definition covid_API_request : M unit :=
  modify (set_england_data (GJson (england_json w))) ;;
  modify (set_local_data (GJson (local_json w))) ;;
  lift (test_covid_API_request (england_json w) (local_json w)) ;;
  do england <- lift (subscript_data (england_json w));
  modify (set_england_data (GData england)) ;;
  do local <- lift (subscript_data (local_json w));
  modify (set_local_data (GData local)) ;;
  do dicts <- lift (process_covid_json_data england local);
  set_covid_data (fst dicts) (snd dicts).

Definition return_covid_data : M (covid_global * covid_global) :=
  gets (fun st => (england_data st, local_data st)).

(* ===================================================================== *)
(** ** covid_news_handling.py: the news provider *)
(* ===================================================================== *)

Definition test_news_api_request
    (covid_request : option (jfield (list article))) : outcome unit :=
  match covid_request with
  | None => Raised SystemExit
  | Some Missing => Raised KeyError
  | Some Null => Raised SystemExit
  | Some (Present _) => Normal tt
  end.

(** [title in removed_article_titles]: a title equals an element only
    when both are the same string. *)
Definition title_removed (t : jval) (removed : list removed_arg) : bool :=
  existsb
    (fun r =>
       match t, r with
       | JStr s, RTitle s' => bool_decide (s = s')
       | _, _ => false
       end)
    removed.

Definition stored_article (t c : jval) : article :=
  <["title" := t]> (<["content" := c]> ∅).

(** [covid_news_data['articles']], then the loop over it. *)
Definition news_processor (covid_news_data : option (jfield (list article)))
    : M unit :=
  do articles <-
    lift (match covid_news_data with
          | Some (Present l) => Normal l
          | Some Missing => Raised KeyError
          | Some Null | None => Raised TypeError
          end);
  for_each articles (fun article =>
    do stored <- gets covid_news;
    if bool_decide (article ∈ stored) then ret tt
    else
      do t <- lift (dict_get article "title");
      do removed <- gets removed_article_titles;
      if title_removed t removed then ret tt
      else
        do c <- lift (dict_get article (displayed_content cfg));
        modify (fun st =>
                  set_covid_news (covid_news st ++ [stored_article t c]) st)).

Definition news_API_request : M unit :=
  lift (test_news_api_request (news_json w)) ;;
  news_processor (news_json w).

Definition return_covid_news : M (list article) := gets covid_news.

(** [remove_and_limit_news_articles] returns the bare list from its early
    exit and a pair otherwise. *)
Inductive limit_result :=
| ReturnedList (news_articles_list : list article)
| ReturnedPair (news_articles_list return_articles : list article).

Definition removed_len (r : removed_arg) : nat :=
  match r with
  | RTitle s => String.length s
  | RList l => length l
  end.

Fixpoint unremoved_of (removed : list removed_arg)
    (news_articles_list : list article) : outcome (list article) :=
  match news_articles_list with
  | [] => Normal []
  | current_article :: rest =>
      let! t := dict_get current_article "title" in
      let! unremoved := unremoved_of removed rest in
      Normal (if title_removed t removed then unremoved
              else current_article :: unremoved)
  end.

Definition limit_articles (unremoved_articles return_articles : list article)
    : list article :=
  fold_left
    (fun acc a =>
       if Z.of_nat (length acc) <? num_displayed_articles cfg
       then acc ++ [a] else acc)
    unremoved_articles return_articles.

Definition out_of_articles_message : article :=
  stored_article (JStr "") (JStr (no_articles_message cfg)).

Definition remove_and_limit_news_articles (news_articles_list : list article)
    (removed_article : removed_arg) : M limit_result :=
  if (length news_articles_list =? 0)%nat then
    ret (ReturnedList news_articles_list)
  else
    (if (0 <? removed_len removed_article)%nat then
       modify (fun st =>
                 set_removed_article_titles
                   (removed_article_titles st ++ [removed_article]) st)
     else ret tt) ;;
    do removed <- gets removed_article_titles;
    do unremoved_articles <- lift (unremoved_of removed news_articles_list);
    let return_articles :=
      if (length unremoved_articles =? 0)%nat
      then [out_of_articles_message] else [] in
    ret (ReturnedPair news_articles_list
           (limit_articles unremoved_articles return_articles)).

(* ===================================================================== *)
(** ** Scheduling and removing updates (both handler modules) *)
(* ===================================================================== *)

Definition run_action (a : action) : M unit :=
  match a with
  | covid_API_request_action => covid_API_request
  | news_API_request_action => news_API_request
  end.

(** [scheduler.run(blocking=False)]: fires, in queue order, every event
    whose time has come; an exception of an action leaves the loop with
    the event already popped.  No action enters an event, so the queue's
    length bounds the number of turns. *)
Fixpoint scheduler_run_from (src : source) (fuel : nat) : M unit :=
  fun st =>
    match fuel with
    | O => (Normal tt, st)
    | S fuel' =>
        let s := scheduler_of src st in
        match sq_queue s with
        | [] => (Normal tt, st)
        | event :: q =>
            if time_time w <? ev_time event then (Normal tt, st)
            else
              match run_action (ev_action event)
                      (set_scheduler_of src (mkScheduler q (sq_counter s)) st)
              with
              | (Normal _, st') => scheduler_run_from src fuel' st'
              | (Raised e, st') => (Raised e, st')
              end
        end
    end.

Definition scheduler_run (src : source) : M unit :=
  fun st =>
    scheduler_run_from src (length (sq_queue (scheduler_of src st))) st.

(** The common body of [schedule_covid_updates] and [update_news]. *)
Definition schedule_on (src : source) (update_interval : Z)
    (update_name : string) (repeat : bool) : M unit :=
  modify (fun st =>
            set_scheduler_of src
              (sched_enter (time_time w) update_interval 1
                 (request_action src) (scheduler_of src st)) st) ;;
  scheduler_run src ;;
  do queue <- gets (fun st => sq_queue (scheduler_of src st));
  match last queue with
  | None => raise IndexError
  | Some newest =>
      let update_to_add := mkQueueInfo newest update_name repeat in
      do info <- gets (queue_info_of src);
      let duplicate_tracker :=
        existsb (fun u => bool_decide (update_to_add = u)) info in
      if duplicate_tracker then ret tt
      else modify (set_queue_info_of src (info ++ [update_to_add]))
  end.

Definition schedule_covid_updates : Z -> string -> bool -> M unit :=
  schedule_on Covid.

Definition update_news : Z -> string -> bool -> M unit :=
  schedule_on News.

(** [covid_queue_info.remove(update)] / [news_queue_info.remove(update)]. *)
Definition queue_info_remove (src : source) (u : queue_info) : M unit :=
  fun st =>
    match list_remove u (queue_info_of src st) with
    | Some l => (Normal tt, set_queue_info_of src l st)
    | None => (Raised ValueError, st)
    end.

(** [try: scheduler.cancel(event) except ValueError: ...]. *)
Definition try_cancel (src : source) (event : Event) : M unit :=
  modify (fun st =>
            match sched_cancel event (scheduler_of src st) with
            | Some s => set_scheduler_of src s st
            | None => st
            end).

(** The common body of [remove_covid_data_update] and
    [remove_news_update]. *)
Definition remove_queue_update (src : source) (removed_update_name : string)
    (expired : bool) : M unit :=
  (if expired then
     for_in (queue_info_of src) (fun u =>
       if bool_decide (event_name u = removed_update_name)
       then queue_info_remove src u else ret tt)
   else ret tt) ;;
  for_in (queue_info_of src) (fun u =>
    if bool_decide (event_name u = removed_update_name) then
      let event_to_remove := event_id u in
      queue_info_remove src u ;;
      try_cancel src event_to_remove
    else ret tt).

Definition remove_covid_data_update : string -> bool -> M unit :=
  remove_queue_update Covid.

Definition remove_news_update : string -> bool -> M unit :=
  remove_queue_update News.

(* ===================================================================== *)
(** ** main.py *)
(* ===================================================================== *)

Definition newline : string := String (Ascii.ascii_of_nat 10) EmptyString.

Definition str_of_bool (b : bool) : string := if b then "True" else "False".

(** [str(x)] of a request argument. *)
Definition str_of_arg (x : option string) : string :=
  match x with
  | Some s => s
  | None => "None"
  end.

Definition is_not_None {A} (x : option A) : bool :=
  match x with
  | Some _ => true
  | None => false
  end.

Definition schedule_update (update_name : string) (given_time : option string)
    (repeat covid_update news_update : option string) : M unit :=
  let covid_update := is_not_None covid_update in
  let news_update := is_not_None news_update in
  let repeat := is_not_None repeat in
  do timing <-
    (if bool_decide (given_time = Some "") then
       ret (base_update_interval cfg, "00:00")
     else
       do update_buffer <-
         lift (time_buffer default_time (str_of_arg given_time) None);
       ret (update_buffer, str_of_arg given_time));
  let update_buffer := fst timing in
  let given_time := snd timing in
  let schedule_dictionary :=
    mkUpdate update_name
      ("COVID Update: " +:+ str_of_bool covid_update +:+ newline
       +:+ "News Update: " +:+ str_of_bool news_update +:+ newline
       +:+ "Repeat Update: " +:+ str_of_bool repeat +:+ newline
       +:+ "Update at: " +:+ given_time)
      covid_update news_update repeat given_time in
  do updates <- gets scheduled_updates;
  let duplicate_update :=
    existsb (fun u => bool_decide (schedule_dictionary = u)) updates in
  (if duplicate_update then ret tt
   else modify (set_scheduled_updates (updates ++ [schedule_dictionary]))) ;;
  if news_update && covid_update then
    schedule_covid_updates update_buffer update_name repeat ;;
    update_news update_buffer update_name repeat
  else if covid_update then
    schedule_covid_updates update_buffer update_name repeat
  else if news_update then
    update_news update_buffer update_name repeat
  else ret tt.

Definition repeat_updates_scheduler (u : update) : M unit :=
  do time_delay <- lift (time_buffer default_time (time u) None);
  if covid u && covid u then
    schedule_covid_updates time_delay (title u) true ;;
    update_news time_delay (title u) true
  else if covid u then
    schedule_covid_updates time_delay (title u) true
  else if news u then
    update_news time_delay (title u) true
  else ret tt.

(** The body of the re-arm loop of [render_webpage]. *)
Definition rearm_body (u : update) : M unit :=
  if repeat u then repeat_updates_scheduler u else ret tt.

Definition scheduled_updates_remove (u : update) : M unit :=
  fun st =>
    match list_remove u (scheduled_updates st) with
    | Some l => (Normal tt, set_scheduled_updates l st)
    | None => (Raised ValueError, st)
    end.

(** The test of the expiry loop; [and] evaluates the minutes only when
    the hours are equal. *)
Definition update_expired (u : update) : outcome bool :=
  let update_time := time u in
  let! h := int_of_str (str_take 2 update_time) in
  if h =? tm_hour w then
    let! m := int_of_str (str_drop 3 update_time) in
    Normal (m <=? tm_min w)
  else Normal false.

(** The calls that follow [scheduled_updates.remove(update)] in the expiry
    loop. *)
Definition expired_bookkeeping (u : update) : M unit :=
  if covid u && news u then
    remove_covid_data_update (title u) true ;;
    remove_news_update (title u) true
  else if covid u then remove_covid_data_update (title u) true
  else if news u then remove_news_update (title u) true
  else ret tt.

(** The body of the loop that serves a cancellation request. *)
Definition cancel_body (item : string) (u : update) : M unit :=
  if bool_decide (title u = item) then
    scheduled_updates_remove u ;;
    remove_news_update (title u) false ;;
    remove_covid_data_update (title u) false
  else ret tt.

(** The body of the expiry loop. *)
Definition expiry_body (u : update) : M unit :=
  do expired <- lift (update_expired u);
  if expired then
    scheduled_updates_remove u ;;
    expired_bookkeeping u
  else ret tt.

Definition remove_scheduled_update (req : Request) : M unit :=
  match arg_update_item req with
  | Some item => for_in scheduled_updates (cancel_body item)
  | None => ret tt
  end ;;
  for_in scheduled_updates expiry_body.

(** [covid_news, displayed_covid_articles = ...]: unpacking the bare list
    of the early exit, which is empty, is a [ValueError]. *)
Definition unpack_articles (r : limit_result) : M unit :=
  match r with
  | ReturnedList _ => raise ValueError
  | ReturnedPair _ return_articles =>
      modify (set_displayed_covid_articles return_articles)
  end.

Definition remove_and_update_news_article (req : Request) : M unit :=
  match arg_notif req with
  | Some removed =>
      do news_list <- gets covid_news;
      do return_tuple <-
        remove_and_limit_news_articles news_list (RTitle removed);
      unpack_articles return_tuple
  | None => ret tt
  end.

(** [d[key]] on what a data global currently holds. *)
Definition global_get (g : covid_global) (k : string) : outcome stat :=
  match g with
  | GDict d => dict_get d k
  | GJson (Some _) => Raised KeyError
  | GJson None | GData _ => Raised TypeError
  end.

(** The arguments handed to [render_template]. *)
Record Page := mkPage {
  page_updates : list update;
  local_7day_infections : stat;
  national_7day_infections : stat;
  hospital_cases : string;
  deaths_total : string;
  news_articles : list article }.

Definition render_webpage (req : Request) : M Page :=
  let current_time_hrs := tm_hour w in
  let current_time_mins := tm_min w in
  do data <- return_covid_data;
  modify (set_main_covid_data (fst data) (snd data)) ;;
  do displayed <- gets displayed_covid_articles;
  do news_list <- return_covid_news;
  (if (length displayed =? 0)%nat && (0 <? length news_list)%nat then
     do r <- remove_and_limit_news_articles news_list (RList []);
     unpack_articles r
   else ret tt) ;;
  (if is_not_None (arg_notif req) then remove_and_update_news_article req
   else ret tt) ;;
  remove_scheduled_update req ;;
  (if (current_time_hrs =? 23) && (current_time_mins =? 59) then
     for_in scheduled_updates rearm_body
   else ret tt) ;;
  match arg_two req with
  | Some two =>
      let entered_time := arg_update req in
      let repeat_updates := arg_repeat req in
      let update_covid := arg_covid_data req in
      let news_update := arg_news req in
      if bool_decide (update_covid = Some "covid-data")
         && bool_decide (news_update = Some "news") then
        schedule_update two entered_time repeat_updates update_covid
          news_update
      else if bool_decide (update_covid = Some "covid-data") then
        schedule_update two entered_time repeat_updates update_covid
          news_update
      else if bool_decide (news_update = Some "news") then
        schedule_update two entered_time repeat_updates update_covid
          news_update
      else ret tt
  | None => ret tt
  end ;;
  do england <- gets england_covid_data;
  do local <- gets local_covid_data;
  do england_7cases <- lift (global_get england k_cases);
  do local_7cases <- lift (global_get local k_cases);
  do h_cases <- lift (global_get england k_hospital);
  do total_deaths <- lift (global_get england k_deaths);
  do updates <- gets scheduled_updates;
  do articles <- gets displayed_covid_articles;
  ret (mkPage updates local_7cases england_7cases
         ("Hospital cases: " +:+ str_of_stat h_cases)
         ("Total deaths: " +:+ str_of_stat total_deaths)
         articles).

(** The statements [main] runs when it is imported. *)
Definition startup : M unit :=
  modify (set_scheduled_updates []) ;;
  covid_API_request ;;
  do data <- return_covid_data;
  modify (set_main_covid_data (fst data) (snd data)) ;;
  news_API_request ;;
  modify (set_displayed_covid_articles []).

End Program.

(** The globals as the three modules first bind them. *)
Definition initial_state : State :=
  mkState [] (GDict ∅) (GDict ∅) []
    (mkScheduler [] 0) (GDict ∅) (GDict ∅) []
    (mkScheduler [] 0) [] [] [].

(* ===================================================================== *)
(** * The remaining functions of the modules *)
(* ===================================================================== *)

(** ** covid_data_handler.py: the CSV functions *)

(** [s[:-1]]: the string without its last character. *)
Fixpoint str_drop_last (s : string) : string :=
  match s with
  | EmptyString => EmptyString
  | String c s' =>
      match s' with
      | EmptyString => EmptyString
      | String _ _ => String c (str_drop_last s')
      end
  end.

Definition comma : Ascii.ascii := Ascii.ascii_of_nat 44.

(** [s.split(sep)] for a one-character separator. *)
Fixpoint str_split (sep : Ascii.ascii) (s : string) : list string :=
  match s with
  | EmptyString => [EmptyString]
  | String c s' =>
      if decide (c = sep) then EmptyString :: str_split sep s'
      else
        match str_split sep s' with
        | field :: fields => String c field :: fields
        | [] => [String c EmptyString]
        end
  end.

(** [parse_csv_data], from the list that [readlines()] returned: every
    line loses its last character and is split at the commas into a
    tuple. *)
Definition parse_csv_data (covid_csv_file : list string) : list (list string) :=
  map (fun index => str_split comma (str_drop_last index)) covid_csv_file.

(** [covid_csv_data[r][c]]. *)
Definition cell (covid_csv_data : list (list string)) (r c : nat)
    : outcome string :=
  match covid_csv_data !! r with
  | None => Raised IndexError
  | Some line =>
      match line !! c with
      | None => Raised IndexError
      | Some v => Normal v
      end
  end.

(** The two loops [while value == '': value = data[counter][col];
    counter += 1].  The counter only grows, so the number of rows is fuel
    enough: the loop leaves through [IndexError] before it is spent. *)
Fixpoint csv_backtrack (fuel : nat) (covid_csv_data : list (list string))
    (col : nat) (value : string) (counter : nat) : outcome string :=
  if decide (value = EmptyString) then
    match fuel with
    | O => Raised IndexError
    | S fuel' =>
        let! v := cell covid_csv_data counter col in
        csv_backtrack fuel' covid_csv_data col v (S counter)
    end
  else Normal value.

(** [while covid_csv_data[last_seven_days_counter][6] == '']. *)
Fixpoint csv_first_cases (fuel : nat) (covid_csv_data : list (list string))
    (last_seven_days_counter : nat) : outcome nat :=
  let! v := cell covid_csv_data last_seven_days_counter 6 in
  if decide (v = EmptyString) then
    match fuel with
    | O => Raised IndexError
    | S fuel' =>
        csv_first_cases fuel' covid_csv_data (S last_seven_days_counter)
    end
  else Normal last_seven_days_counter.

Fixpoint csv_sum_cases (covid_csv_data : list (list string))
    (days : list nat) (last_seven_days_cases : Z) : outcome Z :=
  match days with
  | [] => Normal last_seven_days_cases
  | day :: days' =>
      let! v := cell covid_csv_data day 6 in
      let! n := int_of_str v in
      csv_sum_cases covid_csv_data days' (last_seven_days_cases + n)
  end.

(** [process_covid_csv_data]: the returned triple, or the exception, and
    the argument list as the call leaves it (its first row is removed in
    place). *)
Definition process_covid_csv_data (covid_csv_data : list (list string))
    : outcome (Z * Z * Z) * list (list string) :=
  match covid_csv_data !! 0%nat with
  | None => (Raised IndexError, covid_csv_data)
  | Some titles =>
      match list_remove titles covid_csv_data with
      | None => (Raised ValueError, covid_csv_data)
      | Some covid_csv_data =>
          (let! current_hospital_cases := cell covid_csv_data 0 5 in
           let! cumulative_deaths := cell covid_csv_data 0 4 in
           let! cumulative_deaths :=
             csv_backtrack (length covid_csv_data) covid_csv_data 4
               cumulative_deaths 1 in
           let! current_hospital_cases :=
             csv_backtrack (length covid_csv_data) covid_csv_data 5
               current_hospital_cases 1 in
           let! last_seven_days_counter :=
             csv_first_cases (length covid_csv_data) covid_csv_data 2 in
           let! last_seven_days_cases :=
             csv_sum_cases covid_csv_data (seq last_seven_days_counter 7) 0 in
           let! hospital := int_of_str current_hospital_cases in
           let! deaths := int_of_str cumulative_deaths in
           Normal (last_seven_days_cases, hospital, deaths),
           covid_csv_data)
      end
  end.

(** ** The configuration readers of the three modules *)

(** A value of the configuration file as [json.load] returns it
    (numbers without a fractional part). *)
Unset Elimination Schemes.
Inductive json :=
| JsNull
| JsBool (b : bool)
| JsNum (z : Z)
| JsString (s : string)
| JsArray (items : list json)
| JsObject (fields : list (string * json)).
Set Elimination Schemes.

(** The members of an object in file order; a repeated key keeps its
    last value. *)
Fixpoint json_lookup (k : string) (fields : list (string * json))
    : option json :=
  match fields with
  | [] => None
  | (k', v) :: rest =>
      match json_lookup k rest with
      | Some later => Some later
      | None => if decide (k' = k) then Some v else None
      end
  end.

(** [v[k]] for a string [k]. *)
Definition json_subscript (v : json) (k : string) : outcome json :=
  match v with
  | JsObject fields =>
      match json_lookup k fields with
      | Some x => Normal x
      | None => Raised KeyError
      end
  | _ => Raised TypeError
  end.

(** The truth value of a Python object. *)
Definition py_truthy (v : json) : bool :=
  match v with
  | JsNull => false
  | JsBool b => b
  | JsNum z => negb (z =? 0)
  | JsString s => negb (bool_decide (s = ""))
  | JsArray items => negb (bool_decide (items = []))
  | JsObject fields => negb (bool_decide (fields = []))
  end.

(** [first and v1 and ... and vn]: the first operand that is not true,
    or the last one. *)
Fixpoint and_chain (first : json) (rest : list json) : json :=
  match rest with
  | [] => first
  | v :: rest' => if py_truthy first then and_chain v rest' else first
  end.

(** The test of the readers' [while]: [(... and ...) is not None]. *)
Definition config_complete (first : json) (rest : list json) : bool :=
  match and_chain first rest with
  | JsNull => false
  | _ => true
  end.

(** What a reader can raise beyond the exceptions of the rest of the
    program. *)
Inductive config_error :=
| Builtin (e : exn)
| UnboundLocalError
| LookupError.

(** The outcome of a reader: a returned value, an exception, or a
    [while] that has not ended when the fuel is spent. *)
Inductive reading (A : Type) :=
| Returns (a : A)
| Fails (e : config_error)
| Spins.
Arguments Returns {A} a.
Arguments Fails {A} e.
Arguments Spins {A}.

Definition rbind {A B} (x : reading A) (k : A -> reading B) : reading B :=
  match x with
  | Returns a => k a
  | Fails e => Fails e
  | Spins => Spins
  end.

Definition of_outcome {A} (o : outcome A) : reading A :=
  match o with
  | Normal a => Returns a
  | Raised e => Fails (Builtin e)
  end.

Notation "'read!' x ':=' c 'in' k" := (rbind c (fun x => k))
  (at level 10, x name, c at level 100, k at level 200) : py_scope.

(** What a reader hands back: one value or a tuple.  Falling off the
    function's end returns [None], the value [Single JsNull]. *)
Inductive config_value :=
| Single (v : json)
| Tuple (vs : list json).

(** The configuration file as the readers see it: the result of
    [json.load] on the file opened without an encoding ([None]: the file
    is missing, the [FileNotFoundError] that [open] raises is caught),
    and on the file opened with the value of its ["encoding"] key. *)
Record ConfigFile := mkConfigFile {
  plain_read : option (outcome json);
  encoded_read : json -> config_error + json }.

(** The statements the three readers share before their section key is
    read.  After a caught [FileNotFoundError] the name [get_encoding] is
    unbound when [json.load] is called on it. *)
Definition load_config (file : ConfigFile) : reading json :=
  match plain_read file with
  | None => Fails UnboundLocalError
  | Some loaded =>
      read! data := of_outcome loaded in
      read! program_encoding := of_outcome (json_subscript data "encoding") in
      match encoded_read file program_encoding with
      | inl e => Fails e
      | inr data => Returns data
      end
  end.

(** The [while] of [config_data]: nothing in its body changes what its
    test reads. *)
Fixpoint config_data_loop (fuel : nat) (func_name : string)
    (location location_type commas : json) : reading config_value :=
  match fuel with
  | O => Spins
  | S fuel' =>
      if config_complete location [location_type; commas] then
        if decide (func_name = "process_covid_json_data") then
          Returns (Single commas)
        else if decide (func_name = "covid_API_request") then
          Returns (Tuple [location; location_type])
        else config_data_loop fuel' func_name location location_type commas
      else Returns (Single JsNull)
  end.

(** covid_data_handler.py *)
Definition config_data (fuel : nat) (func_name : string) (file : ConfigFile)
    : reading config_value :=
  read! data := load_config file in
  read! covid_json_data :=
    of_outcome (json_subscript data "covid_data_handler") in
  read! location := of_outcome (json_subscript covid_json_data "location") in
  read! location_type :=
    of_outcome (json_subscript covid_json_data "location_type") in
  read! commas := of_outcome (json_subscript covid_json_data "commas") in
  config_data_loop fuel func_name location location_type commas.

Fixpoint get_config_data_loop (fuel : nat) (func_name : string)
    (queries language sort_by displayed_content num_displayed_articles
       no_articles_message news_api_key : json) : reading config_value :=
  match fuel with
  | O => Spins
  | S fuel' =>
      if config_complete queries
           [language; sort_by; displayed_content; num_displayed_articles;
            no_articles_message; news_api_key] then
        if decide (func_name = "news_API_request") then
          Returns (Tuple [queries; language; sort_by; news_api_key])
        else if decide (func_name = "news_processor") then
          Returns (Single displayed_content)
        else if decide (func_name = "remove_and_limit_news_articles") then
          Returns (Tuple [num_displayed_articles; no_articles_message])
        else
          get_config_data_loop fuel' func_name queries language sort_by
            displayed_content num_displayed_articles no_articles_message
            news_api_key
      else Returns (Single JsNull)
  end.

(** covid_news_handling.py *)
Definition get_config_data (fuel : nat) (func_name : string)
    (file : ConfigFile) : reading config_value :=
  read! data := load_config file in
  read! json_news_data :=
    of_outcome (json_subscript data "covid_news_handling") in
  read! queries := of_outcome (json_subscript json_news_data "queries") in
  read! language := of_outcome (json_subscript json_news_data "language") in
  read! sort_by := of_outcome (json_subscript json_news_data "sort_by") in
  read! displayed_content :=
    of_outcome (json_subscript json_news_data "displayed_content") in
  read! num_displayed_articles :=
    of_outcome (json_subscript json_news_data "num_displayed_articles") in
  read! no_articles_message :=
    of_outcome (json_subscript json_news_data "no_articles_message") in
  read! news_api_key :=
    of_outcome (json_subscript json_news_data "news_api_key") in
  get_config_data_loop fuel func_name queries language sort_by
    displayed_content num_displayed_articles no_articles_message news_api_key.

Fixpoint find_config_data_loop (fuel : nat) (func_name : string)
    (image title location base_update_interval base_flask_route
       reroute_flask_route : json) : reading config_value :=
  match fuel with
  | O => Spins
  | S fuel' =>
      if config_complete image
           [title; location; base_update_interval; base_flask_route;
            reroute_flask_route] then
        if decide (func_name = "render_webpage") then
          Returns (Tuple [image; title; location])
        else if decide (func_name = "schedule_update") then
          Returns (Single base_update_interval)
        else if decide (func_name = "global") then
          Returns (Tuple [base_flask_route; reroute_flask_route])
        else
          find_config_data_loop fuel' func_name image title location
            base_update_interval base_flask_route reroute_flask_route
      else Returns (Single JsNull)
  end.

(** main.py *)
Definition find_config_data (fuel : nat) (func_name : string)
    (file : ConfigFile) : reading config_value :=
  read! data := load_config file in
  read! main_json_data := of_outcome (json_subscript data "main_program") in
  read! image := of_outcome (json_subscript main_json_data "image") in
  read! title := of_outcome (json_subscript main_json_data "title") in
  read! location := of_outcome (json_subscript main_json_data "location") in
  read! base_update_interval :=
    of_outcome (json_subscript main_json_data "base_update_interval") in
  read! flask_routes :=
    of_outcome (json_subscript main_json_data "flask_routes") in
  read! base_flask_route :=
    of_outcome (json_subscript flask_routes "base_flask_route") in
  read! reroute_flask_route :=
    of_outcome (json_subscript flask_routes "reroute_flask_route") in
  find_config_data_loop fuel func_name image title location
    base_update_interval base_flask_route reroute_flask_route.

(** main.py: the second route of the page. *)
Definition render_webpage_reroute (cfg : Config) (default_time : time_arg)
    (w : World) (req : Request) : M Page :=
  render_webpage cfg default_time w req.

(* ===================================================================== *)
(** * Vocabulary of the statements and sample inputs *)
(* ===================================================================== *)

(** The globals after a successful first load, nothing scheduled. *)
Definition loaded_state : State :=
  set_england_data
    (GDict (<[k_cases := SInt 1]>
              (<[k_hospital := SInt 2]> (<[k_deaths := SInt 3]> ∅))))
    (set_local_data (GDict (<[k_cases := SInt 1]> ∅)) initial_state).

(** The same world with another wall-clock reading of [time.localtime()]. *)
Definition set_localtime (h m : Z) (w : World) : World :=
  mkWorld (time_time w) h m (england_json w) (local_json w) (news_json w).

(** A configuration that shows at most four articles, with the message
    ["none"] for an empty page and figures without commas. *)
Definition config_max4 : Config := mkConfig "description" 4 "none" 60 "no".

(** A stored article whose title the user has removed. *)
Definition removed_article_A : article :=
  <["title" := JStr "A"]> (<["content" := JStr "text"]> ∅).

(** An article as the provider sends it: more keys than the stored
    two. *)
Definition provider_article : article :=
  <["title" := JStr "A"]>
    (<["description" := JStr "d"]> (<["url" := JStr "u"]> ∅)).

(** The rule as the specification words it: the value at the smallest
    index whose field is not null. *)
Fixpoint first_non_null (field : day_record -> option Z)
    (l : list day_record) : option Z :=
  match l with
  | [] => None
  | r :: l' =>
      match field r with
      | Some v => Some v
      | None => first_non_null field l'
      end
  end.

(** The England figure that a run of [process_covid_json_data] hands to
    [set_covid_data] under key [k]. *)
Definition england_figure (k : string)
    (r : outcome (gmap string stat * gmap string stat)) : option stat :=
  match r with
  | Normal dicts => fst dicts !! k
  | Raised _ => None
  end.

(** The most recent record lacks both figures; the next ones have them. *)
Definition both_null_first : list day_record :=
  [ mkDay None None (Some 1);
    mkDay (Some 10) (Some 100) (Some 2);
    mkDay (Some 11) (Some 101) (Some 3);
    mkDay (Some 12) (Some 102) (Some 4);
    mkDay (Some 13) (Some 103) (Some 5);
    mkDay (Some 14) (Some 104) (Some 6);
    mkDay (Some 15) (Some 105) (Some 7);
    mkDay (Some 16) (Some 106) (Some 8) ].

(** Ten records whose two most recent lack the hospital figure: the
    figure of index 2 is reported. *)
Definition ten_days : list day_record :=
  [ mkDay None (Some 200) (Some 1); mkDay None (Some 199) (Some 1);
    mkDay (Some 42) (Some 198) (Some 1); mkDay (Some 41) (Some 197) (Some 1);
    mkDay (Some 40) (Some 196) (Some 1); mkDay (Some 39) (Some 195) (Some 1);
    mkDay (Some 38) (Some 194) (Some 1); mkDay (Some 37) (Some 193) (Some 1);
    mkDay (Some 36) (Some 192) (Some 1); mkDay (Some 35) (Some 191) (Some 1) ].

(** Both globals of one handler module at once. *)
Definition put (src : source) (l : list queue_info) (s : scheduler)
    (st : State) : State :=
  set_scheduler_of src s (set_queue_info_of src l st).

(** The first loop of [remove_queue_update], on the list alone. *)
Fixpoint drop_named (name : string) (fuel i : nat) (l : list queue_info)
    : list queue_info :=
  match fuel with
  | O => l
  | S fuel' =>
      match l !! i with
      | None => l
      | Some u =>
          if bool_decide (event_name u = name) then
            match list_remove u l with
            | Some l' => drop_named name fuel' (S i) l'
            | None => l
            end
          else drop_named name fuel' (S i) l
      end
  end.

Definition cancel_or_keep (e : Event) (s : scheduler) : scheduler :=
  match sched_cancel e s with
  | Some s' => s'
  | None => s
  end.

(** Its second loop, on the list and the scheduler. *)
Fixpoint cancel_named (name : string) (fuel i : nat) (l : list queue_info)
    (s : scheduler) : list queue_info * scheduler :=
  match fuel with
  | O => (l, s)
  | S fuel' =>
      match l !! i with
      | None => (l, s)
      | Some u =>
          if bool_decide (event_name u = name) then
            match list_remove u l with
            | Some l' =>
                cancel_named name fuel' (S i) l'
                  (cancel_or_keep (event_id u) s)
            | None => (l, s)
            end
          else cancel_named name fuel' (S i) l s
      end
  end.

Definition removed_queue (name : string) (expired : bool)
    (l : list queue_info) (s : scheduler) : list queue_info * scheduler :=
  let l1 := if expired then drop_named name (length l) 0 l else l in
  cancel_named name (length l1) 0 l1 s.

Definition other_name (name : string) (u : queue_info) : bool :=
  negb (bool_decide (event_name u = name)).

(** No record of [name] in the module's list still has its event in the
    scheduler queue: the name was never scheduled there, or its events
    have fired. *)
Definition nothing_pending (src : source) (name : string) (st : State) : Prop :=
  forall u, u ∈ queue_info_of src st -> event_name u = name ->
            event_id u ∉ sq_queue (scheduler_of src st).

(** A record whose event has left the scheduler queue. *)
Definition stale_record : queue_info :=
  mkQueueInfo (mkEvent 100 1 0 covid_API_request_action) "T" false.

Definition stale_state : State := set_covid_queue_info [stale_record] initial_state.

(** The provider gave nothing: no JSON at all, or a [null] under the
    payload key. *)
Definition no_data {A} (j : option (jfield A)) : Prop :=
  j = None \/ j = Some Null.

Definition provider_silent (src : source) (w : World) : Prop :=
  match src with
  | Covid =>
      no_data (england_json w)
      \/ ((exists l, england_json w = Some (Present l))
          /\ no_data (local_json w))
  | News => no_data (news_json w)
  end.

(** A state whose one scheduled refresh is overdue, a world whose
    statistics provider is silent, and a request that schedules a new
    update. *)
Definition overdue_state : State :=
  set_covid_scheduler
    (mkScheduler [mkEvent 100 1 0 covid_API_request_action] 1) loaded_state.

Definition silent_world : World := mkWorld 200 9 0 None None None.

Definition schedule_request : Request :=
  mkRequest None (Some "U") (Some "11:00") None (Some "covid-data") None None.

(** The hour and minute a registry entry asks for, when its time string
    reads as two numbers. *)
Definition target_hm (u : update) : option (Z * Z) :=
  match int_of_str (str_take 2 (time u)),
        int_of_str (str_drop 3 (time u)) with
  | Normal h, Normal m => Some (h, m)
  | _, _ => None
  end.

(** The test of the scan: same hour as the wall clock, minute reached. *)
Definition same_hour_reached (w : World) (u : update) : bool :=
  match target_hm u with
  | Some (h, m) => (h =? tm_hour w) && (m <=? tm_min w)
  | None => false
  end.

Definition still_ahead (w : World) (u : update) : bool :=
  negb (same_hour_reached w u).

(** No entry that passes [P] is directly followed by another one. *)
Fixpoint no_two_adjacent {A} (P : A -> bool) (l : list A) : Prop :=
  match l with
  | x :: ((y :: _) as l') =>
      (P x = true -> P y = false) /\ no_two_adjacent P l'
  | _ => True
  end.

(** The state after the bookkeeping of an expired entry. *)
Definition retire (s : State) (u : update) : State :=
  snd (expired_bookkeeping u s).

Definition no_request : Request :=
  mkRequest None None None None None None None.

Definition quarter_to_ten : World := mkWorld 35100 9 45 None None None.

Definition update_0830 : update := mkUpdate "T" "" true false false "08:30".
Definition update_0910 : update := mkUpdate "A" "" true false false "09:10".
Definition update_0920 : update := mkUpdate "B" "" true false false "09:20".

Definition ten_o_clock : World := mkWorld 36000 10 0 None None None.
Definition one_to_midnight : World := mkWorld 86340 23 59 None None None.

(** The state after a repeating update for 23:59 was scheduled at 10:00
    in a process started at 10:00. *)
Definition armed_state : State :=
  snd (schedule_update config_max4 (StructTime 10 0) ten_o_clock
         "T" (Some "23:59") (Some "repeat") (Some "covid-data") None
         loaded_state).

(** A repeating update for 08:00 in the registry. *)
Definition repeating_0800 : update := mkUpdate "R" "" true false true "08:00".

(** Whether an operation returned rather than raised. *)
Definition returned {A} (r : outcome A * State) : bool :=
  match fst r with
  | Normal _ => true
  | Raised _ => false
  end.

(** The event that [enter] creates. *)
Definition entered_event (w : World) (src : source) (delay : Z) (s : scheduler)
    : Event :=
  mkEvent (time_time w + delay) 1 (sq_counter s) (request_action src).

(** The record list after [schedule_on] looked for a duplicate. *)
Definition recorded (r : queue_info) (info : list queue_info)
    : list queue_info :=
  if existsb (fun u => bool_decide (r = u)) info then info else info ++ [r].

(** The state [schedule_on] leaves when no event fires. *)
Definition scheduled_on (w : World) (src : source) (delay : Z) (name : string)
    (rep : bool) (st : State) : State :=
  let s' := sched_enter (time_time w) delay 1 (request_action src)
              (scheduler_of src st) in
  let newest :=
    default (entered_event w src delay (scheduler_of src st))
      (last (sq_queue s')) in
  put src (recorded (mkQueueInfo newest name rep) (queue_info_of src st)) s' st.

Definition nothing_due (w : World) (src : source) (st : State) : Prop :=
  forall e, e ∈ sq_queue (scheduler_of src st) -> time_time w < ev_time e.

(** The dictionary [schedule_update] builds for a request. *)
Definition requested_update (name given : string) (rep cu nu : option string)
    : update :=
  mkUpdate name
    ("COVID Update: " +:+ str_of_bool (is_not_None cu) +:+ newline
     +:+ "News Update: " +:+ str_of_bool (is_not_None nu) +:+ newline
     +:+ "Repeat Update: " +:+ str_of_bool (is_not_None rep) +:+ newline
     +:+ "Update at: " +:+ given)
    (is_not_None cu) (is_not_None nu) (is_not_None rep) given.

(** The registry after [schedule_update] looked for a duplicate. *)
Definition registered (u : update) (l : list update) : list update :=
  if existsb (fun v => bool_decide (u = v)) l then l else l ++ [u].

Definition refreshed (w : World) (delay : Z) (name : string) (rep c n : bool)
    (st : State) : State :=
  let st1 := if c then scheduled_on w Covid delay name rep st else st in
  if n then scheduled_on w News delay name rep st1 else st1.

Definition refreshes (src : source) (cu nu : option string) : bool :=
  match src with
  | Covid => is_not_None cu
  | News => is_not_None nu
  end.

(** Only [covid_news] differs between the two states. *)
Definition only_news (st st' : State) : Prop :=
  st' = set_covid_news (covid_news st') st.

(** [sep.join(fields)]. *)
Fixpoint str_join (sep : Ascii.ascii) (fields : list string) : string :=
  match fields with
  | [] => EmptyString
  | [field] => field
  | field :: rest => field +:+ String sep (str_join sep rest)
  end.

(** Whether a character occurs in a string. *)
Fixpoint str_has (c : Ascii.ascii) (s : string) : bool :=
  match s with
  | EmptyString => false
  | String x s' => bool_decide (x = c) || str_has c s'
  end.

(** The value in column [col] of the first row where it is not empty;
    [None] when the rows, or the columns of a row, run out first. *)
Fixpoint first_filled (col : nat) (rows : list (list string)) : option string :=
  match rows with
  | [] => None
  | line :: rows' =>
      match line !! col with
      | None => None
      | Some v =>
          if decide (v = EmptyString) then first_filled col rows' else Some v
      end
  end.

(** A CSV file of a header and nine daily rows; the most recent row
    lacks the deaths figure, the two most recent the hospital figure. *)
Definition sample_csv_lines : list string :=
  map (fun body => body +:+ newline)
    [ "areaCode,areaName,areaType,date,cumDeaths,hospitalCases,newCases";
      "E1,England,nation,d9,,,";
      "E1,England,nation,d8,140,,900";
      "E1,England,nation,d7,139,70,10";
      "E1,England,nation,d6,138,69,20";
      "E1,England,nation,d5,137,68,30";
      "E1,England,nation,d4,136,67,40";
      "E1,England,nation,d3,135,66,50";
      "E1,England,nation,d2,134,65,60";
      "E1,England,nation,d1,133,64,70" ].

(** A string with its commas taken out. *)
Definition without_commas (s : string) : string :=
  String.string_of_list_ascii
    (List.filter (fun c => negb (bool_decide (c = comma)))
       (String.list_ascii_of_string s)).

(** A figure as [process_covid_json_data] stores it: with thousands
    separators when the configuration asks for them. *)
Definition shown_figure (cfg : Config) (z : Z) : stat :=
  if decide (commas cfg = "yes") then SStr (comma_separator (pretty z))
  else SInt z.

(** The first non-null value of [field], with the records behind it. *)
Fixpoint after_first (field : day_record -> option Z) (l : list day_record)
    : option (Z * list day_record) :=
  match l with
  | [] => None
  | r :: l' =>
      match field r with
      | Some v => Some (v, l')
      | None => after_first field l'
      end
  end.

(** The figures behind the most recent record: a missing hospital figure
    is looked for first, and a missing deaths figure only in the records
    behind the one that gave the hospital figure. *)
Definition figures_behind (h0 d0 : option Z) (rest : list day_record)
    : option (Z * Z) :=
  match h0, d0 with
  | Some h, Some d => Some (h, d)
  | Some h, None =>
      match first_non_null cumDailyNsoDeathsByDeathDate rest with
      | Some d => Some (h, d)
      | None => None
      end
  | None, _ =>
      match after_first hospitalCases rest with
      | Some (h, behind) =>
          match d0 with
          | Some d => Some (h, d)
          | None =>
              match first_non_null cumDailyNsoDeathsByDeathDate behind with
              | Some d => Some (h, d)
              | None => None
              end
          end
      | None => None
      end
  end.

Definition national_figures (l : list day_record) : option (Z * Z) :=
  match l with
  | [] => None
  | r0 :: rest =>
      figures_behind (hospitalCases r0) (cumDailyNsoDeathsByDeathDate r0) rest
  end.

(** A record without any figure, and a list whose only hospital figure
    is in its last record. *)
Definition blank_day : day_record := mkDay None None None.


Definition has_no_cases (r : day_record) : Prop :=
  newCasesBySpecimenDate r = None.

(** An article as the provider sends it: it has a title, the configured
    content field and some key that a stored article lacks. *)
Definition provider_format (cfg : Config) (a : article) : Prop :=
  is_Some (a !! "title")
  /\ is_Some (a !! displayed_content cfg)
  /\ exists k, k <> "title" /\ k <> "content" /\ is_Some (a !! k).

(** An article as [news_processor] stores it: no key but ["title"] and
    ["content"]. *)
Definition stored_format (a : article) : Prop :=
  forall k, k <> "title" -> k <> "content" -> a !! k = None.

(** What [news_processor] stores of a payload: title and content of the
    articles whose title has not been removed, in the payload's order. *)
Fixpoint kept_articles (cfg : Config) (removed : list removed_arg)
    (articles : list article) : list article :=
  match articles with
  | [] => []
  | a :: rest =>
      match a !! "title", a !! displayed_content cfg with
      | Some t, Some c =>
          if title_removed t removed then kept_articles cfg removed rest
          else stored_article t c :: kept_articles cfg removed rest
      | _, _ => kept_articles cfg removed rest
      end
  end.

(** The articles whose title is not among the removed ones. *)
Definition visible_articles (removed : list removed_arg) (l : list article)
    : list article :=
  List.filter
    (fun a => match a !! "title" with
              | Some t => negb (title_removed t removed)
              | None => false
              end) l.

(** The articles of a page: the first [num_displayed_articles] visible
    ones, or the placeholder when none is visible. *)
Definition shown_articles (cfg : Config) (removed : list removed_arg)
    (l : list article) : list article :=
  match visible_articles removed l with
  | [] => [out_of_articles_message cfg]
  | visible => take (Z.to_nat (num_displayed_articles cfg)) visible
  end.

(** The removed titles after a call with argument [r]: an empty title or
    list is not recorded. *)
Definition with_removed (r : removed_arg) (removed : list removed_arg)
    : list removed_arg :=
  if (0 <? removed_len r)%nat then removed ++ [r] else removed.

Definition three_articles : list article :=
  [ stored_article (JStr "A") (JStr "a"); stored_article (JStr "B") (JStr "b");
    stored_article (JStr "C") (JStr "c") ].

Definition notif_request (t : string) : Request :=
  mkRequest (Some t) None None None None None None.

(** No record of the module's list carries [name]. *)
Definition fresh_name (src : source) (name : string) (st : State) : Prop :=
  forall u, u ∈ queue_info_of src st -> event_name u <> name.

Definition named (name : string) (u : queue_info) : bool :=
  bool_decide (event_name u = name).

(** The event that [enter] creates sorts behind every queued one. *)
Definition enters_last (w : World) (src : source) (delay : Z) (st : State)
    : Prop :=
  Forall
    (fun x => event_lt (entered_event w src delay (scheduler_of src st)) x
              = false)
    (sq_queue (scheduler_of src st)).

(** Every queued event got its sequence number from the counter. *)
Definition sequenced (s : scheduler) : Prop :=
  Forall (fun x => (ev_sequence x < sq_counter s)%nat) (sq_queue s).

(** A refresh of the statistics pending for the next day, with its
    record. *)
Definition tomorrow_event : Event := mkEvent 120000 1 0 covid_API_request_action.

Definition pending_state : State :=
  set_covid_queue_info [mkQueueInfo tomorrow_event "old" false]
    (set_covid_scheduler (mkScheduler [tomorrow_event] 1) loaded_state).

(** A world whose providers answer. *)
Definition answering_world : World :=
  mkWorld 36000 10 0 (Some (Present ten_days)) (Some (Present ten_days))
    (Some (Present [provider_article])).

(** An operation respects [R] when [R] relates the state it starts in to
    the state it leaves, whether it returns or raises. *)
Definition preserves {A} (R : State -> State -> Prop) (c : M A) : Prop :=
  forall st, R st (snd (c st)).

(** [main]'s copies of the figures are the same in both states. *)
Definition same_page_data (st st' : State) : Prop :=
  england_covid_data st' = england_covid_data st
  /\ local_covid_data st' = local_covid_data st.

(** The stored articles and the removed titles of [st] are still there,
    in place, in [st']. *)
Definition lists_grow (st st' : State) : Prop :=
  covid_news st `prefix_of` covid_news st'
  /\ removed_article_titles st `prefix_of` removed_article_titles st'.

Definition stored_format_kept (st st' : State) : Prop :=
  Forall stored_format (covid_news st) ->
  Forall stored_format (covid_news st').

(** A state whose one scheduled refresh of the statistics is overdue,
    and a request that removes an article and schedules an update. *)
Definition busy_request : Request :=
  mkRequest (Some "A") (Some "U") (Some "11:00") None (Some "covid-data")
    (Some "news") None.

Definition busy_state : State :=
  set_covid_news three_articles overdue_state.

(** Whether the scan of a poll has no reason to remove an entry: its
    title is not the one a request cancels, and its time, which reads
    as two plain numbers, has not come. *)
Definition stays (w : World) (req : Request) (u : update) : bool :=
  negb (bool_decide (arg_update_item req = Some (title u)))
  && match target_hm u with
     | Some (h, m) => negb ((h =? tm_hour w) && (m <=? tm_min w))
     | None => false
     end.

(** The registry of [st'] is the one of [st] with some entries taken
    out, none of which [stays]. *)
Definition scanned (w : World) (req : Request) (st st' : State) : Prop :=
  sublist (scheduled_updates st') (scheduled_updates st)
  /\ List.filter (stays w req) (scheduled_updates st')
     = List.filter (stays w req) (scheduled_updates st).

(** A character that [int] accepts nowhere in a string: an ASCII
    character that is no digit, no blank (codes 9 to 13 and 28 to 32),
    no sign and no underscore. *)
Definition not_in_a_number (c : Ascii.ascii) : bool :=
  let n := Z.of_N (Ascii.N_of_ascii c) in
  (n <? 128)
  && negb ((48 <=? n) && (n <=? 57))
  && negb (((9 <=? n) && (n <=? 13)) || ((28 <=? n) && (n <=? 32)))
  && negb ((n =? 43) || (n =? 45) || (n =? 95)).

(** The page articles are the same in both states. *)
Definition same_displayed (st st' : State) : Prop :=
  displayed_covid_articles st' = displayed_covid_articles st.

Definition cancel_request (item : string) : Request :=
  mkRequest None None None None None None (Some item).



(** The statistics and the stored news are the same in both states. *)
Definition same_handler_data (st st' : State) : Prop :=
  england_data st' = england_data st
  /\ local_data st' = local_data st
  /\ covid_news st' = covid_news st.

(** A configuration file that reads the same with the encoding it
    names, given by its sections. *)
Definition config_file (sections : list (string * json)) : ConfigFile :=
  mkConfigFile
    (Some (Normal (JsObject (("encoding", JsString "utf-8") :: sections))))
    (fun _ => inr (JsObject (("encoding", JsString "utf-8") :: sections))).

(** A statistics section with an empty location and no [commas]
    setting. *)
Definition blank_location_file : ConfigFile :=
  config_file
    [("covid_data_handler",
      JsObject [("location", JsString ""); ("location_type", JsString "ltla");
                ("commas", JsNull)])].

(* ===================================================================== *)
(** * Properties *)
(* ===================================================================== *)

(** ** Parsing and [time_buffer] *)

Lemma int_digits_nonneg (s : string) (acc z : Z) :
  0 <= acc -> int_digits acc s = Some z -> 0 <= z.
Proof.
  revert acc. induction s as [|c s IH]; intros acc Hacc; simpl.
  - intros [= <-]. exact Hacc.
  - destruct (digit_of c) as [d|] eqn:Hd; [|discriminate].
    apply IH. unfold digit_of in Hd.
    destruct (_ && _) eqn:Hb; [|discriminate].
    injection Hd as <-. apply andb_prop in Hb. lia.
Qed.

Lemma int_of_str_nonneg (s : string) (z : Z) :
  int_of_str s = Normal z -> 0 <= z.
Proof.
  unfold int_of_str. destruct s as [|c s]; [discriminate|].
  destruct (int_digits 0 (String c s)) as [v|] eqn:Hv; [|discriminate].
  intros [= <-]. eapply int_digits_nonneg; [|exact Hv]. lia.
Qed.

(** The seconds-since-midnight of the string ["00:00"]: 3660 zeros, read
    back by [int] as 0. *)
Lemma midnight_string_seconds :
  obind (py_add (py_mul (py_mul (VStr "0") 60) 60) (py_mul (VStr "0") 60))
    py_int = Normal 0.
Proof. vm_compute. reflexivity. Qed.

Lemma time_buffer_rec_midnight (depth : nat) (dt : time_arg) (given : string)
    (h m : Z) :
  int_of_str (str_take 2 given) = Normal h ->
  int_of_str (str_drop 3 given) = Normal m ->
  time_buffer_rec (S depth) dt given (TimeStr "00:00")
  = Normal (h * 60 * 60 + m * 60).
Proof.
  intros Hh Hm.
  pose proof (int_of_str_nonneg _ _ Hh) as Hh0.
  pose proof (int_of_str_nonneg _ _ Hm) as Hm0.
  pose proof midnight_string_seconds as Hs.
  cbn [time_buffer_rec].
  change (time_index (TimeStr "00:00") 3) with (Normal (VStr "0")).
  change (time_index (TimeStr "00:00") 4) with (Normal (VStr "0")).
  cbn [obind].
  destruct (py_add (py_mul (py_mul (VStr "0") 60) 60) (py_mul (VStr "0") 60))
    as [v|e]; [|discriminate].
  cbn [obind] in Hs |- *. rewrite Hh, Hm. cbn [obind]. rewrite Hs.
  cbn [obind]. rewrite Z.sub_0_r.
  destruct (_ <? 0) eqn:Hlt; [apply Z.ltb_lt in Hlt; lia | reflexivity].
Qed.

Lemma time_buffer_rec_struct (depth : nat) (dt : time_arg) (given : string)
    (hn mn h m : Z) :
  int_of_str (str_take 2 given) = Normal h ->
  int_of_str (str_drop 3 given) = Normal m ->
  time_buffer_rec (S depth) dt given (StructTime hn mn)
  = if h * 60 * 60 + m * 60 - (hn * 60 * 60 + mn * 60) <? 0 then
      obind (time_buffer_rec depth dt "24:00" dt) (fun now_midnight =>
      obind (time_buffer_rec depth dt given (TimeStr "00:00"))
        (fun midnight_time => Normal (now_midnight + midnight_time)))
    else Normal (h * 60 * 60 + m * 60 - (hn * 60 * 60 + mn * 60)).
Proof.
  intros Hh Hm. cbn [time_buffer_rec time_index obind py_mul py_add].
  rewrite Hh, Hm. reflexivity.
Qed.

(** What [time_buffer] computes: the difference to [current_time] when the
    target is still ahead, and otherwise the seconds from the *default*
    time to midnight plus the target's seconds since midnight. *)
Lemma time_buffer_formula (h0 m0 : Z) (given : string) (hn mn h m : Z) :
  h0 * 60 * 60 + m0 * 60 <= 86400 ->
  int_of_str (str_take 2 given) = Normal h ->
  int_of_str (str_drop 3 given) = Normal m ->
  time_buffer (StructTime h0 m0) given (Some (StructTime hn mn))
  = Normal
      (if h * 60 * 60 + m * 60 - (hn * 60 * 60 + mn * 60) <? 0
       then (86400 - (h0 * 60 * 60 + m0 * 60)) + (h * 60 * 60 + m * 60)
       else h * 60 * 60 + m * 60 - (hn * 60 * 60 + mn * 60)).
Proof.
  intros H0 Hh Hm. unfold time_buffer.
  change recursion_limit with (S (S 998)).
  rewrite (time_buffer_rec_struct _ _ _ _ _ h m Hh Hm).
  destruct (_ <? 0) eqn:Hlt; [|reflexivity].
  rewrite (time_buffer_rec_struct _ _ "24:00" h0 m0 24 0)
    by (vm_compute; reflexivity).
  rewrite (time_buffer_rec_midnight _ _ _ h m Hh Hm).
  destruct (24 * 60 * 60 + 0 * 60 - _ <? 0) eqn:Hneg.
  - apply Z.ltb_lt in Hneg. lia.
  - cbn [obind]. f_equal; lia.
Qed.

Lemma time_buffer_omitted (dt : time_arg) (given : string) :
  time_buffer dt given None = time_buffer dt given (Some dt).
Proof. unfold time_buffer. reflexivity. Qed.

(** A one-argument call is a call at the default time, for which the
    delay stays within a day. *)
Lemma time_buffer_default_bounds (h0 m0 : Z) (given : string) (h m : Z) :
  0 <= h0 <= 23 -> 0 <= m0 <= 59 ->
  int_of_str (str_take 2 given) = Normal h ->
  int_of_str (str_drop 3 given) = Normal m ->
  h <= 23 -> m <= 59 ->
  exists d, time_buffer (StructTime h0 m0) given None = Normal d
            /\ 0 <= d < 86400.
Proof.
  intros Hh0 Hm0 Hh Hm Hhb Hmb.
  pose proof (int_of_str_nonneg _ _ Hh) as Hh1.
  pose proof (int_of_str_nonneg _ _ Hm) as Hm1.
  rewrite time_buffer_omitted.
  rewrite (time_buffer_formula h0 m0 given h0 m0 h m); [|lia|assumption..].
  eexists. split; [reflexivity|].
  destruct (_ <? 0) eqn:Hlt.
  - apply Z.ltb_lt in Hlt. lia.
  - apply Z.ltb_ge in Hlt. lia.
Qed.

(** C2 (the code departs from the claim).  The claim bounds
    [time_buffer(target, now)] by one day for every [now].  With an
    explicit [now] of 12:00 in a process whose default time is 10:00, the
    target 11:00 gets 90000 seconds, more than the 86400 of a day: the
    wrap-around branch measures the time to midnight from the default
    time, not from the [current_time] it was given. *)
Theorem time_buffer_explicit_now_exceeds_day :
  time_buffer (StructTime 10 0) "11:00" (Some (StructTime 12 0))
  = Normal 90000
  /\ 86400 <= 90000.
Proof. split; [vm_compute; reflexivity | lia]. Qed.

(** The special target ["24:00"] at midnight is one full day. *)
Lemma time_buffer_midnight_full_day :
  time_buffer (StructTime 0 0) "24:00" (Some (StructTime 0 0)) = Normal 86400.
Proof. vm_compute. reflexivity. Qed.

(** In a process started at 10:00, a one-argument call made at 17:45 for
    18:00 answers 28800 seconds, the distance from 10:00; the distance
    from the wall clock, which an explicit second argument gives, is 900. *)
Example one_argument_call_ignores_wall_clock :
  time_buffer (StructTime 10 0) "18:00" None = Normal 28800
  /\ time_buffer (StructTime 10 0) "18:00" (Some (StructTime 17 45))
     = Normal 900.
Proof. split; vm_compute; reflexivity. Qed.

(** C9.  The default of [current_time] is fixed when the module is
    imported: a call that omits the argument computes the delay against
    that default time [(h0, m0)], whatever the wall clock shows when the
    call is made.  So the delay is the closed formula below in terms of
    the import-time clock only, and [schedule_update] and
    [repeat_updates_scheduler], whose calls to [time_buffer] all omit
    the argument, behave the same under every wall-clock reading. *)
Theorem time_buffer_default_fixed_at_import
    (cfg : Config) (h0 m0 : Z) (w : World) (hh mm : Z) (st : State)
    (name given : string) (given_arg rep cu nu : option string) (u : update)
    (h m : Z) :
  0 <= h0 <= 23 -> 0 <= m0 <= 59 ->
  int_of_str (str_take 2 given) = Normal h ->
  int_of_str (str_drop 3 given) = Normal m ->
  time_buffer (StructTime h0 m0) given None
  = Normal
      (if h * 60 * 60 + m * 60 - (h0 * 60 * 60 + m0 * 60) <? 0
       then (86400 - (h0 * 60 * 60 + m0 * 60)) + (h * 60 * 60 + m * 60)
       else h * 60 * 60 + m * 60 - (h0 * 60 * 60 + m0 * 60))
  /\ schedule_update cfg (StructTime h0 m0) (set_localtime hh mm w)
       name given_arg rep cu nu st
     = schedule_update cfg (StructTime h0 m0) w name given_arg rep cu nu st
  /\ repeat_updates_scheduler cfg (StructTime h0 m0) (set_localtime hh mm w)
       u st
     = repeat_updates_scheduler cfg (StructTime h0 m0) w u st.
Proof.
  intros Hh0 Hm0 Hh Hm. split; [|split].
  - rewrite time_buffer_omitted.
    apply time_buffer_formula; [lia|assumption..].
  - unfold schedule_update, bind, lift.
    destruct (bool_decide (given_arg = Some "")); [reflexivity|].
    destruct (time_buffer _ _ _); reflexivity.
  - unfold repeat_updates_scheduler, bind, lift.
    destruct (time_buffer _ _ _); reflexivity.
Qed.

(** At import time 10:00, the target 08:30 lies 81000 seconds ahead. *)
Lemma time_buffer_default_fixed_at_import_witness :
  time_buffer (StructTime 10 0) "08:30" None = Normal 81000.
Proof.
  pose proof (time_buffer_default_fixed_at_import
                (mkConfig "description" 4 "none" 60 "no") 10 0
                (mkWorld 0 17 45 None None None) 9 5 initial_state
                "T" "08:30" (Some "08:30") None None None
                (mkUpdate "T" "" true false true "08:30") 8 30
                ltac:(lia) ltac:(lia) ltac:(vm_compute; reflexivity)
                ltac:(vm_compute; reflexivity)) as [H _].
  exact H.
Defined.

(** ** The article visibility filter *)

Lemma title_removed_elem (s : string) (removed : list removed_arg) :
  RTitle s ∈ removed -> title_removed (JStr s) removed = true.
Proof.
  intros Hin. unfold title_removed. apply existsb_exists.
  exists (RTitle s). split.
  - apply list_elem_of_In. exact Hin.
  - apply bool_decide_eq_true. reflexivity.
Qed.

Lemma unremoved_of_all_removed (removed : list removed_arg)
    (l : list article) :
  (forall a : article, a ∈ l ->
     exists s, a !! "title" = Some (JStr s) /\ RTitle s ∈ removed) ->
  unremoved_of removed l = Normal [].
Proof.
  induction l as [|a l IH]; intros Hall; [reflexivity|].
  destruct (Hall a) as (s & Ht & Hs); [left|].
  cbn [unremoved_of]. unfold dict_get. rewrite Ht. cbn [obind].
  rewrite IH by (intros b Hb; apply Hall; right; exact Hb).
  cbn [obind]. rewrite (title_removed_elem _ _ Hs). reflexivity.
Qed.

(** C5 (the code departs from the claim).  The claim, like the
    function's own signature and docstring, has the empty article list
    answered by the placeholder entry with the configured message.  For
    the empty list the function leaves through its early exit and hands
    back the bare empty list: no pair, and no placeholder. *)
Lemma visible_empty_list_has_no_placeholder :
  let r := fst (remove_and_limit_news_articles config_max4 [] (RList [])
                  initial_state) in
  r = Normal (ReturnedList [])
  /\ forall l, r <> Normal (ReturnedPair l [out_of_articles_message config_max4]).
Proof. split; [reflexivity | intros l; discriminate]. Qed.

(** Where the placeholder does appear: a non-empty list whose titles
    have all been removed comes back paired with the single placeholder
    entry (empty title, the configured message as content), and the
    state is untouched. *)
Lemma visible_placeholder_when_all_removed
    (cfg : Config) (news : list article) (st : State) :
  (forall a : article, a ∈ news ->
     exists s, a !! "title" = Some (JStr s)
               /\ RTitle s ∈ removed_article_titles st) ->
  remove_and_limit_news_articles cfg news (RList []) st
  = (Normal (match news with
             | [] => ReturnedList []
             | _ :: _ => ReturnedPair news [out_of_articles_message cfg]
             end), st).
Proof.
  intros Hall. destruct news as [|a l]; [reflexivity|].
  unfold remove_and_limit_news_articles, bind, gets, lift, ret.
  cbn [length Nat.eqb removed_len Nat.ltb Nat.leb].
  rewrite (unremoved_of_all_removed _ _ Hall). reflexivity.
Qed.

(** One stored article, its title removed: the placeholder is shown. *)
Lemma visible_placeholder_when_all_removed_witness :
  fst (remove_and_limit_news_articles config_max4 [removed_article_A]
         (RList []) (set_removed_article_titles [RTitle "A"] initial_state))
  = Normal (ReturnedPair [removed_article_A]
              [out_of_articles_message config_max4]).
Proof.
  rewrite (visible_placeholder_when_all_removed config_max4
             [removed_article_A]
             (set_removed_article_titles [RTitle "A"] initial_state)).
  - reflexivity.
  - intros a Ha. apply list_elem_of_singleton in Ha as ->.
    exists "A". split; [vm_compute; reflexivity | left].
Defined.

(** ** Stored news *)

(** C10 (the code departs from the claim).  Two fetches that return the
    same article leave two entries with its title in [covid_news]: the
    membership test compares the provider's dictionary with the stored
    two-key dictionaries, which never equal it. *)
Theorem news_processor_stores_title_twice :
  let fetch := news_processor config_max4 (Some (Present [provider_article])) in
  let st := snd (bind fetch (fun _ => fetch) initial_state) in
  map (fun a : article => a !! "title") (covid_news st)
  = [Some (JStr "A"); Some (JStr "A")].
Proof. vm_compute. reflexivity. Qed.

(** ** Extraction of the latest figures *)

Lemma backtrack_national_hospital (fuel : nat) (data : list day_record)
    (c : nat) (h d : option Z) (hv dv : Z) :
  backtrack_national fuel data c h d = Normal (hv, dv) ->
  match h with
  | Some x => hv = x
  | None => first_non_null hospitalCases (drop (S c) data) = Some hv
  end.
Proof.
  revert c h d. induction fuel as [|fuel IH]; intros c h d.
  - destruct h as [x|], d as [y|]; cbn [backtrack_national];
      try discriminate. intros [= <- <-]. reflexivity.
  - destruct h as [x|].
    + destruct d as [y|]; cbn [backtrack_national].
      * intros [= <- <-]. reflexivity.
      * destruct (data !! S c) as [r|]; [|discriminate].
        intros H. exact (IH _ _ _ H).
    + replace (backtrack_national (S fuel) data c None d)
        with (match data !! S c with
              | None => Raised IndexError
              | Some r =>
                  backtrack_national fuel data (S c) (hospitalCases r) d
              end)
        by (destruct d; reflexivity).
      destruct (data !! S c) as [r|] eqn:Hr; [|discriminate].
      intros H. apply IH in H.
      rewrite (drop_S _ _ _ Hr). cbn [first_non_null].
      destruct (hospitalCases r) as [x|]; [congruence | exact H].
Qed.

(** The hospital figure does follow the rule of the specification. *)
Lemma hospital_cases_first_non_null (cfg : Config)
    (england : list day_record) (local : option (list day_record))
    (e l : gmap string stat) :
  process_covid_json_data cfg (Some england) local = Normal (e, l) ->
  exists v,
    first_non_null hospitalCases england = Some v
    /\ e !! k_hospital
       = Some (if decide (commas cfg = "yes")
               then SStr (comma_separator (pretty v)) else SInt v).
Proof.
  unfold process_covid_json_data.
  destruct england as [|r0 rest]; [discriminate|].
  cbn [lookup list_lookup].
  destruct (backtrack_national _ _ _ _ _) as [[hv dv]|] eqn:Hb;
    [|discriminate].
  cbn [obind fst snd].
  destruct (seven_day_case_calculator (Some _)) as [ec|]; [|discriminate].
  cbn [obind].
  destruct (seven_day_case_calculator local) as [lc|]; [|discriminate].
  cbn [obind]. intros [= <- <-].
  apply backtrack_national_hospital in Hb.
  exists hv. split.
  - cbn [first_non_null]. destruct (hospitalCases r0) as [x|].
    + congruence.
    + exact Hb.
  - rewrite lookup_insert_ne by discriminate.
    apply lookup_insert_eq.
Qed.

(** C6 (the code departs from the claim).  The claim lets each figure be
    found on its own.  When the most recent record lacks both the
    hospital and the deaths figure, the loop refills the hospital figure
    at index 1 and, through its [elif], reads the deaths figure only one
    step later: it reports the 101 of index 2, not the 100 of index 1
    that the rule asks for. *)
Theorem deaths_backtracking_waits_for_hospital :
  let reported :=
    process_covid_json_data config_max4 (Some both_null_first)
      (Some both_null_first) in
  first_non_null cumDailyNsoDeathsByDeathDate both_null_first = Some 100
  /\ england_figure k_deaths reported = Some (SInt 101)
  /\ england_figure k_hospital reported = Some (SInt 10)
  /\ england_figure k_cases reported = Some (SInt 28).
Proof. repeat split; vm_compute; reflexivity. Qed.

Example hospital_cases_two_null_days :
  let reported :=
    process_covid_json_data config_max4 (Some ten_days) (Some ten_days) in
  england_figure k_hospital reported = Some (SInt 42)
  /\ england_figure k_deaths reported = Some (SInt 200).
Proof. split; vm_compute; reflexivity. Qed.

(** ** State bookkeeping *)

Lemma queue_info_of_set (src : source) (l : list queue_info) (st : State) :
  queue_info_of src (set_queue_info_of src l st) = l.
Proof. destruct src; reflexivity. Qed.

Lemma scheduler_of_set (src : source) (s : scheduler) (st : State) :
  scheduler_of src (set_scheduler_of src s st) = s.
Proof. destruct src; reflexivity. Qed.

Lemma scheduler_of_set_queue_info (src src' : source) (l : list queue_info)
    (st : State) :
  scheduler_of src (set_queue_info_of src' l st) = scheduler_of src st.
Proof. destruct src, src'; reflexivity. Qed.

Lemma queue_info_of_set_scheduler (src src' : source) (s : scheduler)
    (st : State) :
  queue_info_of src (set_scheduler_of src' s st) = queue_info_of src st.
Proof. destruct src, src'; reflexivity. Qed.

Lemma put_same (src : source) (st : State) :
  put src (queue_info_of src st) (scheduler_of src st) st = st.
Proof. destruct src, st; reflexivity. Qed.

Lemma put_put (src : source) (l l' : list queue_info) (s s' : scheduler)
    (st : State) :
  put src l s (put src l' s' st) = put src l s st.
Proof. destruct src; reflexivity. Qed.

Lemma queue_info_of_put (src : source) (l : list queue_info) (s : scheduler)
    (st : State) :
  queue_info_of src (put src l s st) = l.
Proof. destruct src; reflexivity. Qed.

Lemma scheduler_of_put (src : source) (l : list queue_info) (s : scheduler)
    (st : State) :
  scheduler_of src (put src l s st) = s.
Proof. destruct src; reflexivity. Qed.

Lemma set_queue_info_as_put (src : source) (l : list queue_info) (st : State) :
  set_queue_info_of src l st = put src l (scheduler_of src st) st.
Proof. destruct src, st; reflexivity. Qed.

Lemma set_scheduler_as_put (src : source) (s : scheduler) (st : State) :
  set_scheduler_of src s st = put src (queue_info_of src st) s st.
Proof. destruct src, st; reflexivity. Qed.

Lemma put_set_scheduled_updates (src : source) (l : list queue_info)
    (s : scheduler) (v : list update) (st : State) :
  put src l s (set_scheduled_updates v st)
  = set_scheduled_updates v (put src l s st).
Proof. destruct src; reflexivity. Qed.

Lemma scheduled_updates_put (src : source) (l : list queue_info)
    (s : scheduler) (st : State) :
  scheduled_updates (put src l s st) = scheduled_updates st.
Proof. destruct src; reflexivity. Qed.

Lemma put_other (src src' : source) (l : list queue_info) (s : scheduler)
    (st : State) :
  src <> src' ->
  queue_info_of src' (put src l s st) = queue_info_of src' st
  /\ scheduler_of src' (put src l s st) = scheduler_of src' st.
Proof. destruct src, src'; intros H; try contradiction; split; reflexivity. Qed.

(** ** [list.remove] *)

Section ListRemove.
Context {A : Type} `{EqDecision A}.

Lemma list_remove_elem (x : A) (l : list A) :
  x ∈ l -> exists l', list_remove x l = Some l'.
Proof.
  induction l as [|y l IH]; intros Hin.
  - inversion Hin.
  - cbn [list_remove]. destruct (decide (x = y)) as [|Hne]; [eauto|].
    destruct IH as [l' Hl'].
    + inversion Hin; subst; [contradiction | assumption].
    + rewrite Hl'. eauto.
Qed.

Lemma list_remove_not_elem (x : A) (l : list A) :
  x ∉ l -> list_remove x l = None.
Proof.
  induction l as [|y l IH]; intros Hnin; [reflexivity|].
  cbn [list_remove]. destruct (decide (x = y)) as [->|Hne].
  - exfalso. apply Hnin. left.
  - rewrite IH; [reflexivity|]. intros Hin. apply Hnin. right. exact Hin.
Qed.

Lemma list_remove_sublist (x : A) (l l' : list A) :
  list_remove x l = Some l' -> sublist l' l.
Proof.
  revert l'. induction l as [|y l IH]; intros l'; cbn [list_remove].
  - discriminate.
  - destruct (decide (x = y)).
    + intros [= <-]. apply sublist_cons. reflexivity.
    + destruct (list_remove x l) as [r|]; [|discriminate].
      intros [= <-]. apply sublist_skip. apply IH. reflexivity.
Qed.

Lemma list_remove_length (x : A) (l l' : list A) :
  list_remove x l = Some l' -> length l = S (length l').
Proof.
  revert l'. induction l as [|y l IH]; intros l'; cbn [list_remove].
  - discriminate.
  - destruct (decide (x = y)).
    + intros [= <-]. reflexivity.
    + destruct (list_remove x l) as [r|]; [|discriminate].
      intros [= <-]. cbn [length]. f_equal. apply IH. reflexivity.
Qed.

Lemma list_remove_filter (P : A -> bool) (x : A) (l l' : list A) :
  P x = false ->
  list_remove x l = Some l' -> List.filter P l' = List.filter P l.
Proof.
  intros HP. revert l'. induction l as [|y l IH]; intros l';
    cbn [list_remove].
  - discriminate.
  - destruct (decide (x = y)) as [<-|].
    + intros [= <-]. cbn [List.filter]. rewrite HP. reflexivity.
    + destruct (list_remove x l) as [r|]; [|discriminate].
      intros [= <-]. cbn [List.filter]. rewrite (IH r eq_refl). reflexivity.
Qed.

(** Past a prefix that does not hold [x], [remove] takes the element at
    the split. *)
Lemma list_remove_app (x : A) (pre suf : list A) :
  x ∉ pre -> list_remove x (pre ++ x :: suf) = Some (pre ++ suf).
Proof.
  induction pre as [|y pre IH]; intros Hnin; cbn [app list_remove].
  - rewrite decide_True by reflexivity. reflexivity.
  - rewrite decide_False.
    + rewrite IH; [reflexivity|]. intros Hin. apply Hnin. right. exact Hin.
    + intros ->. apply Hnin. left.
Qed.

End ListRemove.

(** ** The removal loops on plain lists *)

Lemma for_in_from_drop_named (src : source) (name : string) (fuel i : nat)
    (st : State) :
  for_in_from (queue_info_of src)
    (fun u => if bool_decide (event_name u = name)
              then queue_info_remove src u else ret tt) fuel i st
  = (Normal tt,
     put src (drop_named name fuel i (queue_info_of src st))
       (scheduler_of src st) st).
Proof.
  revert i st. induction fuel as [|fuel IH]; intros i st;
    cbn [for_in_from drop_named].
  - rewrite put_same. reflexivity.
  - destruct (queue_info_of src st !! i) as [u|] eqn:Hu;
      [|rewrite put_same; reflexivity].
    destruct (bool_decide (event_name u = name)).
    + unfold queue_info_remove.
      destruct (list_remove_elem u (queue_info_of src st)) as [l' Hl'].
      { eapply list_elem_of_lookup_2. exact Hu. }
      rewrite Hl', IH, set_queue_info_as_put.
      rewrite queue_info_of_put, scheduler_of_put, put_put. reflexivity.
    + unfold ret. rewrite IH. reflexivity.
Qed.

Lemma try_cancel_put (src : source) (e : Event) (l : list queue_info)
    (st : State) :
  try_cancel src e (set_queue_info_of src l st)
  = (Normal tt, put src l (cancel_or_keep e (scheduler_of src st)) st).
Proof.
  unfold try_cancel, modify, cancel_or_keep.
  rewrite scheduler_of_set_queue_info.
  destruct (sched_cancel e (scheduler_of src st)); [reflexivity|].
  rewrite set_queue_info_as_put. reflexivity.
Qed.

Lemma for_in_from_cancel_named (src : source) (name : string) (fuel i : nat)
    (st : State) :
  for_in_from (queue_info_of src)
    (fun u => if bool_decide (event_name u = name)
              then bind (queue_info_remove src u)
                     (fun _ => try_cancel src (event_id u))
              else ret tt) fuel i st
  = (Normal tt,
     let r := cancel_named name fuel i (queue_info_of src st)
                (scheduler_of src st) in
     put src (fst r) (snd r) st).
Proof.
  revert i st. induction fuel as [|fuel IH]; intros i st;
    cbn [for_in_from cancel_named].
  - cbn [fst snd]. rewrite put_same. reflexivity.
  - destruct (queue_info_of src st !! i) as [u|] eqn:Hu;
      [|cbn [fst snd]; rewrite put_same; reflexivity].
    destruct (bool_decide (event_name u = name)).
    + unfold bind at 1. unfold queue_info_remove.
      destruct (list_remove_elem u (queue_info_of src st)) as [l' Hl'].
      { eapply list_elem_of_lookup_2. exact Hu. }
      rewrite Hl', try_cancel_put, IH.
      rewrite queue_info_of_put, scheduler_of_put. cbn zeta.
      rewrite put_put. reflexivity.
    + unfold ret. rewrite IH. reflexivity.
Qed.

(** [remove_covid_data_update] and [remove_news_update] always return,
    and touch nothing but their module's list and scheduler. *)
Lemma remove_queue_update_pure (src : source) (name : string) (expired : bool)
    (st : State) :
  remove_queue_update src name expired st
  = (Normal tt,
     let r := removed_queue name expired (queue_info_of src st)
                (scheduler_of src st) in
     put src (fst r) (snd r) st).
Proof.
  unfold remove_queue_update, removed_queue, for_in.
  destruct expired.
  - unfold bind at 1. rewrite for_in_from_drop_named.
    rewrite for_in_from_cancel_named.
    rewrite queue_info_of_put, scheduler_of_put. cbn zeta.
    rewrite put_put. reflexivity.
  - unfold bind at 1. unfold ret. rewrite for_in_from_cancel_named.
    reflexivity.
Qed.

Lemma cancel_named_fst (name : string) (fuel i : nat) (l : list queue_info)
    (s : scheduler) :
  fst (cancel_named name fuel i l s) = drop_named name fuel i l.
Proof.
  revert i l s. induction fuel as [|fuel IH]; intros i l s;
    cbn [cancel_named drop_named]; [reflexivity|].
  destruct (l !! i) as [u|]; [|reflexivity].
  destruct (bool_decide (event_name u = name)); [|apply IH].
  destruct (list_remove u l); [apply IH | reflexivity].
Qed.

Lemma drop_named_sublist (name : string) (fuel i : nat) (l : list queue_info) :
  sublist (drop_named name fuel i l) l.
Proof.
  revert i l. induction fuel as [|fuel IH]; intros i l; cbn [drop_named];
    [reflexivity|].
  destruct (l !! i) as [u|]; [|reflexivity].
  destruct (bool_decide (event_name u = name)); [|apply IH].
  destruct (list_remove u l) as [l'|] eqn:Hl'; [|reflexivity].
  etransitivity; [apply IH|]. eapply list_remove_sublist. exact Hl'.
Qed.

Lemma drop_named_filter (name : string) (fuel i : nat) (l : list queue_info) :
  List.filter (other_name name) (drop_named name fuel i l)
  = List.filter (other_name name) l.
Proof.
  revert i l. induction fuel as [|fuel IH]; intros i l; cbn [drop_named];
    [reflexivity|].
  destruct (l !! i) as [u|]; [|reflexivity].
  destruct (bool_decide (event_name u = name)) eqn:Hn; [|apply IH].
  destruct (list_remove u l) as [l'|] eqn:Hl'; [|reflexivity].
  rewrite IH. eapply list_remove_filter; [|exact Hl'].
  unfold other_name. rewrite Hn. reflexivity.
Qed.

Lemma drop_named_absent (name : string) (fuel i : nat) (l : list queue_info) :
  (forall u, u ∈ l -> event_name u <> name) ->
  drop_named name fuel i l = l.
Proof.
  intros Habs. revert i. induction fuel as [|fuel IH]; intros i;
    cbn [drop_named]; [reflexivity|].
  destruct (l !! i) as [u|] eqn:Hu; [|reflexivity].
  rewrite bool_decide_eq_false_2; [apply IH|].
  apply Habs. eapply list_elem_of_lookup_2. exact Hu.
Qed.

(** When a record of the name is reached, the list gets shorter. *)
Lemma drop_named_shrinks (name : string) (l : list queue_info) :
  (exists u, u ∈ l /\ event_name u = name) ->
  (length (drop_named name (length l) 0 l) < length l)%nat.
Proof.
  intros Hex.
  assert (Hgen : forall fuel i (l0 : list queue_info),
             (length l0 <= i + fuel)%nat ->
             (exists j u, (i <= j)%nat /\ l0 !! j = Some u
                          /\ event_name u = name) ->
             (length (drop_named name fuel i l0) < length l0)%nat).
  { induction fuel as [|fuel IH]; intros i l0 Hlen (j & u & Hij & Hj & Hu).
    - apply lookup_lt_Some in Hj. lia.
    - cbn [drop_named].
      destruct (l0 !! i) as [v|] eqn:Hv.
      + destruct (bool_decide (event_name v = name)) eqn:Hn.
        * destruct (list_remove_elem v l0) as [l' Hl'].
          { eapply list_elem_of_lookup_2. exact Hv. }
          rewrite Hl'. pose proof (list_remove_length _ _ _ Hl') as Hlen'.
          pose proof (sublist_length _ _ (drop_named_sublist name fuel (S i) l')).
          lia.
        * apply IH; [lia|]. exists j, u. repeat split; try assumption.
          destruct (decide (i = j)) as [->|]; [|lia].
          rewrite Hv in Hj. injection Hj as ->.
          apply bool_decide_eq_false in Hn. contradiction.
      + apply lookup_ge_None in Hv. apply lookup_lt_Some in Hj. lia. }
  destruct Hex as (u & Hin & Hu).
  apply list_elem_of_lookup_1 in Hin as [j Hj].
  apply Hgen; [lia|]. exists j, u. repeat split; [lia|assumption..].
Qed.

Lemma cancel_named_snd_fired (name : string) (fuel i : nat)
    (l : list queue_info) (s : scheduler) :
  (forall u, u ∈ l -> event_name u = name -> event_id u ∉ sq_queue s) ->
  snd (cancel_named name fuel i l s) = s.
Proof.
  revert i l. induction fuel as [|fuel IH]; intros i l Hfired;
    cbn [cancel_named]; [reflexivity|].
  destruct (l !! i) as [u|] eqn:Hu; [|reflexivity].
  destruct (bool_decide (event_name u = name)) eqn:Hn; [|apply IH, Hfired].
  destruct (list_remove u l) as [l'|] eqn:Hl'; [|reflexivity].
  assert (Hk : cancel_or_keep (event_id u) s = s).
  { unfold cancel_or_keep, sched_cancel.
    rewrite list_remove_not_elem; [reflexivity|].
    apply Hfired; [eapply list_elem_of_lookup_2; exact Hu|].
    apply bool_decide_eq_true in Hn. exact Hn. }
  rewrite Hk. apply IH. intros v Hv. apply Hfired.
  eapply elem_of_sublist; [exact Hv|].
  eapply list_remove_sublist. exact Hl'.
Qed.

(** ** Cancelling without a pending entry *)

Lemma remove_queue_update_nothing_pending (src : source) (name : string)
    (expired : bool) (st : State) :
  nothing_pending src name st ->
  exists l',
    remove_queue_update src name expired st
    = (Normal tt, set_queue_info_of src l' st)
    /\ sublist l' (queue_info_of src st)
    /\ List.filter (other_name name) l'
       = List.filter (other_name name) (queue_info_of src st)
    /\ ((forall u, u ∈ queue_info_of src st -> event_name u <> name) ->
        set_queue_info_of src l' st = st)
    /\ ((exists u, u ∈ queue_info_of src st /\ event_name u = name) ->
        (length l' < length (queue_info_of src st))%nat).
Proof.
  intros Hpend. rewrite remove_queue_update_pure. cbn zeta.
  set (l := queue_info_of src st). set (s := scheduler_of src st).
  set (l1 := if expired then drop_named name (length l) 0 l else l).
  assert (Hl1 : sublist l1 l).
  { subst l1. destruct expired; [apply drop_named_sublist | reflexivity]. }
  assert (Hsnd : snd (removed_queue name expired l s) = s).
  { unfold removed_queue. apply cancel_named_snd_fired.
    intros u Hu. apply Hpend. eapply elem_of_sublist; [exact Hu|].
    fold l1. exact Hl1. }
  assert (Hfst : fst (removed_queue name expired l s)
                 = drop_named name (length l1) 0 l1).
  { unfold removed_queue. apply cancel_named_fst. }
  exists (drop_named name (length l1) 0 l1).
  rewrite Hsnd, Hfst. split; [|split; [|split; [|split]]].
  - subst s. rewrite set_queue_info_as_put. reflexivity.
  - etransitivity; [apply drop_named_sublist | exact Hl1].
  - rewrite drop_named_filter. subst l1.
    destruct expired; [apply drop_named_filter | reflexivity].
  - intros Habs.
    assert (Hl1eq : l1 = l).
    { subst l1. destruct expired; [|reflexivity].
      apply drop_named_absent. exact Habs. }
    rewrite Hl1eq, drop_named_absent by exact Habs.
    subst l. rewrite set_queue_info_as_put. apply put_same.
  - intros Hex.
    pose proof (sublist_length _ _ (drop_named_sublist name (length l1) 0 l1)).
    subst l1. destruct expired.
    + pose proof (drop_named_shrinks name l Hex). lia.
    + apply drop_named_shrinks. exact Hex.
Qed.

(** C8 (counterexample).  Cancelling a name whose event already fired is
    not a no-op on the state: the stale record is taken out of
    [covid_queue_info]. *)
Lemma cancel_fired_changes_queue_info :
  fst (remove_covid_data_update "T" false stale_state) = Normal tt
  /\ covid_queue_info stale_state = [stale_record]
  /\ covid_queue_info (snd (remove_covid_data_update "T" false stale_state)) = []
  /\ snd (remove_covid_data_update "T" false stale_state) <> stale_state.
Proof.
  repeat split; try reflexivity.
  intros Heq. apply (f_equal covid_queue_info) in Heq. discriminate Heq.
Qed.

(** C8 (amended).  Cancelling a name with nothing pending never raises.
    If the module's list has no record of the name, the whole state is
    unchanged.  If it has records of the name whose events have already
    fired, the call only shortens that list: the records of other names
    stay, in order, and the registry, both scheduler queues and every
    other global are as before.  This holds for [remove_covid_data_update]
    and [remove_news_update] alike. *)
Theorem cancel_nothing_pending (name : string) (expired : bool) (st : State) :
  (nothing_pending Covid name st ->
   exists l',
     remove_covid_data_update name expired st
     = (Normal tt, set_covid_queue_info l' st)
     /\ sublist l' (covid_queue_info st)
     /\ List.filter (other_name name) l'
        = List.filter (other_name name) (covid_queue_info st)
     /\ ((forall u, u ∈ covid_queue_info st -> event_name u <> name) ->
         set_covid_queue_info l' st = st)
     /\ ((exists u, u ∈ covid_queue_info st /\ event_name u = name) ->
         (length l' < length (covid_queue_info st))%nat))
  /\ (nothing_pending News name st ->
      exists l',
        remove_news_update name expired st
        = (Normal tt, set_news_queue_info l' st)
        /\ sublist l' (news_queue_info st)
        /\ List.filter (other_name name) l'
           = List.filter (other_name name) (news_queue_info st)
        /\ ((forall u, u ∈ news_queue_info st -> event_name u <> name) ->
            set_news_queue_info l' st = st)
        /\ ((exists u, u ∈ news_queue_info st /\ event_name u = name) ->
            (length l' < length (news_queue_info st))%nat)).
Proof.
  split; intros Hpend.
  - exact (remove_queue_update_nothing_pending Covid name expired st Hpend).
  - exact (remove_queue_update_nothing_pending News name expired st Hpend).
Qed.

(** The stale record of a fired event is dropped without an error. *)
Lemma cancel_nothing_pending_witness :
  nothing_pending Covid "T" stale_state
  /\ exists l',
       remove_covid_data_update "T" true stale_state
       = (Normal tt, set_covid_queue_info l' stale_state)
       /\ (length l' < length (covid_queue_info stale_state))%nat.
Proof.
  assert (Hpend : nothing_pending Covid "T" stale_state).
  { intros u _ _ Hin. inversion Hin. }
  split; [exact Hpend|].
  destruct (proj1 (cancel_nothing_pending "T" true stale_state) Hpend)
    as (l' & Heq & _ & _ & _ & Hlen).
  exists l'. split; [exact Heq|].
  apply Hlen. exists stale_record. split; [left | reflexivity].
Defined.

(** ** A refresh that finds no data *)

Lemma refresh_exits_when_silent (cfg : Config) (w : World) (src : source)
    (st : State) :
  provider_silent src w ->
  fst (run_action cfg w (request_action src) st) = Raised SystemExit.
Proof.
  destruct src; cbn [provider_silent request_action run_action].
  - unfold covid_API_request, bind, modify, lift.
    intros [[-> | ->] | [[l ->] [-> | ->]]]; reflexivity.
  - unfold news_API_request, bind, lift.
    intros [-> | ->]; reflexivity.
Qed.

Lemma insert_event_after_overdue (now delay : Z) (n : nat) (a : action)
    (e : Event) (q : list Event) :
  ev_time e < now -> 0 <= delay ->
  insert_event (mkEvent (now + delay) 1 n a) (e :: q)
  = e :: insert_event (mkEvent (now + delay) 1 n a) q.
Proof.
  intros He Hd. cbn [insert_event]. unfold event_lt. cbn [ev_time].
  replace (now + delay <? ev_time e) with false
    by (symmetry; apply Z.ltb_ge; lia).
  replace (now + delay =? ev_time e) with false
    by (symmetry; apply Z.eqb_neq; lia).
  reflexivity.
Qed.

(** C7 (amended).  A refresh that finds no data raises [SystemExit]
    whether it runs at startup or is fired by a scheduler: the check
    inside the request function is the same, and neither
    [scheduler.run] nor the scheduling call that drives it catches the
    exception.  So when an overdue refresh heads the queue and the
    provider is silent, [schedule_covid_updates] / [update_news] end in
    [SystemExit], as the startup fetch does. *)
Theorem silent_provider_is_fatal_everywhere
    (cfg : Config) (w : World) (src : source) (st : State)
    (e : Event) (q : list Event) (n : nat)
    (delay : Z) (name : string) (rep : bool) :
  provider_silent src w ->
  scheduler_of src st = mkScheduler (e :: q) n ->
  ev_action e = request_action src ->
  ev_time e < time_time w ->
  0 <= delay ->
  fst (run_action cfg w (request_action src) st) = Raised SystemExit
  /\ fst (schedule_on cfg w src delay name rep st) = Raised SystemExit
  /\ (src = Covid -> fst (startup cfg w st) = Raised SystemExit).
Proof.
  intros Hsilent Hs Ha He Hd. split; [|split].
  - apply refresh_exits_when_silent. exact Hsilent.
  - unfold schedule_on. unfold bind at 1. unfold modify.
    unfold bind at 1. unfold scheduler_run.
    rewrite scheduler_of_set, Hs. unfold sched_enter. cbn [sq_queue sq_counter].
    rewrite insert_event_after_overdue by assumption.
    cbn [length scheduler_run_from].
    rewrite scheduler_of_set. cbn [sq_queue sq_counter].
    replace (time_time w <? ev_time e) with false
      by (symmetry; apply Z.ltb_ge; lia).
    rewrite Ha.
    pose proof (refresh_exits_when_silent cfg w src
                  (set_scheduler_of src
                     {| sq_queue :=
                          insert_event
                            {| ev_time := time_time w + delay;
                               ev_priority := 1;
                               ev_sequence := n;
                               ev_action := request_action src |} q;
                        sq_counter := S n |}
                     (set_scheduler_of src
                        {| sq_queue :=
                             e :: insert_event
                               {| ev_time := time_time w + delay;
                                  ev_priority := 1;
                                  ev_sequence := n;
                                  ev_action := request_action src |} q;
                           sq_counter := S n |} st)) Hsilent) as Hr.
    destruct (run_action _ _ _ _) as [[u|x] st']; cbn [fst] in Hr;
      [discriminate|]. cbn [fst]. exact Hr.
  - intros ->. unfold startup. unfold bind at 1. unfold modify.
    unfold bind at 1.
    pose proof (refresh_exits_when_silent cfg w Covid
                  (set_scheduled_updates [] st) Hsilent) as Hr.
    cbn [request_action run_action] in Hr.
    destruct (covid_API_request _ _ _) as [[u|x] st']; cbn [fst] in Hr;
      [discriminate|]. cbn [fst]. exact Hr.
Qed.

(** An overdue refresh and a silent provider: the scheduling call exits. *)
Lemma silent_provider_is_fatal_everywhere_witness :
  fst (schedule_on config_max4 silent_world Covid 60 "U" false overdue_state)
  = Raised SystemExit.
Proof.
  refine (proj1 (proj2 (silent_provider_is_fatal_everywhere
                          config_max4 silent_world Covid overdue_state
                          (mkEvent 100 1 0 covid_API_request_action) [] 1
                          60 "U" false _ _ _ _ _))).
  - left. left. reflexivity.
  - reflexivity.
  - reflexivity.
  - vm_compute. reflexivity.
  - lia.
Defined.

(** C7 (counterexample).  A poll during which a scheduled refresh fires
    while the provider is silent does not carry on: [render_webpage]
    itself ends in [SystemExit]. *)
Lemma scheduled_refresh_failure_exits_poll :
  fst (render_webpage config_max4 (StructTime 8 0) silent_world
         schedule_request overdue_state)
  = Raised SystemExit.
Proof. vm_compute. reflexivity. Qed.

(** ** The expiry scan *)

Lemma update_expired_target (w : World) (u : update) :
  is_Some (target_hm u) ->
  update_expired w u = Normal (same_hour_reached w u).
Proof.
  unfold target_hm, update_expired, same_hour_reached, target_hm.
  destruct (int_of_str (str_take 2 (time u))) as [h|]; [|intros [? [=]]].
  destruct (int_of_str (str_drop 3 (time u))) as [m|]; [|intros [? [=]]].
  intros _. cbn [obind]. destruct (h =? tm_hour w); reflexivity.
Qed.

Lemma set_scheduled_updates_twice (v v' : list update) (st : State) :
  set_scheduled_updates v (set_scheduled_updates v' st)
  = set_scheduled_updates v st.
Proof. reflexivity. Qed.

Lemma set_scheduled_updates_same (st : State) :
  set_scheduled_updates (scheduled_updates st) st = st.
Proof. destruct st; reflexivity. Qed.

Lemma remove_queue_update_registry (src : source) (name : string)
    (expired : bool) (v : list update) (st : State) :
  remove_queue_update src name expired (set_scheduled_updates v st)
  = (Normal tt,
     set_scheduled_updates v (snd (remove_queue_update src name expired st))).
Proof.
  rewrite !remove_queue_update_pure. cbn [snd]. cbn zeta.
  rewrite put_set_scheduled_updates.
  destruct src; reflexivity.
Qed.

Lemma remove_queue_update_normal (src : source) (name : string)
    (expired : bool) (st : State) :
  remove_queue_update src name expired st
  = (Normal tt, snd (remove_queue_update src name expired st)).
Proof. rewrite remove_queue_update_pure. reflexivity. Qed.

Lemma remove_queue_update_keeps_registry (src : source) (name : string)
    (expired : bool) (st : State) :
  scheduled_updates (snd (remove_queue_update src name expired st))
  = scheduled_updates st.
Proof.
  rewrite remove_queue_update_pure. cbn [snd]. cbn zeta.
  apply scheduled_updates_put.
Qed.

(** The bookkeeping of an expired entry always returns and commutes with
    any assignment to the registry. *)
Lemma expired_bookkeeping_registry (u : update) (v : list update)
    (st : State) :
  expired_bookkeeping u (set_scheduled_updates v st)
  = (Normal tt, set_scheduled_updates v (snd (expired_bookkeeping u st))).
Proof.
  unfold expired_bookkeeping, remove_covid_data_update, remove_news_update.
  destruct (covid u && news u).
  - unfold bind. rewrite remove_queue_update_registry.
    rewrite (remove_queue_update_normal Covid _ _ st).
    rewrite remove_queue_update_registry. reflexivity.
  - destruct (covid u); [apply remove_queue_update_registry|].
    destruct (news u); [apply remove_queue_update_registry|].
    reflexivity.
Qed.

Lemma expired_bookkeeping_normal (u : update) (st : State) :
  expired_bookkeeping u st = (Normal tt, snd (expired_bookkeeping u st)).
Proof.
  rewrite <- (set_scheduled_updates_same st) at 1.
  rewrite expired_bookkeeping_registry.
  rewrite <- (expired_bookkeeping_registry u (scheduled_updates st) st).
  rewrite set_scheduled_updates_same.
  destruct (expired_bookkeeping u st) as [o s] eqn:E.
  rewrite <- (set_scheduled_updates_same st) in E.
  rewrite expired_bookkeeping_registry in E. injection E as <- <-.
  reflexivity.
Qed.

Lemma expired_bookkeeping_keeps_registry (u : update) (st : State) :
  scheduled_updates (snd (expired_bookkeeping u st)) = scheduled_updates st.
Proof.
  rewrite <- (set_scheduled_updates_same st) at 1.
  rewrite expired_bookkeeping_registry. reflexivity.
Qed.

Lemma for_in_from_past_end {A} (items : State -> list A) (body : A -> M unit)
    (fuel i : nat) (st : State) :
  items st !! i = None ->
  for_in_from items body fuel i st = (Normal tt, st).
Proof.
  intros Hnone. destruct fuel; cbn [for_in_from]; [reflexivity|].
  rewrite Hnone. reflexivity.
Qed.

Lemma fold_retire_registry (us : list update) (v : list update) (st : State) :
  fold_left retire us (set_scheduled_updates v st)
  = set_scheduled_updates v (fold_left retire us st).
Proof.
  revert st. induction us as [|u us IH]; intros st; [reflexivity|].
  cbn [fold_left]. unfold retire at 2 4.
  rewrite expired_bookkeeping_registry. cbn [snd]. apply IH.
Qed.

Lemma expiry_loop (w : World) (fuel : nat) :
  forall (i : nat) (pre suf : list update) (st : State),
    i = length pre ->
    scheduled_updates st = pre ++ suf ->
    Forall (fun u => same_hour_reached w u = false) pre ->
    Forall (fun u => is_Some (target_hm u)) suf ->
    no_two_adjacent (same_hour_reached w) suf ->
    (length suf <= fuel)%nat ->
    for_in_from scheduled_updates (expiry_body w) fuel i st
    = (Normal tt,
       fold_left retire (List.filter (same_hour_reached w) suf)
         (set_scheduled_updates
            (pre ++ List.filter (still_ahead w) suf) st)).
Proof.
  induction fuel as [|fuel IH]; intros i pre suf st Hi Hreg Hpre Hsuf Hadj Hlen.
  - destruct suf; [|cbn [length] in Hlen; lia].
    cbn [for_in_from List.filter fold_left]. rewrite <- Hreg.
    rewrite set_scheduled_updates_same. reflexivity.
  - destruct suf as [|u suf'].
    { rewrite for_in_from_past_end.
      - cbn [List.filter fold_left]. rewrite <- Hreg.
        rewrite set_scheduled_updates_same. reflexivity.
      - rewrite Hreg, app_nil_r. apply lookup_ge_None. lia. }
    cbn [for_in_from]. rewrite Hreg.
    rewrite (list_lookup_middle pre suf' u i Hi).
    apply Forall_cons in Hsuf as [Hu Hsuf'].
    unfold expiry_body at 1. unfold bind at 1. unfold lift.
    rewrite (update_expired_target w u Hu).
    cbn [List.filter]. unfold still_ahead at 1.
    destruct (same_hour_reached w u) eqn:Hru; cbn [negb].
    + (* expired: removed, and the element that follows is stepped over *)
      unfold bind at 1. unfold scheduled_updates_remove. rewrite Hreg.
      rewrite list_remove_app.
      2:{ intros Hin. rewrite Forall_forall in Hpre.
          specialize (Hpre u Hin). congruence. }
      rewrite expired_bookkeeping_registry. cbn [fold_left].
      destruct suf' as [|v suf''].
      * rewrite for_in_from_past_end.
        -- cbn [List.filter fold_left]. unfold retire.
           rewrite expired_bookkeeping_registry. reflexivity.
        -- cbn [scheduled_updates set_scheduled_updates].
           rewrite app_nil_r. apply lookup_ge_None. lia.
      * destruct Hadj as [Huv Hadj'].
        specialize (Huv Hru).
        apply Forall_cons in Hsuf' as [Hv Hsuf''].
        rewrite (IH (S i) (pre ++ [v]) suf'').
        -- cbn [List.filter]. unfold still_ahead at 2. rewrite Huv.
           cbn [negb]. unfold retire at 3.
           rewrite expired_bookkeeping_registry. cbn [snd].
           rewrite set_scheduled_updates_twice.
           rewrite <- app_assoc. cbn [app].
           rewrite !fold_retire_registry. reflexivity.
        -- rewrite length_app. cbn [length]. lia.
        -- cbn [scheduled_updates set_scheduled_updates].
           rewrite <- app_assoc. reflexivity.
        -- apply Forall_app. split; [exact Hpre|].
           apply Forall_cons. split; [exact Huv | apply Forall_nil; exact I].
        -- exact Hsuf''.
        -- destruct suf''; [exact I|]. destruct Hadj' as [_ H]. exact H.
        -- cbn [length] in Hlen. lia.
    + (* not expired: kept *)
      unfold ret.
      rewrite (IH (S i) (pre ++ [u]) suf').
      * rewrite <- app_assoc. reflexivity.
      * rewrite length_app. cbn [length]. lia.
      * rewrite Hreg, <- app_assoc. reflexivity.
      * apply Forall_app. split; [exact Hpre|].
        apply Forall_cons. split; [exact Hru | apply Forall_nil; exact I].
      * exact Hsuf'.
      * destruct suf' as [|v suf'']; [exact I|]. destruct Hadj as [_ H].
        exact H.
      * cbn [length] in Hlen. lia.
Qed.

(** Whatever the order of the list, the scan returns, and the entries
    that have not come due all stay, in order. *)
Lemma expiry_loop_keeps_ahead (w : World) (fuel : nat) :
  forall (i : nat) (st : State),
    Forall (fun u => is_Some (target_hm u)) (scheduled_updates st) ->
    exists st',
      for_in_from scheduled_updates (expiry_body w) fuel i st = (Normal tt, st')
      /\ List.filter (still_ahead w) (scheduled_updates st')
         = List.filter (still_ahead w) (scheduled_updates st).
Proof.
  induction fuel as [|fuel IH]; intros i st Hwf; cbn [for_in_from].
  - exists st. split; reflexivity.
  - destruct (scheduled_updates st !! i) as [u|] eqn:Hu;
      [|exists st; split; reflexivity].
    assert (Hin : u ∈ scheduled_updates st)
      by (eapply list_elem_of_lookup_2; exact Hu).
    unfold expiry_body at 1. unfold bind at 1. unfold lift.
    rewrite (update_expired_target w u)
      by (rewrite Forall_forall in Hwf; apply Hwf, Hin).
    destruct (same_hour_reached w u) eqn:Hru.
    + unfold bind at 1. unfold scheduled_updates_remove.
      destruct (list_remove_elem u (scheduled_updates st) Hin) as [l' Hl'].
      rewrite Hl', expired_bookkeeping_registry.
      destruct (IH (S i) (set_scheduled_updates l'
                            (snd (expired_bookkeeping u st))))
        as (st' & Hrun & Hkeep).
      { cbn [scheduled_updates set_scheduled_updates].
        rewrite Forall_forall in Hwf |- *. intros x Hx. apply Hwf.
        eapply elem_of_sublist; [exact Hx|].
        eapply list_remove_sublist. exact Hl'. }
      exists st'. split; [exact Hrun|]. rewrite Hkeep.
      cbn [scheduled_updates set_scheduled_updates].
      eapply list_remove_filter; [|exact Hl'].
      unfold still_ahead. rewrite Hru. reflexivity.
    + unfold ret. apply IH. exact Hwf.
Qed.

(** What the scan does retire.  On a poll without a cancellation
    request, when every registry entry has a well-formed time, the scan
    returns and retires only entries whose target hour *equals* the
    current hour and whose target minute is at most the current minute.
    When, further, no two entries that have come due stand next to each
    other in the list, each of them is retired in this one poll: it
    leaves [scheduled_updates] and has the bookkeeping of the sources it
    governs run with [expired = True], in list order. *)
Lemma expiry_scan_same_hour (w : World) (req : Request) (st : State) :
  arg_update_item req = None ->
  Forall (fun u => is_Some (target_hm u)) (scheduled_updates st) ->
  fst (remove_scheduled_update w req st) = Normal tt
  /\ List.filter (still_ahead w)
       (scheduled_updates (snd (remove_scheduled_update w req st)))
     = List.filter (still_ahead w) (scheduled_updates st)
  /\ (forall u h m,
        u ∈ scheduled_updates st -> target_hm u = Some (h, m) ->
        h <> tm_hour w ->
        u ∈ scheduled_updates (snd (remove_scheduled_update w req st)))
  /\ (no_two_adjacent (same_hour_reached w) (scheduled_updates st) ->
      remove_scheduled_update w req st
      = (Normal tt,
         fold_left retire
           (List.filter (same_hour_reached w) (scheduled_updates st))
           (set_scheduled_updates
              (List.filter (still_ahead w) (scheduled_updates st)) st))
      /\ scheduled_updates (snd (remove_scheduled_update w req st))
         = List.filter (still_ahead w) (scheduled_updates st)).
Proof.
  intros Hreq Hwf.
  assert (Hunfold : remove_scheduled_update w req st
                    = for_in_from scheduled_updates (expiry_body w)
                        (length (scheduled_updates st)) 0 st).
  { unfold remove_scheduled_update. rewrite Hreq. reflexivity. }
  destruct (expiry_loop_keeps_ahead w (length (scheduled_updates st)) 0 st Hwf)
    as (st' & Hrun & Hkeep).
  rewrite <- Hunfold in Hrun.
  split; [rewrite Hrun; reflexivity|].
  split; [rewrite Hrun; exact Hkeep|].
  split.
  - intros u h m Hin Ht Hh.
    assert (Hahead : still_ahead w u = true).
    { unfold still_ahead, same_hour_reached. rewrite Ht.
      replace (h =? tm_hour w) with false
        by (symmetry; apply Z.eqb_neq; exact Hh).
      reflexivity. }
    assert (Hfil : u ∈ List.filter (still_ahead w)
                         (scheduled_updates
                            (snd (remove_scheduled_update w req st)))).
    { rewrite Hrun. cbn [snd]. rewrite Hkeep.
      apply list_elem_of_In, filter_In.
      split; [apply list_elem_of_In, Hin | exact Hahead]. }
    apply list_elem_of_In, filter_In in Hfil as [Hfil _].
    apply list_elem_of_In. exact Hfil.
  - intros Hadj.
    assert (Hfull : remove_scheduled_update w req st
                    = (Normal tt,
                       fold_left retire
                         (List.filter (same_hour_reached w)
                            (scheduled_updates st))
                         (set_scheduled_updates
                            (List.filter (still_ahead w)
                               (scheduled_updates st)) st))).
    { rewrite Hunfold.
      apply (expiry_loop w (length (scheduled_updates st)) 0 []);
        try assumption; try reflexivity.
      apply Forall_nil. exact I. }
    split; [exact Hfull|].
    rewrite Hfull. cbn [snd]. rewrite fold_retire_registry. reflexivity.
Qed.

(** At 09:45 the entry for 09:10 is retired and the one for 08:30 stays. *)
Lemma expiry_scan_same_hour_witness :
  scheduled_updates
    (snd (remove_scheduled_update quarter_to_ten no_request
            (set_scheduled_updates [update_0830; update_0910] loaded_state)))
  = [update_0830].
Proof.
  pose proof (expiry_scan_same_hour quarter_to_ten no_request
                (set_scheduled_updates [update_0830; update_0910] loaded_state))
    as H.
  destruct H as (_ & _ & _ & H).
  - reflexivity.
  - repeat (apply Forall_cons; split; [eexists; vm_compute; reflexivity|]).
    apply Forall_nil. exact I.
  - destruct H as [_ H].
    + split; [intros [=]| exact I].
    + rewrite H. vm_compute. reflexivity.
Defined.

(** At 09:45 an entry for 08:30, whose hour is strictly earlier than
    the current one, is left in the registry by the poll. *)
Lemma earlier_hour_entry_survives_poll :
  let st := set_scheduled_updates [update_0830] loaded_state in
  let r := render_webpage config_max4 (StructTime 8 0) quarter_to_ten
             no_request st in
  scheduled_updates (snd r) = [update_0830]
  /\ update_0830 ∈ scheduled_updates (snd r).
Proof.
  assert (H : scheduled_updates
                (snd (render_webpage config_max4 (StructTime 8 0)
                        quarter_to_ten no_request
                        (set_scheduled_updates [update_0830] loaded_state)))
              = [update_0830]) by (vm_compute; reflexivity).
  cbn zeta. rewrite H. split; [reflexivity | left].
Qed.

(** Two due entries side by side: removing the first moves the second
    under the iterator's index, and the scan steps over it. *)
Example expiry_scan_steps_over_neighbour :
  scheduled_updates
    (snd (remove_scheduled_update quarter_to_ten no_request
            (set_scheduled_updates [update_0910; update_0920] loaded_state)))
  = [update_0920].
Proof. vm_compute. reflexivity. Qed.

(** C4 (the code departs from the claim).  The claim, like the
    function's docstring and the comment on its loop, has every entry
    whose time has passed retired in the one poll.  The scan misses
    such entries in two ways.  It tests the hours for equality, so at
    09:45 an entry for 08:30 stays in the registry.  And it removes from
    the list it iterates over, so of two entries for 09:10 and 09:20
    that stand side by side, both due at 09:45, only the first is
    retired: the second moves under the iterator's index and is stepped
    over, with its record still in the module's list. *)
Theorem expiry_scan_misses_expired_entries :
  let earlier := set_scheduled_updates [update_0830] loaded_state in
  let pair :=
    set_covid_queue_info
      [ mkQueueInfo (mkEvent 1 1 0 covid_API_request_action) "A" false;
        mkQueueInfo (mkEvent 2 1 1 covid_API_request_action) "B" false ]
      (set_scheduled_updates [update_0910; update_0920] loaded_state) in
  target_hm update_0830 = Some (8, 30)
  /\ scheduled_updates (snd (remove_scheduled_update quarter_to_ten no_request
                               earlier))
     = [update_0830]
  /\ same_hour_reached quarter_to_ten update_0910 = true
  /\ same_hour_reached quarter_to_ten update_0920 = true
  /\ remove_scheduled_update quarter_to_ten no_request pair
     = (Normal tt,
        set_covid_queue_info
          [mkQueueInfo (mkEvent 2 1 1 covid_API_request_action) "B" false]
          (set_scheduled_updates [update_0920] loaded_state)).
Proof. repeat split; vm_compute; reflexivity. Qed.

(** ** Re-arming at 23:59 *)

(** C3 (the code departs from the claim).  A repeating update for 23:59
    is in the registry and a poll runs at 23:59.  The expiry scan, which
    does not look at the repeat flag, retires the entry before the
    re-arm loop runs, so [repeat_updates_scheduler] is never called for
    it: after the poll the registry is empty and the scheduler queue
    holds the one event it held before, no new one. *)
Theorem repeat_update_not_rearmed_at_2359 :
  let r := render_webpage config_max4 (StructTime 10 0) one_to_midnight
             no_request armed_state in
  map (fun u => (title u, time u, repeat u)) (scheduled_updates armed_state)
  = [("T", "23:59", true)]
  /\ sq_queue (covid_scheduler armed_state)
     = [mkEvent 86340 1 0 covid_API_request_action]
  /\ returned r = true
  /\ scheduled_updates (snd r) = []
  /\ sq_queue (covid_scheduler (snd r)) = sq_queue (covid_scheduler armed_state)
  /\ sq_queue (news_scheduler (snd r)) = []
  /\ covid_queue_info (snd r) = [].
Proof. repeat split; vm_compute; reflexivity. Qed.

(** A repeating update whose hour is not 23 does get re-armed at 23:59,
    with the delay that [time_buffer] computes from the import-time
    clock: in a process started at 10:00 the 08:00 update is entered
    79200 seconds ahead, although 08:00 is 28860 seconds away. *)
Example rearm_delay_counts_from_import_time :
  let st := snd (render_webpage config_max4 (StructTime 10 0) one_to_midnight
                   no_request
                   (set_scheduled_updates [repeating_0800] loaded_state)) in
  scheduled_updates st = [repeating_0800]
  /\ map ev_time (sq_queue (covid_scheduler st)) = [86340 + 79200]
  /\ map ev_time (sq_queue (news_scheduler st)) = [86340 + 79200].
Proof. repeat split; vm_compute; reflexivity. Qed.

(** ** Scheduling the same update twice *)

Lemma insert_event_not_nil (e : Event) (q : list Event) :
  insert_event e q <> [].
Proof. destruct q as [|x q]; cbn [insert_event]; [|destruct (event_lt e x)]; discriminate. Qed.

Lemma insert_event_elem (e x : Event) (q : list Event) :
  x ∈ insert_event e q -> x = e \/ x ∈ q.
Proof.
  induction q as [|y q IH]; cbn [insert_event].
  - intros Hin. apply list_elem_of_singleton in Hin. left. exact Hin.
  - destruct (event_lt e y).
    + intros Hin. apply elem_of_cons in Hin as [->|Hin]; [left|right]; auto.
    + intros Hin. apply elem_of_cons in Hin as [->|Hin].
      * right. left.
      * destruct (IH Hin) as [->|Hq]; [left; reflexivity|right; right; exact Hq].
Qed.

Lemma insert_event_length (e : Event) (q : list Event) :
  length (insert_event e q) = S (length q).
Proof.
  induction q as [|y q IH]; cbn [insert_event]; [reflexivity|].
  destruct (event_lt e y); cbn [length]; [reflexivity|].
  rewrite IH. reflexivity.
Qed.

Lemma schedule_on_nothing_due (cfg : Config) (w : World) (src : source)
    (delay : Z) (name : string) (rep : bool) (st : State) :
  nothing_due w src st -> 0 < delay ->
  schedule_on cfg w src delay name rep st
  = (Normal tt, scheduled_on w src delay name rep st).
Proof.
  intros Hdue Hd. unfold schedule_on, scheduled_on, sched_enter, entered_event.
  unfold bind at 1. unfold modify. unfold bind at 1. unfold scheduler_run.
  rewrite scheduler_of_set. cbn [sq_queue].
  set (ev := mkEvent (time_time w + delay) 1 (sq_counter (scheduler_of src st))
               (request_action src)).
  set (q := sq_queue (scheduler_of src st)).
  pose proof (insert_event_not_nil ev q) as Hne.
  pose proof (insert_event_length ev q) as Hlen.
  assert (Hall : forall x, x ∈ insert_event ev q -> time_time w < ev_time x).
  { intros x Hx. apply insert_event_elem in Hx as [->|Hx].
    - subst ev. cbn [ev_time]. lia.
    - apply Hdue. exact Hx. }
  rewrite Hlen. cbn [scheduler_run_from]. rewrite scheduler_of_set.
  cbn [sq_queue].
  destruct (insert_event ev q) as [|hd tl] eqn:Hq; [contradiction|].
  replace (time_time w <? ev_time hd) with true
    by (symmetry; apply Z.ltb_lt, Hall; left).
  unfold bind at 1. unfold gets at 1. rewrite scheduler_of_set.
  cbn [sq_queue].
  destruct (last (hd :: tl)) as [newest|] eqn:Hlast.
  2:{ apply last_None in Hlast. discriminate. }
  cbn [default]. unfold bind, gets. rewrite queue_info_of_set_scheduler.
  unfold recorded, put.
  clear Hq Hne Hlen Hall Hlast Hdue. clear ev q.
  destruct (existsb _ _); [unfold ret|]; destruct src, st; reflexivity.
Qed.

Lemma schedule_update_nothing_due (cfg : Config) (dt : time_arg) (w : World)
    (name given : string) (rep cu nu : option string) (d : Z) (st : State) :
  given <> "" ->
  time_buffer dt given None = Normal d -> 0 < d ->
  nothing_due w Covid st -> nothing_due w News st ->
  schedule_update cfg dt w name (Some given) rep cu nu st
  = (Normal tt,
     refreshed w d name (is_not_None rep) (is_not_None cu) (is_not_None nu)
       (set_scheduled_updates
          (registered (requested_update name given rep cu nu)
             (scheduled_updates st)) st)).
Proof.
  intros Hgiven Htb Hd Hc Hn. unfold schedule_update.
  rewrite bool_decide_eq_false_2 by congruence.
  cbn [str_of_arg]. unfold bind at 1. unfold bind at 1. unfold lift.
  rewrite Htb. unfold ret at 1. cbn [fst snd].
  unfold bind at 1. unfold gets at 1. unfold bind at 1.
  fold (requested_update name given rep cu nu).
  set (rec := requested_update name given rep cu nu).
  set (st0 := set_scheduled_updates (registered rec (scheduled_updates st)) st).
  assert (Hst0 : (if existsb (fun u => bool_decide (rec = u))
                       (scheduled_updates st)
                  then ret tt
                  else modify (set_scheduled_updates
                                 (scheduled_updates st ++ [rec]))) st
                 = (Normal tt, st0)).
  { subst st0. unfold registered. destruct (existsb _ _).
    - unfold ret. rewrite set_scheduled_updates_same. reflexivity.
    - reflexivity. }
  rewrite Hst0.
  assert (Hc0 : nothing_due w Covid st0) by exact Hc.
  assert (Hn0 : nothing_due w News st0) by exact Hn.
  unfold refreshed, schedule_covid_updates, update_news.
  destruct (is_not_None cu), (is_not_None nu); cbn [andb].
  - unfold bind. rewrite schedule_on_nothing_due by assumption.
    apply schedule_on_nothing_due; [|assumption].
    intros e He. apply Hn0. exact He.
  - apply schedule_on_nothing_due; assumption.
  - apply schedule_on_nothing_due; assumption.
  - reflexivity.
Qed.

Lemma scheduler_of_refreshed (src : source) (w : World) (d : Z) (name : string)
    (rep : bool) (cu nu : option string) (st : State) :
  scheduler_of src
    (refreshed w d name rep (is_not_None cu) (is_not_None nu) st)
  = if refreshes src cu nu
    then sched_enter (time_time w) d 1 (request_action src) (scheduler_of src st)
    else scheduler_of src st.
Proof.
  unfold refreshed, scheduled_on, put.
  destruct src; cbn [refreshes];
    destruct (is_not_None cu), (is_not_None nu); reflexivity.
Qed.

Lemma scheduled_updates_refreshed (w : World) (d : Z) (name : string)
    (rep c n : bool) (st : State) :
  scheduled_updates (refreshed w d name rep c n st) = scheduled_updates st.
Proof. unfold refreshed, scheduled_on, put. destruct c, n; reflexivity. Qed.

Lemma existsb_decide_elem {A} `{EqDecision A} (x : A) (l : list A) :
  existsb (fun y => bool_decide (x = y)) l = true <-> x ∈ l.
Proof.
  rewrite existsb_exists. split.
  - intros (y & Hin & Hy). apply bool_decide_eq_true in Hy. subst y.
    apply list_elem_of_In. exact Hin.
  - intros Hin. exists x. split; [apply list_elem_of_In, Hin|].
    apply bool_decide_eq_true. reflexivity.
Qed.

Lemma registered_elem (u : update) (l : list update) : u ∈ registered u l.
Proof.
  unfold registered. destruct (existsb _ l) eqn:Hex.
  - apply existsb_decide_elem. exact Hex.
  - apply elem_of_app. right. left.
Qed.

Lemma registered_twice (u : update) (l : list update) :
  registered u (registered u l) = registered u l.
Proof.
  unfold registered at 1.
  rewrite (proj2 (existsb_decide_elem u _) (registered_elem u l)).
  reflexivity.
Qed.

Lemma registered_fresh_title (u : update) (l : list update) :
  (forall v, v ∈ l -> title v <> title u) ->
  List.filter (fun v => bool_decide (title v = title u)) (registered u l) = [u].
Proof.
  intros Hfresh. unfold registered.
  assert (Hnone : List.filter (fun v => bool_decide (title v = title u)) l = []).
  { induction l as [|v l IH]; [reflexivity|]. cbn [List.filter].
    rewrite bool_decide_eq_false_2 by (apply Hfresh; left).
    apply IH. intros x Hx. apply Hfresh. right. exact Hx. }
  destruct (existsb _ l) eqn:Hex.
  - apply existsb_decide_elem in Hex. exfalso.
    apply (Hfresh u Hex). reflexivity.
  - rewrite List.filter_app, Hnone. cbn [List.filter app].
    rewrite bool_decide_eq_true_2 by reflexivity. reflexivity.
Qed.

(** C1 (amended).  Two schedule requests that agree in every field, made
    while no event is due: both calls return; the second adds no
    registry record, so the registry holds the record once (and, if the
    tag was unused before, exactly one record with that tag); but each
    call enters an event of its own into the scheduler of every source
    it refreshes, so each such queue ends with two more live entries,
    not one. *)
Theorem schedule_update_twice
    (cfg : Config) (dt : time_arg) (w1 w2 : World) (name given : string)
    (rep cu nu : option string) (d : Z) (st : State) :
  given <> "" ->
  time_buffer dt given None = Normal d ->
  0 < d ->
  time_time w2 < time_time w1 + d ->
  (forall src, nothing_due w1 src st /\ nothing_due w2 src st) ->
  let u := requested_update name given rep cu nu in
  let r1 := schedule_update cfg dt w1 name (Some given) rep cu nu st in
  let r2 := schedule_update cfg dt w2 name (Some given) rep cu nu (snd r1) in
  fst r1 = Normal tt
  /\ fst r2 = Normal tt
  /\ scheduled_updates (snd r2) = scheduled_updates (snd r1)
  /\ u ∈ scheduled_updates (snd r2)
  /\ ((forall v, v ∈ scheduled_updates st -> title v <> name) ->
      List.filter (fun v => bool_decide (title v = name))
        (scheduled_updates (snd r2)) = [u])
  /\ forall src,
       sq_queue (scheduler_of src (snd r2))
       = if refreshes src cu nu then
           insert_event
             (mkEvent (time_time w2 + d) 1
                (S (sq_counter (scheduler_of src st))) (request_action src))
             (insert_event
                (mkEvent (time_time w1 + d) 1
                   (sq_counter (scheduler_of src st)) (request_action src))
                (sq_queue (scheduler_of src st)))
         else sq_queue (scheduler_of src st).
Proof.
  intros Hgiven Htb Hd Hw Hdue u r1 r2.
  assert (Hr1 : r1 = (Normal tt,
                      refreshed w1 d name (is_not_None rep) (is_not_None cu)
                        (is_not_None nu)
                        (set_scheduled_updates
                           (registered u (scheduled_updates st)) st))).
  { subst r1. apply schedule_update_nothing_due; try assumption;
      apply Hdue. }
  assert (Hsched1 : forall src,
             scheduler_of src (snd r1)
             = if refreshes src cu nu
               then sched_enter (time_time w1) d 1 (request_action src)
                      (scheduler_of src st)
               else scheduler_of src st).
  { intros src. rewrite Hr1. cbn [snd]. rewrite scheduler_of_refreshed.
    destruct src; reflexivity. }
  assert (Hdue2 : forall src, nothing_due w2 src (snd r1)).
  { intros src e. rewrite Hsched1.
    destruct (refreshes src cu nu).
    - unfold sched_enter. cbn [sq_queue]. intros He.
      apply insert_event_elem in He as [->|He].
      + cbn [ev_time]. exact Hw.
      + apply (Hdue src). exact He.
    - apply (Hdue src). }
  assert (Hreg1 : scheduled_updates (snd r1)
                  = registered u (scheduled_updates st)).
  { rewrite Hr1. cbn [snd]. rewrite scheduled_updates_refreshed. reflexivity. }
  assert (Hr2 : r2 = (Normal tt,
                      refreshed w2 d name (is_not_None rep) (is_not_None cu)
                        (is_not_None nu)
                        (set_scheduled_updates
                           (registered u (scheduled_updates (snd r1)))
                           (snd r1)))).
  { subst r2. apply schedule_update_nothing_due; try assumption;
      apply Hdue2. }
  assert (Hreg2 : scheduled_updates (snd r2) = scheduled_updates (snd r1)).
  { rewrite Hr2. cbn [snd]. rewrite scheduled_updates_refreshed.
    cbn [scheduled_updates set_scheduled_updates].
    rewrite Hreg1. apply registered_twice. }
  split; [rewrite Hr1; reflexivity|].
  split; [rewrite Hr2; reflexivity|].
  split; [exact Hreg2|].
  split; [rewrite Hreg2, Hreg1; apply registered_elem|].
  split.
  - intros Hfresh. rewrite Hreg2, Hreg1.
    apply (registered_fresh_title u). exact Hfresh.
  - intros src. rewrite Hr2. cbn [snd]. rewrite scheduler_of_refreshed.
    replace (scheduler_of src
               (set_scheduled_updates
                  (registered u (scheduled_updates (snd r1))) (snd r1)))
      with (scheduler_of src (snd r1)) by (destruct src; reflexivity).
    rewrite Hsched1. destruct (refreshes src cu nu); reflexivity.
Qed.

(** The same request twice at 10:00 for 12:00: one record, two events. *)
Lemma schedule_update_twice_witness :
  let r1 := schedule_update config_max4 (StructTime 10 0) ten_o_clock
              "T" (Some "12:00") None (Some "covid-data") None loaded_state in
  let r2 := schedule_update config_max4 (StructTime 10 0) ten_o_clock
              "T" (Some "12:00") None (Some "covid-data") None (snd r1) in
  scheduled_updates (snd r2) = scheduled_updates (snd r1)
  /\ sq_queue (covid_scheduler (snd r2))
     = [mkEvent 43200 1 0 covid_API_request_action;
        mkEvent 43200 1 1 covid_API_request_action].
Proof.
  pose proof (schedule_update_twice config_max4 (StructTime 10 0)
                ten_o_clock ten_o_clock "T" "12:00"
                None (Some "covid-data") None 7200 loaded_state) as H.
  destruct H as (_ & _ & Hreg & _ & _ & Hq).
  - discriminate.
  - vm_compute. reflexivity.
  - lia.
  - vm_compute. reflexivity.
  - intros src. split; intros e He; destruct src; inversion He.
  - split; [exact Hreg|]. exact (Hq Covid).
Defined.

(** C1 (counterexample).  After two identical requests for a statistics
    refresh the registry has one record, but [covid_scheduler] holds two
    live entries for the tag, not one; and a second request with the
    same tag but another time adds a second registry record with that
    tag. *)
Lemma second_request_enters_second_event :
  let request := schedule_update config_max4 (StructTime 10 0)
                   ten_o_clock "T" (Some "12:00") None
                   (Some "covid-data") None in
  let later := schedule_update config_max4 (StructTime 10 0)
                 ten_o_clock "T" (Some "13:00") None
                 (Some "covid-data") None in
  let st := snd (request (snd (request loaded_state))) in
  let st' := snd (later (snd (request loaded_state))) in
  length (scheduled_updates st) = 1%nat
  /\ length (sq_queue (covid_scheduler st)) = 2%nat
  /\ map event_name (covid_queue_info st) = ["T"; "T"]
  /\ map title (scheduled_updates st') = ["T"; "T"].
Proof. repeat split; vm_compute; reflexivity. Qed.

(** ** The seven-day sum *)

Lemma first_cases_index_smallest (fuel : nat) (l : list day_record)
    (c i : nat) :
  first_cases_index fuel l c = Normal i ->
  (c <= i)%nat
  /\ (forall j r, (c <= j < i)%nat -> l !! j = Some r ->
                  newCasesBySpecimenDate r = None)
  /\ exists r v, l !! i = Some r /\ newCasesBySpecimenDate r = Some v.
Proof.
  revert c. induction fuel as [|fuel IH]; intros c; cbn [first_cases_index];
    destruct (l !! c) as [r|] eqn:Hr; try discriminate;
    destruct (newCasesBySpecimenDate r) as [v|] eqn:Hv; try discriminate.
  - intros [= <-]. split; [lia|]. split; [intros; lia | eauto].
  - intros [= <-]. split; [lia|]. split; [intros; lia | eauto].
  - intros H. destruct (IH _ H) as (Hle & Hbefore & Hat).
    split; [lia|]. split; [|exact Hat].
    intros j r' Hj Hr'. destruct (decide (j = c)) as [->|Hne].
    + congruence.
    + apply (Hbefore j); [lia | exact Hr'].
Qed.

Lemma sum_cases_values (l : list day_record) (days : list nat) (acc s : Z) :
  sum_cases l days acc = Normal s ->
  exists vs,
    Forall2 (fun d v => exists r, l !! d = Some r
                                  /\ newCasesBySpecimenDate r = Some v)
      days vs
    /\ s = acc + foldr Z.add 0 vs.
Proof.
  revert acc. induction days as [|d days IH]; intros acc; cbn [sum_cases].
  - intros [= <-]. exists []. split; [constructor | cbn; lia].
  - destruct (l !! d) as [r|] eqn:Hr; [|discriminate].
    destruct (newCasesBySpecimenDate r) as [v|] eqn:Hv; [|discriminate].
    intros H. destruct (IH _ H) as (vs & Hall & Hs).
    exists (v :: vs). split; [constructor; eauto | cbn [foldr]; lia].
Qed.

(** Whenever [seven_day_case_calculator] returns, its result is the sum
    of the seven figures from the smallest index with a new-cases figure
    onwards. *)
Lemma seven_day_sum_rule (l : list day_record) (s : Z) :
  seven_day_case_calculator (Some l) = Normal s ->
  exists i vs,
    (forall j r, (j < i)%nat -> l !! j = Some r ->
                 newCasesBySpecimenDate r = None)
    /\ length vs = 7%nat
    /\ (forall k v, vs !! k = Some v ->
          exists r, l !! (i + k)%nat = Some r
                    /\ newCasesBySpecimenDate r = Some v)
    /\ s = foldr Z.add 0 vs.
Proof.
  unfold seven_day_case_calculator.
  destruct (first_cases_index (length l) l 0) as [i|] eqn:Hi; [|discriminate].
  cbn [obind]. intros Hs.
  destruct (first_cases_index_smallest _ _ _ _ Hi) as (_ & Hbefore & _).
  destruct (sum_cases_values _ _ _ _ Hs) as (vs & Hall & ->).
  exists i, vs. split; [|split; [|split]].
  - intros j r Hj. apply Hbefore. lia.
  - apply Forall2_length in Hall. rewrite length_seq in Hall. lia.
  - intros k v Hk.
    destruct (Forall2_lookup_r _ _ _ _ _ Hall Hk) as (d & Hd & r & Hr & Hv).
    apply lookup_seq in Hd as [-> _]. eauto.
  - lia.
Qed.

(** ** The loops run to their end *)

(** A loop whose body never lengthens its list is finished once the
    index has passed the list's length: the length the loop starts with
    is fuel enough, and more fuel changes nothing. *)
Lemma for_in_from_more_fuel {A} (items : State -> list A) (body : A -> M unit) :
  (forall x st, (length (items (snd (body x st))) <= length (items st))%nat) ->
  forall fuel extra i st,
    (length (items st) <= i + fuel)%nat ->
    for_in_from items body (fuel + extra) i st
    = for_in_from items body fuel i st.
Proof.
  intros Hshrink. induction fuel as [|fuel IH]; intros extra i st Hlen.
  - cbn [for_in_from Nat.add]. apply for_in_from_past_end.
    apply lookup_ge_None. lia.
  - cbn [for_in_from Nat.add].
    destruct (items st !! i) as [x|]; [|reflexivity].
    pose proof (Hshrink x st) as Hx.
    destruct (body x st) as [[?|e] st']; [|reflexivity].
    cbn [snd] in Hx. apply IH. lia.
Qed.

Lemma queue_info_remove_length (src : source) (u : queue_info) (st : State) :
  (length (queue_info_of src (snd (queue_info_remove src u st)))
   <= length (queue_info_of src st))%nat.
Proof.
  unfold queue_info_remove.
  destruct (list_remove u (queue_info_of src st)) as [l|] eqn:Hl; cbn [snd];
    [|lia].
  rewrite queue_info_of_set. apply list_remove_length in Hl. lia.
Qed.

Lemma drop_body_shrinks (src : source) (name : string) (u : queue_info)
    (st : State) :
  (length (queue_info_of src
             (snd ((if bool_decide (event_name u = name)
                    then queue_info_remove src u else ret tt) st)))
   <= length (queue_info_of src st))%nat.
Proof.
  destruct (bool_decide _); [apply queue_info_remove_length | cbn; lia].
Qed.

Lemma cancel_body_shrinks (src : source) (name : string) (u : queue_info)
    (st : State) :
  (length (queue_info_of src
             (snd ((if bool_decide (event_name u = name)
                    then bind (queue_info_remove src u)
                           (fun _ => try_cancel src (event_id u))
                    else ret tt) st)))
   <= length (queue_info_of src st))%nat.
Proof.
  destruct (bool_decide _); [|cbn; lia].
  unfold bind. pose proof (queue_info_remove_length src u st) as H.
  destruct (queue_info_remove src u st) as [[?|e] st1]; cbn [snd] in *;
    [|exact H].
  unfold try_cancel, modify. cbn [snd].
  destruct (sched_cancel _ _); [|exact H].
  rewrite queue_info_of_set_scheduler. exact H.
Qed.

Lemma expiry_body_shrinks (w : World) (u : update) (st : State) :
  (length (scheduled_updates (snd (expiry_body w u st)))
   <= length (scheduled_updates st))%nat.
Proof.
  unfold expiry_body, bind, lift, ret.
  destruct (update_expired w u) as [[|]|e]; cbn [snd]; try lia.
  unfold scheduled_updates_remove.
  destruct (list_remove u (scheduled_updates st)) as [l|] eqn:Hl; cbn [snd];
    [|lia].
  rewrite expired_bookkeeping_registry. cbn [snd].
  cbn [scheduled_updates set_scheduled_updates].
  apply list_remove_length in Hl. lia.
Qed.

(** Neither request function touches a scheduler or a registry. *)
Lemma covid_API_request_frame (cfg : Config) (w : World) (st : State) :
  let st' := snd (covid_API_request cfg w st) in
  st' = set_local_data (local_data st') (set_england_data (england_data st') st).
Proof.
  unfold covid_API_request, set_covid_data, bind, modify, lift.
  destruct (test_covid_API_request _ _); [|destruct st; reflexivity].
  destruct (subscript_data (england_json w)); [|destruct st; reflexivity].
  destruct (subscript_data (local_json w)); [|destruct st; reflexivity].
  destruct (process_covid_json_data _ _ _); destruct st; reflexivity.
Qed.

Lemma only_news_refl (st : State) : only_news st st.
Proof. unfold only_news. destruct st; reflexivity. Qed.

Lemma only_news_trans (a b c : State) :
  only_news a b -> only_news b c -> only_news a c.
Proof. unfold only_news. intros -> ->. reflexivity. Qed.

Lemma for_each_only_news {A} (body : A -> M unit) :
  (forall x st, only_news st (snd (body x st))) ->
  forall l st, only_news st (snd (for_each l body st)).
Proof.
  intros Hbody. induction l as [|x l IH]; intros st.
  - apply only_news_refl.
  - cbn [for_each]. unfold bind. pose proof (Hbody x st) as Hx.
    destruct (body x st) as [[?|e] st1]; cbn [snd] in *; [|exact Hx].
    eapply only_news_trans; [exact Hx | apply IH].
Qed.

Lemma news_processor_frame (cfg : Config) (j : option (jfield (list article)))
    (st : State) :
  only_news st (snd (news_processor cfg j st)).
Proof.
  unfold news_processor. unfold bind at 1. unfold lift at 1.
  destruct j as [[| |l]|]; try apply only_news_refl.
  apply for_each_only_news. intros a s.
  unfold bind, gets, lift, ret, modify.
  destruct (bool_decide (a ∈ covid_news s)); [apply only_news_refl|].
  destruct (dict_get a "title") as [t|e]; [|apply only_news_refl].
  destruct (title_removed t (removed_article_titles s));
    [apply only_news_refl|].
  destruct (dict_get a (displayed_content cfg)) as [c|e];
    [|apply only_news_refl].
  unfold only_news. destruct s; reflexivity.
Qed.

Lemma run_action_keeps_scheduler (cfg : Config) (w : World) (a : action)
    (src : source) (st : State) :
  scheduler_of src (snd (run_action cfg w a st)) = scheduler_of src st.
Proof.
  destruct a; cbn [run_action].
  - rewrite (covid_API_request_frame cfg w st). destruct src; reflexivity.
  - unfold news_API_request, bind, lift.
    destruct (test_news_api_request (news_json w)); [|reflexivity].
    pose proof (news_processor_frame cfg (news_json w) st) as Hframe.
    unfold only_news in Hframe. rewrite Hframe.
    destruct src; reflexivity.
Qed.

(** No action enters an event: the queue's length is fuel enough for
    [scheduler.run]. *)
Lemma scheduler_run_from_more_fuel (cfg : Config) (w : World) (src : source) :
  forall fuel extra st,
    (length (sq_queue (scheduler_of src st)) <= fuel)%nat ->
    scheduler_run_from cfg w src (fuel + extra) st
    = scheduler_run_from cfg w src fuel st.
Proof.
  induction fuel as [|fuel IH]; intros extra st Hlen.
  - destruct (sq_queue (scheduler_of src st)) as [|e q] eqn:Hq;
      [|cbn [length] in Hlen; lia].
    destruct extra; cbn [scheduler_run_from Nat.add]; [reflexivity|].
    rewrite Hq. reflexivity.
  - cbn [scheduler_run_from Nat.add].
    destruct (sq_queue (scheduler_of src st)) as [|e q] eqn:Hq; [reflexivity|].
    destruct (time_time w <? ev_time e); [reflexivity|].
    pose proof (run_action_keeps_scheduler cfg w (ev_action e) src
                  (set_scheduler_of src
                     (mkScheduler q (sq_counter (scheduler_of src st))) st))
      as Hkeep.
    destruct (run_action _ _ _ _) as [[?|x] st']; [|reflexivity].
    cbn [snd] in Hkeep. apply IH. rewrite Hkeep, scheduler_of_set.
    cbn [sq_queue]. cbn [length] in Hlen. lia.
Qed.

(** The backtracking loops leave through [IndexError] before their fuel
    is spent. *)
Lemma first_cases_index_more_fuel (l : list day_record) :
  forall fuel extra c,
    (length l <= c + fuel)%nat ->
    first_cases_index (fuel + extra) l c = first_cases_index fuel l c.
Proof.
  induction fuel as [|fuel IH]; intros extra c Hlen.
  - assert (Hc : l !! c = None) by (apply lookup_ge_None; lia).
    destruct extra; cbn [first_cases_index Nat.add]; rewrite Hc; reflexivity.
  - cbn [first_cases_index Nat.add].
    destruct (l !! c) as [r|]; [|reflexivity].
    destruct (newCasesBySpecimenDate r); [reflexivity|].
    apply IH. lia.
Qed.

Lemma backtrack_national_more_fuel (l : list day_record) :
  forall fuel extra c h d,
    (length l <= S c + fuel)%nat ->
    backtrack_national (fuel + extra) l c h d = backtrack_national fuel l c h d.
Proof.
  induction fuel as [|fuel IH]; intros extra c h d Hlen.
  - destruct extra; [reflexivity|]. cbn [backtrack_national Nat.add].
    rewrite (proj2 (lookup_ge_None l (S c))) by lia.
    destruct h, d; reflexivity.
  - cbn [backtrack_national Nat.add].
    destruct (l !! S c) as [r|].
    + destruct h as [x|], d as [y|]; try reflexivity; apply IH; lia.
    + destruct h, d; reflexivity.
Qed.

(** The loops of the removal functions and of the expiry scan, started
    with more fuel than their list is long, give what they give when
    started by [for_in]. *)
Corollary removal_loops_fuel_enough (src : source) (name : string)
    (extra : nat) (st : State) :
  for_in_from (queue_info_of src)
    (fun u => if bool_decide (event_name u = name)
              then queue_info_remove src u else ret tt)
    (length (queue_info_of src st) + extra) 0 st
  = for_in (queue_info_of src)
      (fun u => if bool_decide (event_name u = name)
                then queue_info_remove src u else ret tt) st
  /\ for_in_from (queue_info_of src)
       (fun u => if bool_decide (event_name u = name)
                 then bind (queue_info_remove src u)
                        (fun _ => try_cancel src (event_id u))
                 else ret tt)
       (length (queue_info_of src st) + extra) 0 st
     = for_in (queue_info_of src)
         (fun u => if bool_decide (event_name u = name)
                   then bind (queue_info_remove src u)
                          (fun _ => try_cancel src (event_id u))
                   else ret tt) st.
Proof.
  split; unfold for_in; apply for_in_from_more_fuel; try lia; intros u s.
  - apply drop_body_shrinks.
  - apply cancel_body_shrinks.
Qed.

Corollary expiry_loop_fuel_enough (w : World) (extra : nat) (st : State) :
  for_in_from scheduled_updates (expiry_body w)
    (length (scheduled_updates st) + extra) 0 st
  = for_in scheduled_updates (expiry_body w) st.
Proof.
  unfold for_in. apply for_in_from_more_fuel; [|lia].
  intros u s. apply expiry_body_shrinks.
Qed.

Corollary scheduler_run_fuel_enough (cfg : Config) (w : World) (src : source)
    (extra : nat) (st : State) :
  scheduler_run_from cfg w src
    (length (sq_queue (scheduler_of src st)) + extra) st
  = scheduler_run cfg w src st.
Proof. unfold scheduler_run. apply scheduler_run_from_more_fuel. lia. Qed.

Lemma scheduler_run_from_keeps_registry (cfg : Config) (w : World)
    (src : source) (fuel : nat) (st : State) :
  scheduled_updates (snd (scheduler_run_from cfg w src fuel st))
  = scheduled_updates st.
Proof.
  revert st. induction fuel as [|fuel IH]; intros st;
    cbn [scheduler_run_from]; [reflexivity|].
  destruct (sq_queue (scheduler_of src st)) as [|e q]; [reflexivity|].
  destruct (time_time w <? ev_time e); [reflexivity|].
  set (st1 := set_scheduler_of src _ st).
  assert (Hst1 : scheduled_updates st1 = scheduled_updates st)
    by (subst st1; destruct src; reflexivity).
  assert (Hact : scheduled_updates (snd (run_action cfg w (ev_action e) st1))
                 = scheduled_updates st1).
  { destruct (ev_action e); cbn [run_action].
    - rewrite (covid_API_request_frame cfg w st1). reflexivity.
    - unfold news_API_request, bind, lift.
      destruct (test_news_api_request (news_json w)); [|reflexivity].
      pose proof (news_processor_frame cfg (news_json w) st1) as Hframe.
      unfold only_news in Hframe. rewrite Hframe. reflexivity. }
  destruct (run_action cfg w (ev_action e) st1) as [[?|x] st2];
    cbn [snd] in *; [rewrite IH|]; congruence.
Qed.

Lemma schedule_on_keeps_registry (cfg : Config) (w : World) (src : source)
    (delay : Z) (name : string) (rep : bool) (st : State) :
  scheduled_updates (snd (schedule_on cfg w src delay name rep st))
  = scheduled_updates st.
Proof.
  unfold schedule_on. unfold bind at 1. unfold modify at 1.
  unfold bind at 1. unfold scheduler_run.
  set (st1 := set_scheduler_of src _ st).
  assert (Hst1 : scheduled_updates st1 = scheduled_updates st)
    by (subst st1; destruct src; reflexivity).
  pose proof (scheduler_run_from_keeps_registry cfg w src
                (length (sq_queue (scheduler_of src st1))) st1) as Hrun.
  destruct (scheduler_run_from cfg w src _ st1) as [[?|x] st2];
    cbn [snd] in *; [|congruence].
  unfold bind at 1. unfold gets at 1.
  destruct (last (sq_queue (scheduler_of src st2))); [|cbn; congruence].
  unfold bind, gets. destruct (existsb _ _); unfold ret, modify; cbn [snd].
  - congruence.
  - rewrite <- Hst1, <- Hrun. destruct src; reflexivity.
Qed.

Lemma rearm_body_keeps_registry (cfg : Config) (dt : time_arg) (w : World)
    (u : update) (st : State) :
  scheduled_updates (snd (rearm_body cfg dt w u st)) = scheduled_updates st.
Proof.
  unfold rearm_body, repeat_updates_scheduler, schedule_covid_updates,
    update_news.
  destruct (repeat u); [|reflexivity].
  unfold bind at 1. unfold lift.
  destruct (time_buffer dt (time u) None) as [d|e]; [|reflexivity].
  destruct (covid u && covid u).
  - unfold bind.
    pose proof (schedule_on_keeps_registry cfg w Covid d (title u) true st)
      as Hc.
    destruct (schedule_on cfg w Covid d (title u) true st) as [[?|x] st1];
      cbn [snd] in *; [|exact Hc].
    rewrite schedule_on_keeps_registry. exact Hc.
  - destruct (covid u); [apply schedule_on_keeps_registry|].
    destruct (news u); [apply schedule_on_keeps_registry | reflexivity].
Qed.

Lemma cancel_body_shrinks_registry (item : string) (u : update) (st : State) :
  (length (scheduled_updates (snd (cancel_body item u st)))
   <= length (scheduled_updates st))%nat.
Proof.
  unfold cancel_body, remove_news_update, remove_covid_data_update.
  destruct (bool_decide (title u = item)); [|cbn; lia].
  unfold bind at 1. unfold scheduled_updates_remove.
  destruct (list_remove u (scheduled_updates st)) as [l|] eqn:Hl; cbn [snd];
    [|lia].
  unfold bind. rewrite remove_queue_update_registry.
  rewrite remove_queue_update_registry. cbn [snd].
  cbn [scheduled_updates set_scheduled_updates].
  apply list_remove_length in Hl. lia.
Qed.

(** The same for the two loops of [main] over the registry. *)
Corollary registry_loops_fuel_enough (cfg : Config) (dt : time_arg)
    (w : World) (item : string) (extra : nat) (st : State) :
  for_in_from scheduled_updates (cancel_body item)
    (length (scheduled_updates st) + extra) 0 st
  = for_in scheduled_updates (cancel_body item) st
  /\ for_in_from scheduled_updates (rearm_body cfg dt w)
       (length (scheduled_updates st) + extra) 0 st
     = for_in scheduled_updates (rearm_body cfg dt w) st.
Proof.
  split; unfold for_in; apply for_in_from_more_fuel; try lia; intros u s.
  - apply cancel_body_shrinks_registry.
  - rewrite rearm_body_keeps_registry. lia.
Qed.

(* ===================================================================== *)
(** * Properties of the remaining code *)
(* ===================================================================== *)

(** ** Reading the CSV file *)

Lemma str_drop_last_newline (body : string) (c : Ascii.ascii) :
  str_drop_last (body +:+ String c EmptyString) = body.
Proof.
  induction body as [|x body IH]; [reflexivity|].
  destruct body as [|y body]; [reflexivity|].
  simpl in *. rewrite IH. reflexivity.
Qed.

Lemma str_split_not_nil (sep : Ascii.ascii) (s : string) :
  str_split sep s <> [].
Proof.
  destruct s as [|c s]; cbn [str_split]; [discriminate|].
  destruct (decide (c = sep)); [discriminate|].
  destruct (str_split sep s); discriminate.
Qed.

Lemma str_split_join (sep : Ascii.ascii) (s : string) :
  str_join sep (str_split sep s) = s.
Proof.
  induction s as [|c s IH]; [reflexivity|].
  cbn [str_split]. pose proof (str_split_not_nil sep s) as Hne.
  destruct (decide (c = sep)) as [->|Hc].
  - destruct (str_split sep s) as [|f fs]; [contradiction|].
    change (str_join sep (EmptyString :: f :: fs))
      with (String sep (str_join sep (f :: fs))).
    rewrite IH. reflexivity.
  - destruct (str_split sep s) as [|f fs]; [contradiction|].
    destruct fs as [|g fs].
    + cbn [str_join] in *. rewrite IH. reflexivity.
    + change (str_join sep (String c f :: g :: fs))
        with (String c (f +:+ String sep (str_join sep (g :: fs)))).
      change (str_join sep (f :: g :: fs))
        with (f +:+ String sep (str_join sep (g :: fs))) in IH.
      rewrite IH. reflexivity.
Qed.

Lemma str_split_fields_clean (sep : Ascii.ascii) (s : string) :
  Forall (fun field => str_has sep field = false) (str_split sep s).
Proof.
  induction s as [|c s IH]; cbn [str_split].
  - repeat constructor.
  - destruct (decide (c = sep)) as [->|Hc].
    + constructor; [reflexivity | exact IH].
    + destruct (str_split sep s) as [|f fs].
      * repeat constructor. cbn [str_has].
        rewrite bool_decide_eq_false_2 by exact Hc. reflexivity.
      * apply Forall_cons in IH as [Hf Hfs]. constructor; [|exact Hfs].
        cbn [str_has]. rewrite bool_decide_eq_false_2 by exact Hc. exact Hf.
Qed.

(** X1.  [parse_csv_data] turns every line into the tuple of its
    comma-separated fields after cutting the line's last character:
    every tuple has at least one field, no field contains a comma, and
    joining a tuple with commas gives the line back without that
    character.  For lines that end in a newline
    the tuples are exactly the fields of the line bodies. *)
Theorem parse_csv_data_fields (covid_csv_file bodies : list string) :
  length (parse_csv_data covid_csv_file) = length covid_csv_file
  /\ Forall (fun row => row <> []) (parse_csv_data covid_csv_file)
  /\ map (str_join comma) (parse_csv_data covid_csv_file)
     = map str_drop_last covid_csv_file
  /\ Forall (Forall (fun field => str_has comma field = false))
       (parse_csv_data covid_csv_file)
  /\ map (str_join comma)
       (parse_csv_data (map (fun body => body +:+ newline) bodies))
     = bodies.
Proof.
  unfold parse_csv_data. split; [apply length_map|].
  split; [|split; [|split]].
  - apply Forall_map. apply Forall_forall. intros line _.
    apply str_split_not_nil.
  - rewrite map_map. apply map_ext. intros line. apply str_split_join.
  - apply Forall_map. apply Forall_forall. intros line _.
    apply str_split_fields_clean.
  - rewrite !map_map. rewrite <- (map_id bodies) at 2.
    apply map_ext. intros body. rewrite str_split_join.
    unfold newline. apply str_drop_last_newline.
Qed.

(** ** The figures of the CSV file *)

Lemma cell_drop (data : list (list string)) (r c : nat) :
  cell data r c
  = match drop r data with
    | [] => Raised IndexError
    | line :: _ =>
        match line !! c with
        | None => Raised IndexError
        | Some v => Normal v
        end
    end.
Proof.
  unfold cell. destruct (data !! r) as [line|] eqn:Hr.
  - rewrite (drop_S _ _ _ Hr). reflexivity.
  - apply lookup_ge_None in Hr. rewrite drop_ge by lia. reflexivity.
Qed.

(** The backtracking loop computes [first_filled] over the rows from
    [counter] on. *)
Lemma csv_backtrack_first_filled (data : list (list string)) (col : nat) :
  forall fuel value counter,
    (length data < counter + fuel)%nat ->
    csv_backtrack fuel data col value counter
    = match (if decide (value = EmptyString)
             then first_filled col (drop counter data) else Some value) with
      | Some v => Normal v
      | None => Raised IndexError
      end.
Proof.
  induction fuel as [|fuel IH]; intros value counter Hlen;
    cbn [csv_backtrack]; destruct (decide (value = EmptyString)) as [->|Hv];
    try reflexivity.
  - rewrite drop_ge by lia. reflexivity.
  - rewrite cell_drop.
    destruct (drop counter data) as [|line rest] eqn:Hd; [reflexivity|].
    cbn [first_filled].
    destruct (line !! col) as [v|]; [|reflexivity]. cbn [obind].
    rewrite IH by lia.
    assert (Hrest : drop (S counter) data = rest).
    { assert (Hl : data !! counter = Some line).
      { pose proof (lookup_drop data counter 0) as Hl.
        rewrite Hd, Nat.add_0_r in Hl. symmetry. exact Hl. }
      pose proof (drop_S _ _ _ Hl) as Hs. rewrite Hd in Hs.
      injection Hs as Hs. symmetry. exact Hs. }
    rewrite Hrest. reflexivity.
Qed.

Lemma process_covid_csv_data_unfolded (titles : list string)
    (data : list (list string)) :
  process_covid_csv_data (titles :: data)
  = (match first_filled 5 data, first_filled 4 data with
     | Some hs, Some ds =>
         obind (csv_first_cases (length data) data 2) (fun i =>
         obind (csv_sum_cases data (seq i 7) 0) (fun c =>
         obind (int_of_str hs) (fun h =>
         obind (int_of_str ds) (fun d => Normal (c, h, d)))))
     | _, _ => Raised IndexError
     end, data).
Proof.
  unfold process_covid_csv_data. cbn [lookup list_lookup list_remove].
  rewrite decide_True by reflexivity. f_equal.
  rewrite !cell_drop.
  destruct data as [|r0 rest]; [reflexivity|].
  cbn [drop first_filled].
  destruct (r0 !! 5%nat) as [h0|]; [|reflexivity]. cbn [obind].
  destruct (r0 !! 4%nat) as [d0|];
    [|destruct (decide (h0 = EmptyString)), (first_filled 5 rest); reflexivity].
  cbn [obind].
  rewrite !csv_backtrack_first_filled by (cbn [length]; lia).
  cbn [drop]. rewrite !drop_0.
  destruct (if decide (d0 = EmptyString) then first_filled 4 rest else Some d0)
    as [ds|];
    destruct (if decide (h0 = EmptyString) then first_filled 5 rest
              else Some h0) as [hs|]; reflexivity.
Qed.

(** X2.  [process_covid_csv_data] removes the header row from the list it
    is given, whatever happens afterwards, and looks for the hospital
    and the deaths figure each on its own: when it returns, they are the
    first non-empty values of columns 5 and 4 of the data rows; when
    either column has no value, the call ends in [IndexError]. *)
Theorem csv_figures_found_independently (titles : list string)
    (data : list (list string)) :
  snd (process_covid_csv_data (titles :: data)) = data
  /\ (first_filled 5 data = None \/ first_filled 4 data = None ->
      fst (process_covid_csv_data (titles :: data)) = Raised IndexError)
  /\ (forall c h d,
        fst (process_covid_csv_data (titles :: data)) = Normal (c, h, d) ->
        exists hs ds,
          first_filled 5 data = Some hs /\ int_of_str hs = Normal h
          /\ first_filled 4 data = Some ds /\ int_of_str ds = Normal d).
Proof.
  rewrite process_covid_csv_data_unfolded. cbn [fst snd].
  split; [reflexivity|]. split.
  - intros [-> | ->]; [reflexivity|].
    destruct (first_filled 5 data); reflexivity.
  - intros c h d.
    destruct (first_filled 5 data) as [hs|]; [|discriminate].
    destruct (first_filled 4 data) as [ds|]; [|discriminate].
    destruct (csv_first_cases _ _ _) as [i|]; [|discriminate]. cbn [obind].
    destruct (csv_sum_cases _ _ _) as [c'|]; [|discriminate]. cbn [obind].
    destruct (int_of_str hs) as [h'|] eqn:Hh; [|discriminate]. cbn [obind].
    destruct (int_of_str ds) as [d'|] eqn:Hd; [|discriminate]. cbn [obind].
    intros [= <- <- <-]. exists hs, ds. repeat split; assumption.
Qed.

(** The sample file: deaths from its second row, hospital cases from its
    third, each the first value of its column. *)
Lemma csv_figures_found_independently_witness :
  fst (process_covid_csv_data (parse_csv_data sample_csv_lines))
  = Normal (280, 70, 140)
  /\ exists hs ds,
       first_filled 5 (tail (parse_csv_data sample_csv_lines)) = Some hs
       /\ int_of_str hs = Normal 70
       /\ first_filled 4 (tail (parse_csv_data sample_csv_lines)) = Some ds
       /\ int_of_str ds = Normal 140.
Proof.
  assert (Hrun : fst (process_covid_csv_data (parse_csv_data sample_csv_lines))
                 = Normal (280, 70, 140)) by (vm_compute; reflexivity).
  split; [exact Hrun|].
  destruct (parse_csv_data sample_csv_lines) as [|titles data] eqn:Hp;
    [discriminate|].
  exact (proj2 (proj2 (csv_figures_found_independently titles data))
           280 70 140 Hrun).
Defined.

Lemma csv_first_cases_smallest (data : list (list string)) :
  forall fuel start i,
    csv_first_cases fuel data start = Normal i ->
    (start <= i)%nat
    /\ (forall j, (start <= j < i)%nat -> cell data j 6 = Normal EmptyString)
    /\ exists v, cell data i 6 = Normal v /\ v <> EmptyString.
Proof.
  induction fuel as [|fuel IH]; intros start i; cbn [csv_first_cases];
    destruct (cell data start 6) as [v|] eqn:Hv; try discriminate;
    cbn [obind]; destruct (decide (v = EmptyString)) as [->|Hne];
    try discriminate.
  - intros [= <-]. split; [lia|]. split; [intros; lia | eauto].
  - intros H. destruct (IH _ _ H) as (Hle & Hblank & Hat).
    split; [lia|]. split; [|exact Hat].
    intros j Hj. destruct (decide (j = start)) as [->|]; [exact Hv|].
    apply Hblank. lia.
  - intros [= <-]. split; [lia|]. split; [intros; lia | eauto].
Qed.

Lemma csv_sum_cases_values (data : list (list string)) (days : list nat)
    (acc c : Z) :
  csv_sum_cases data days acc = Normal c ->
  exists vs,
    Forall2 (fun day v => exists s, cell data day 6 = Normal s
                                    /\ int_of_str s = Normal v) days vs
    /\ c = acc + foldr Z.add 0 vs.
Proof.
  revert acc. induction days as [|day days IH]; intros acc;
    cbn [csv_sum_cases].
  - intros [= <-]. exists []. split; [constructor | cbn; lia].
  - destruct (cell data day 6) as [s|] eqn:Hs; [|discriminate]. cbn [obind].
    destruct (int_of_str s) as [n|] eqn:Hn; [|discriminate]. cbn [obind].
    intros H. destruct (IH _ H) as (vs & Hall & ->).
    exists (n :: vs). split; [constructor; eauto | cbn [foldr]; lia].
Qed.

(** X3.  When [process_covid_csv_data] returns, its case figure is the
    sum of seven consecutive rows that starts at the first row of index
    two or more with a case value: the two most recent data rows are
    never counted, and the rows skipped after them have no case value. *)
Theorem csv_case_sum_skips_two_rows (titles : list string)
    (data : list (list string)) (c h d : Z) :
  fst (process_covid_csv_data (titles :: data)) = Normal (c, h, d) ->
  exists i vs,
    (2 <= i)%nat
    /\ (forall j, (2 <= j < i)%nat -> cell data j 6 = Normal EmptyString)
    /\ length vs = 7%nat
    /\ (forall k v, vs !! k = Some v ->
          exists s, cell data (i + k) 6 = Normal s /\ int_of_str s = Normal v)
    /\ c = foldr Z.add 0 vs.
Proof.
  rewrite process_covid_csv_data_unfolded. cbn [fst].
  destruct (first_filled 5 data) as [hs|]; [|discriminate].
  destruct (first_filled 4 data) as [ds|]; [|discriminate].
  destruct (csv_first_cases _ _ _) as [i|] eqn:Hi; [|discriminate].
  cbn [obind].
  destruct (csv_sum_cases _ _ _) as [c'|] eqn:Hc; [|discriminate].
  cbn [obind].
  destruct (int_of_str hs) as [h'|]; [|discriminate]. cbn [obind].
  destruct (int_of_str ds) as [d'|]; [|discriminate]. cbn [obind].
  intros [= <- <- <-].
  destruct (csv_first_cases_smallest _ _ _ _ Hi) as (Hle & Hblank & _).
  destruct (csv_sum_cases_values _ _ _ _ Hc) as (vs & Hall & ->).
  exists i, vs. split; [exact Hle|]. split; [exact Hblank|].
  split; [|split].
  - apply Forall2_length in Hall. rewrite length_seq in Hall. lia.
  - intros k v Hk.
    destruct (Forall2_lookup_r _ _ _ _ _ Hall Hk) as (day & Hday & s & Hs & Hv).
    apply lookup_seq in Hday as [-> _]. eauto.
  - lia.
Qed.

(** In the sample file the row with 900 cases, the second most recent,
    is not part of the 280. *)
Lemma csv_case_sum_skips_two_rows_witness :
  exists i vs,
    (2 <= i)%nat /\ length vs = 7%nat /\ 280 = foldr Z.add 0 vs.
Proof.
  assert (Hrun : fst (process_covid_csv_data (parse_csv_data sample_csv_lines))
                 = Normal (280, 70, 140)) by (vm_compute; reflexivity).
  destruct (parse_csv_data sample_csv_lines) as [|titles data] eqn:Hp;
    [discriminate|].
  destruct (csv_case_sum_skips_two_rows titles data 280 70 140 Hrun)
    as (i & vs & Hi & _ & Hlen & _ & Hsum).
  exists i, vs. repeat split; assumption.
Defined.

(** ** Separating thousands *)

Lemma comma_loop_without_commas (len : nat) (digits : list Ascii.ascii) :
  forall counter return_value,
    List.filter (fun c => negb (bool_decide (c = comma)))
      (comma_loop len digits counter return_value)
    = List.filter (fun c => negb (bool_decide (c = comma))) return_value
      ++ List.filter (fun c => negb (bool_decide (c = comma))) digits.
Proof.
  induction digits as [|c digits IH]; intros counter rv; cbn [comma_loop].
  - cbn [List.filter]. rewrite app_nil_r. reflexivity.
  - destruct (counter mod 3 =? 0)%nat; [destruct (counter =? len)%nat|];
      rewrite IH, !List.filter_app; cbn [List.filter];
      destruct (negb (bool_decide (c = comma)));
      rewrite <- ?app_assoc; reflexivity.
Qed.

Lemma string_of_list_ascii_length (l : list Ascii.ascii) :
  String.length (String.string_of_list_ascii l) = length l.
Proof. induction l as [|c l IH]; cbn; [reflexivity | rewrite IH; reflexivity]. Qed.

Lemma list_ascii_of_string_length (s : string) :
  length (String.list_ascii_of_string s) = String.length s.
Proof. induction s as [|c s IH]; cbn; [reflexivity | rewrite IH; reflexivity]. Qed.

Lemma comma_loop_length (len : nat) (digits : list Ascii.ascii) :
  forall counter return_value,
    (counter + length digits = len + 1)%nat ->
    (1 <= counter)%nat ->
    length (comma_loop len digits counter return_value)
    = (length return_value + length digits
       + ((len - 1) / 3 - (counter - 1) / 3))%nat.
Proof.
  induction digits as [|c digits IH]; intros counter rv Hlen Hc;
    cbn [comma_loop length] in *.
  - replace (counter - 1)%nat with len by lia.
    pose proof (Nat.Div0.div_le_mono (len - 1) len 3 ltac:(lia)). lia.
  - destruct (counter mod 3 =? 0)%nat eqn:Hmod.
    + apply Nat.eqb_eq in Hmod.
      destruct (counter =? len)%nat eqn:Heq.
      * apply Nat.eqb_eq in Heq. subst counter.
        destruct digits as [|? ?]; [|cbn [length] in Hlen; lia].
        cbn [comma_loop length]. rewrite length_app. cbn [length].
        rewrite Nat.sub_diag. lia.
      * apply Nat.eqb_neq in Heq.
        rewrite IH by lia. rewrite !length_app. cbn [length].
        pose proof (Nat.div_mod_eq counter 3) as Hk.
        pose proof (Nat.div_mod_eq (counter - 1) 3) as Hk1.
        pose proof (Nat.mod_upper_bound (counter - 1) 3 ltac:(lia)) as Hb1.
        pose proof (Nat.div_mod_eq (len - 1) 3) as Hl.
        pose proof (Nat.mod_upper_bound (len - 1) 3 ltac:(lia)) as Hlb.
        replace (S counter - 1)%nat with counter by lia.
        nia.
    + apply Nat.eqb_neq in Hmod.
      rewrite IH by lia. rewrite length_app. cbn [length].
      pose proof (Nat.div_mod_eq counter 3) as Hk.
      pose proof (Nat.mod_upper_bound counter 3 ltac:(lia)) as Hb.
      pose proof (Nat.div_mod_eq (counter - 1) 3) as Hk1.
      pose proof (Nat.mod_upper_bound (counter - 1) 3 ltac:(lia)) as Hb1.
      replace (S counter - 1)%nat with counter by lia.
      assert (Hdiv : (counter / 3 = (counter - 1) / 3)%nat) by nia.
      rewrite Hdiv. lia.
Qed.

(** X4.  [comma_separator] only inserts commas: taking the commas out
    of its result gives the argument with its own commas taken out, so a
    number written without commas is recovered unchanged. *)
Theorem comma_separator_keeps_digits (value_to_separate : string) :
  without_commas (comma_separator value_to_separate)
  = without_commas value_to_separate
  /\ (str_has comma value_to_separate = false ->
      without_commas (comma_separator value_to_separate) = value_to_separate).
Proof.
  assert (Hstrip : without_commas (comma_separator value_to_separate)
                   = without_commas value_to_separate).
  { unfold without_commas, comma_separator.
    rewrite String.list_ascii_of_string_of_list_ascii.
    rewrite List.filter_rev, comma_loop_without_commas.
    cbn [List.filter app]. rewrite List.filter_rev, rev_involutive.
    reflexivity. }
  split; [exact Hstrip|]. intros Hclean. rewrite Hstrip.
  unfold without_commas.
  rewrite <- (String.string_of_list_ascii_of_string value_to_separate) at 2.
  f_equal. clear Hstrip.
  induction value_to_separate as [|c s IH]; [reflexivity|].
  cbn [str_has] in Hclean. apply orb_false_elim in Hclean as [Hc Hs].
  cbn [String.list_ascii_of_string List.filter]. rewrite Hc. cbn [negb].
  rewrite IH by exact Hs. reflexivity.
Qed.

Lemma comma_separator_keeps_digits_witness :
  without_commas (comma_separator "1234567") = "1234567".
Proof.
  apply (proj2 (comma_separator_keeps_digits "1234567")).
  vm_compute. reflexivity.
Defined.

(** X5.  The result of [comma_separator] is longer than its argument by
    one comma for every full group of three characters that has a
    character before it: n characters become n + (n - 1) / 3. *)
Theorem comma_separator_length (value_to_separate : string) :
  String.length (comma_separator value_to_separate)
  = (String.length value_to_separate
     + (String.length value_to_separate - 1) / 3)%nat.
Proof.
  unfold comma_separator. rewrite string_of_list_ascii_length, length_rev.
  rewrite <- list_ascii_of_string_length.
  set (chars := String.list_ascii_of_string value_to_separate).
  destruct chars as [|c chars'] eqn:Hchars; [reflexivity|].
  rewrite <- Hchars.
  rewrite comma_loop_length; rewrite ?length_rev; try lia.
  cbn [length]. change ((1 - 1) / 3)%nat with 0%nat. lia.
Qed.

(** ** The figures of the JSON payload *)

Lemma backtrack_national_figures (data : list day_record) :
  forall fuel c h d,
    (length data <= S c + fuel)%nat ->
    backtrack_national fuel data c h d
    = match figures_behind h d (drop (S c) data) with
      | Some found => Normal found
      | None => Raised IndexError
      end.
Proof.
  induction fuel as [|fuel IH]; intros c h d Hlen.
  - rewrite drop_ge by lia.
    destruct h as [x|], d as [y|]; reflexivity.
  - destruct (data !! S c) as [r|] eqn:Hr.
    + rewrite (drop_S _ _ _ Hr).
      destruct h as [x|], d as [y|]; cbn [backtrack_national]; rewrite ?Hr;
        try reflexivity; rewrite IH by lia;
        cbn [figures_behind first_non_null after_first].
      * destruct (cumDailyNsoDeathsByDeathDate r); reflexivity.
      * destruct (hospitalCases r); reflexivity.
      * destruct (hospitalCases r); reflexivity.
    + rewrite drop_ge by (apply lookup_ge_None in Hr; lia).
      destruct h as [x|], d as [y|]; cbn [backtrack_national]; rewrite ?Hr;
        reflexivity.
Qed.

Lemma process_covid_json_data_figures (cfg : Config)
    (england : list day_record) (local : option (list day_record)) :
  process_covid_json_data cfg (Some england) local
  = match national_figures england with
    | None => Raised IndexError
    | Some (h, d) =>
        let! england_recent_cases := seven_day_case_calculator (Some england) in
        let! local_recent_cases := seven_day_case_calculator local in
        Normal
          (<[k_deaths := shown_figure cfg d]>
             (<[k_hospital := shown_figure cfg h]>
                (<[k_cases := shown_figure cfg england_recent_cases]> ∅)),
           <[k_cases := shown_figure cfg local_recent_cases]> ∅)
    end.
Proof.
  unfold process_covid_json_data, national_figures.
  destruct england as [|r0 rest]; [reflexivity|].
  cbn [lookup list_lookup].
  rewrite backtrack_national_figures by (cbn [length]; lia).
  cbn [drop]. rewrite drop_0.
  destruct (figures_behind _ _ rest) as [[h d]|]; reflexivity.
Qed.

(** X6.  The two national figures share one counter.  A hospital figure
    missing from the most recent record is taken from the first record
    behind it that has one.  A deaths figure missing from the most
    recent record is looked for only once the hospital figure is known:
    from the record behind the one that gave the hospital figure
    onwards. *)
Theorem national_figures_share_one_counter (cfg : Config)
    (england : list day_record) (local : option (list day_record))
    (e l : gmap string stat) :
  process_covid_json_data cfg (Some england) local = Normal (e, l) ->
  exists h d,
    national_figures england = Some (h, d)
    /\ e !! k_hospital = Some (shown_figure cfg h)
    /\ e !! k_deaths = Some (shown_figure cfg d).
Proof.
  rewrite process_covid_json_data_figures.
  destruct (national_figures england) as [[h d]|]; [|discriminate].
  destruct (seven_day_case_calculator (Some england)) as [ec|]; [|discriminate].
  destruct (seven_day_case_calculator local) as [lc|]; [|discriminate].
  cbn [obind]. intros [= <- <-]. exists h, d.
  split; [reflexivity|]. split.
  - rewrite lookup_insert_ne by discriminate. apply lookup_insert_eq.
  - apply lookup_insert_eq.
Qed.

Lemma national_figures_share_one_counter_witness :
  exists h d,
    national_figures both_null_first = Some (h, d)
    /\ (<[k_deaths := SInt 101]>
          (<[k_hospital := SInt 10]> (<[k_cases := SInt 28]> ∅))
        : gmap string stat) !! k_hospital
       = Some (shown_figure config_max4 h)
    /\ (<[k_deaths := SInt 101]>
          (<[k_hospital := SInt 10]> (<[k_cases := SInt 28]> ∅))
        : gmap string stat) !! k_deaths
       = Some (shown_figure config_max4 d).
Proof.
  apply (national_figures_share_one_counter config_max4 both_null_first
           (Some both_null_first) _ (<[k_cases := SInt 28]> ∅)).
  vm_compute. reflexivity.
Defined.

(** X7.  When the records run out before both national figures are
    found, [process_covid_json_data] leaves through the [IndexError] of
    its loop, whatever the case figures and the local records are. *)
Theorem national_figures_missing (cfg : Config)
    (england : list day_record) (local : option (list day_record)) :
  national_figures england = None ->
  process_covid_json_data cfg (Some england) local = Raised IndexError.
Proof.
  intros Hnone. rewrite process_covid_json_data_figures, Hnone. reflexivity.
Qed.

Lemma national_figures_missing_witness :
  process_covid_json_data config_max4
    (Some (replicate 8 (mkDay None (Some 1) (Some 1)))) None
  = Raised IndexError.
Proof. apply national_figures_missing. vm_compute. reflexivity. Defined.

(** ** The seven-day sum runs to its end *)

Lemma first_cases_index_skips (pre : list day_record) (r : day_record)
    (suf : list day_record) (v : Z) :
  Forall has_no_cases pre ->
  newCasesBySpecimenDate r = Some v ->
  forall k c fuel,
    (c + k = length pre)%nat -> (k <= fuel)%nat ->
    first_cases_index fuel (pre ++ r :: suf) c = Normal (length pre).
Proof.
  intros Hpre Hr. induction k as [|k IH]; intros c fuel Hc Hfuel.
  - assert (Hat : (pre ++ r :: suf) !! c = Some r).
    { replace c with (length pre + 0)%nat by lia.
      rewrite lookup_app_r by lia.
      replace (length pre + 0 - length pre)%nat with 0%nat by lia.
      reflexivity. }
    destruct fuel; cbn [first_cases_index]; rewrite Hat, Hr; f_equal; lia.
  - destruct fuel as [|fuel]; [lia|].
    destruct (lookup_lt_is_Some_2 pre c ltac:(lia)) as [x Hx].
    cbn [first_cases_index]. rewrite lookup_app_l by lia. rewrite Hx.
    assert (Hnone : newCasesBySpecimenDate x = None).
    { rewrite Forall_forall in Hpre. apply Hpre.
      eapply list_elem_of_lookup_2. exact Hx. }
    rewrite Hnone. apply IH; lia.
Qed.

Lemma first_cases_index_none (l : list day_record) :
  Forall has_no_cases l ->
  forall fuel c, first_cases_index fuel l c = Raised IndexError.
Proof.
  intros Hl. induction fuel as [|fuel IH]; intros c; cbn [first_cases_index];
    destruct (l !! c) as [x|] eqn:Hx; try reflexivity;
    (assert (Hnone : newCasesBySpecimenDate x = None)
       by (rewrite Forall_forall in Hl; apply Hl;
           eapply list_elem_of_lookup_2; exact Hx));
    rewrite Hnone; [reflexivity | apply IH].
Qed.

Lemma sum_cases_app (l : list day_record) (days1 days2 : list nat) (acc : Z) :
  sum_cases l (days1 ++ days2) acc
  = let! s := sum_cases l days1 acc in sum_cases l days2 s.
Proof.
  revert acc. induction days1 as [|d days1 IH]; intros acc;
    cbn [app sum_cases]; [reflexivity|].
  destruct (l !! d) as [r|]; [|reflexivity].
  destruct (newCasesBySpecimenDate r); [apply IH | reflexivity].
Qed.

Lemma sum_cases_run (week : list day_record) :
  forall (pre rest : list day_record) (vs : list Z) (acc : Z),
    map newCasesBySpecimenDate week = map Some vs ->
    sum_cases (pre ++ week ++ rest) (seq (length pre) (length week)) acc
    = Normal (acc + foldr Z.add 0 vs).
Proof.
  induction week as [|r week IH]; intros pre rest vs acc Hvs.
  - destruct vs; [|discriminate]. cbn. f_equal. lia.
  - destruct vs as [|v vs]; [discriminate|].
    cbn [map] in Hvs. injection Hvs as Hr Hvs.
    cbn [length seq sum_cases].
    replace ((pre ++ (r :: week) ++ rest) !! length pre) with (Some r).
    2:{ rewrite lookup_app_r by lia. rewrite Nat.sub_diag. reflexivity. }
    rewrite Hr.
    replace (pre ++ (r :: week) ++ rest) with ((pre ++ [r]) ++ week ++ rest)
      by (rewrite <- app_assoc; reflexivity).
    replace (S (length pre)) with (length (pre ++ [r]))
      by (rewrite length_app; cbn [length]; lia).
    rewrite (IH _ _ vs) by exact Hvs. cbn [foldr]. f_equal. lia.
Qed.

(** X8.  [seven_day_case_calculator] returns whenever the records hold,
    behind any number of records without a new-cases figure, seven
    records in a row that have one: its result is their sum, and the
    records before and after them do not count. *)
Theorem seven_day_sum_returns (pre week rest : list day_record)
    (vs : list Z) :
  Forall has_no_cases pre ->
  map newCasesBySpecimenDate week = map Some vs ->
  length vs = 7%nat ->
  seven_day_case_calculator (Some (pre ++ week ++ rest))
  = Normal (foldr Z.add 0 vs).
Proof.
  intros Hpre Hvs Hlen.
  assert (Hweek : length week = 7%nat).
  { rewrite <- (length_map newCasesBySpecimenDate), Hvs, length_map.
    exact Hlen. }
  destruct week as [|r week']; [discriminate|].
  destruct vs as [|v vs']; [discriminate|].
  assert (Hr : newCasesBySpecimenDate r = Some v)
    by (cbn [map] in Hvs; congruence).
  unfold seven_day_case_calculator.
  cbn [app]. rewrite (first_cases_index_skips pre r _ v Hpre Hr (length pre) 0)
    by (rewrite ?length_app; lia).
  cbn [obind]. rewrite <- Hweek.
  change (pre ++ r :: week' ++ rest) with (pre ++ (r :: week') ++ rest).
  rewrite (sum_cases_run _ _ _ (v :: vs')) by exact Hvs.
  f_equal.
Qed.

Lemma seven_day_sum_returns_witness :
  seven_day_case_calculator
    (Some ([blank_day; blank_day]
           ++ map (fun v => mkDay None None (Some v)) [1; 2; 3; 4; 5; 6; 7]
           ++ [mkDay None None (Some 100); blank_day]))
  = Normal 28.
Proof.
  apply (seven_day_sum_returns [blank_day; blank_day] _ _
           [1; 2; 3; 4; 5; 6; 7]).
  - repeat constructor.
  - reflexivity.
  - reflexivity.
Defined.

(** X9.  The seven-day sum is never a partial one.  With fewer than
    seven records from the first new-cases figure on, the function
    leaves through [IndexError]; when a record without the figure comes
    before the seventh, it leaves through the [TypeError] of adding
    [None]. *)
Theorem seven_day_sum_never_partial (pre week : list day_record)
    (vs : list Z) :
  Forall has_no_cases pre ->
  map newCasesBySpecimenDate week = map Some vs ->
  (length vs < 7)%nat ->
  seven_day_case_calculator (Some (pre ++ week)) = Raised IndexError
  /\ (forall r rest,
        week <> [] -> has_no_cases r ->
        seven_day_case_calculator (Some (pre ++ week ++ r :: rest))
        = Raised TypeError).
Proof.
  intros Hpre Hvs Hlen.
  assert (Hweek : length week = length vs).
  { rewrite <- (length_map newCasesBySpecimenDate), Hvs, length_map.
    reflexivity. }
  assert (Hseq : seq (length pre) 7
                 = seq (length pre) (length week)
                   ++ seq (length pre + length week) (7 - length week)).
  { rewrite <- seq_app. f_equal. lia. }
  destruct (7 - length week)%nat as [|more] eqn:Hmore; [lia|].
  split.
  - unfold seven_day_case_calculator.
    destruct week as [|r week'].
    + rewrite app_nil_r, first_cases_index_none by exact Hpre. reflexivity.
    + destruct vs as [|v vs']; [discriminate|].
      assert (Hr : newCasesBySpecimenDate r = Some v)
        by (cbn [map] in Hvs; congruence).
      rewrite (first_cases_index_skips pre r _ v Hpre Hr (length pre) 0)
        by (rewrite ?length_app; lia).
      cbn [obind]. rewrite Hseq, sum_cases_app.
      rewrite <- (app_nil_r (pre ++ r :: week')) at 1.
      rewrite <- app_assoc.
      rewrite (sum_cases_run _ _ _ (v :: vs')) by exact Hvs.
      cbn [obind seq sum_cases].
      rewrite lookup_ge_None_2; [reflexivity|].
      rewrite length_app. lia.
  - intros r0 rest Hne Hr0. unfold seven_day_case_calculator.
    destruct week as [|r week']; [contradiction|].
    destruct vs as [|v vs']; [discriminate|].
    assert (Hr : newCasesBySpecimenDate r = Some v)
      by (cbn [map] in Hvs; congruence).
    cbn [app].
    rewrite (first_cases_index_skips pre r _ v Hpre Hr (length pre) 0)
      by (rewrite ?length_app; lia).
    cbn [obind]. rewrite Hseq, sum_cases_app.
    change (pre ++ r :: week' ++ r0 :: rest)
      with (pre ++ (r :: week') ++ r0 :: rest).
    rewrite (sum_cases_run _ _ _ (v :: vs')) by exact Hvs.
    cbn [obind seq sum_cases].
    rewrite app_assoc, lookup_app_r by (rewrite length_app; lia).
    rewrite length_app, Nat.sub_diag. cbn [lookup list_lookup].
    unfold has_no_cases in Hr0. rewrite Hr0. reflexivity.
Qed.

Lemma seven_day_sum_never_partial_witness :
  seven_day_case_calculator
    (Some ([blank_day] ++ map (fun v => mkDay None None (Some v)) [1; 2; 3]))
  = Raised IndexError
  /\ seven_day_case_calculator
       (Some ([blank_day] ++ map (fun v => mkDay None None (Some v)) [1; 2; 3]
              ++ blank_day
                 :: map (fun v => mkDay None None (Some v)) [4; 5; 6; 7; 8]))
     = Raised TypeError.
Proof.
  destruct (seven_day_sum_never_partial [blank_day]
              (map (fun v => mkDay None None (Some v)) [1; 2; 3]) [1; 2; 3])
    as [Hshort Hgap].
  - repeat constructor.
  - reflexivity.
  - cbn [length]. lia.
  - split; [exact Hshort|]. apply Hgap; [discriminate | reflexivity].
Defined.

(** ** The monad's equations *)

Lemma bind_ret {A B} (a : A) (k : A -> M B) (st : State) :
  bind (ret a) k st = k a st.
Proof. reflexivity. Qed.

Lemma bind_gets {A B} (f : State -> A) (k : A -> M B) (st : State) :
  bind (gets f) k st = k (f st) st.
Proof. reflexivity. Qed.

Lemma bind_modify {B} (g : State -> State) (k : unit -> M B) (st : State) :
  bind (modify g) k st = k tt (g st).
Proof. reflexivity. Qed.

Lemma bind_lift_normal {A B} (a : A) (k : A -> M B) (st : State) :
  bind (lift (Normal a)) k st = k a st.
Proof. reflexivity. Qed.

Lemma bind_lift_raised {A B} (e : exn) (k : A -> M B) (st : State) :
  bind (lift (Raised e)) k st = (Raised e, st).
Proof. reflexivity. Qed.

Lemma bind_raise {A B} (e : exn) (k : A -> M B) (st : State) :
  bind (raise e) k st = (Raised e, st).
Proof. reflexivity. Qed.

Lemma bind_assoc {A B C} (c : M A) (k : A -> M B) (k' : B -> M C)
    (st : State) :
  bind (bind c k) k' st = bind c (fun a => bind (k a) k') st.
Proof. unfold bind. destruct (c st) as [[a|e] st1]; reflexivity. Qed.

(** ** What the news functions store and show *)

Lemma set_covid_news_twice (v v' : list article) (st : State) :
  set_covid_news v (set_covid_news v' st) = set_covid_news v st.
Proof. reflexivity. Qed.

Lemma set_covid_news_same (st : State) :
  set_covid_news (covid_news st) st = st.
Proof. destruct st; reflexivity. Qed.

Lemma stored_article_format (t c : jval) : stored_format (stored_article t c).
Proof.
  intros k Ht Hc. unfold stored_article.
  rewrite lookup_insert_ne by congruence.
  rewrite lookup_insert_ne by congruence.
  apply lookup_empty.
Qed.

Lemma provider_format_not_stored (cfg : Config) (a : article)
    (stored : list article) :
  provider_format cfg a -> Forall stored_format stored -> a ∉ stored.
Proof.
  intros (_ & _ & k & Ht & Hc & Hk) Hstored Hin.
  rewrite Forall_forall in Hstored.
  rewrite (Hstored a Hin k Ht Hc) in Hk. destruct Hk as [? [=]].
Qed.

(** X10.  From a payload in the provider's format, [news_processor]
    appends to [covid_news], in the payload's order, the title and the
    configured content field of every article whose title has not been
    removed, and nothing else: it stores no removed title, and it drops
    or reorders nothing of what was stored before. *)
Theorem news_processor_appends_kept (cfg : Config) (articles : list article)
    (st : State) :
  Forall stored_format (covid_news st) ->
  Forall (provider_format cfg) articles ->
  news_processor cfg (Some (Present articles)) st
  = (Normal tt,
     set_covid_news
       (covid_news st
        ++ kept_articles cfg (removed_article_titles st) articles) st).
Proof.
  unfold news_processor. rewrite bind_lift_normal.
  revert st. induction articles as [|a rest IH]; intros st Hstored Hraw.
  - cbn [for_each kept_articles]. rewrite app_nil_r, set_covid_news_same.
    reflexivity.
  - apply Forall_cons in Hraw as [Ha Hrest].
    cbn [for_each kept_articles]. unfold bind at 1. rewrite bind_gets.
    rewrite bool_decide_eq_false_2
      by (eapply provider_format_not_stored; eassumption).
    destruct Ha as ((t & Ht) & (c & Hc) & _).
    unfold dict_get at 1. rewrite Ht, bind_lift_normal, bind_gets.
    destruct (title_removed t (removed_article_titles st)).
    + unfold ret. rewrite Hc. apply IH; assumption.
    + unfold dict_get. rewrite Hc, bind_lift_normal. unfold modify.
      rewrite IH.
      * cbn [covid_news removed_article_titles set_covid_news].
        rewrite set_covid_news_twice, <- app_assoc. reflexivity.
      * cbn [covid_news set_covid_news]. apply Forall_app. split; [exact Hstored|].
        repeat constructor. apply stored_article_format.
      * exact Hrest.
Qed.

Lemma news_processor_appends_kept_witness :
  covid_news
    (snd (news_processor config_max4
            (Some (Present [provider_article; provider_article]))
            (set_removed_article_titles [RTitle "B"] initial_state)))
  = [stored_article (JStr "A") (JStr "d"); stored_article (JStr "A") (JStr "d")].
Proof.
  rewrite news_processor_appends_kept.
  - vm_compute. reflexivity.
  - constructor.
  - assert (Hp : provider_format config_max4 provider_article).
    { split; [|split].
      - exists (JStr "A"). vm_compute. reflexivity.
      - exists (JStr "d"). vm_compute. reflexivity.
      - exists "url". repeat split; try discriminate.
        exists (JStr "u"). vm_compute. reflexivity. }
    repeat (apply Forall_cons_2; [exact Hp|]). apply Forall_nil_2.
Defined.

Lemma unremoved_of_visible (removed : list removed_arg) (l : list article) :
  Forall (fun a : article => is_Some (a !! "title")) l ->
  unremoved_of removed l = Normal (visible_articles removed l).
Proof.
  induction l as [|a l IH]; intros Hl; [reflexivity|].
  apply Forall_cons in Hl as [[t Ht] Hl].
  cbn [unremoved_of]. unfold dict_get. rewrite Ht. cbn [obind].
  rewrite IH by exact Hl. cbn [obind].
  unfold visible_articles. cbn [List.filter]. rewrite Ht.
  destruct (title_removed t removed); reflexivity.
Qed.

Lemma limit_articles_take (cfg : Config) (visible : list article) :
  forall shown,
    limit_articles cfg visible shown
    = shown ++ take (Z.to_nat (num_displayed_articles cfg) - length shown)
                 visible.
Proof.
  unfold limit_articles.
  induction visible as [|a visible IH]; intros shown; cbn [fold_left].
  - rewrite take_nil, app_nil_r. reflexivity.
  - rewrite IH. destruct (_ <? _) eqn:Hlt.
    + apply Z.ltb_lt in Hlt. rewrite length_app. cbn [length].
      destruct (Z.to_nat (num_displayed_articles cfg) - length shown)%nat
        as [|n] eqn:Hn; [lia|].
      cbn [take]. rewrite <- app_assoc. cbn [app].
      replace (Z.to_nat (num_displayed_articles cfg) - (length shown + 1))%nat
        with n by lia.
      reflexivity.
    + apply Z.ltb_ge in Hlt.
      replace (Z.to_nat (num_displayed_articles cfg) - length shown)%nat
        with 0%nat by lia.
      rewrite !take_0, !app_nil_r. reflexivity.
Qed.

Lemma set_removed_article_titles_same (st : State) :
  set_removed_article_titles (removed_article_titles st) st = st.
Proof. destruct st; reflexivity. Qed.

Lemma remove_and_limit_shown (cfg : Config) (l : list article)
    (r : removed_arg) (st : State) :
  l <> [] ->
  Forall (fun a : article => is_Some (a !! "title")) l ->
  remove_and_limit_news_articles cfg l r st
  = (Normal
       (ReturnedPair l
          (shown_articles cfg
             (with_removed r (removed_article_titles st)) l)),
     set_removed_article_titles
       (with_removed r (removed_article_titles st)) st).
Proof.
  intros Hne Hl. unfold remove_and_limit_news_articles, with_removed.
  destruct l as [|a0 l0] eqn:El; [contradiction|]. rewrite <- El in *.
  replace (length l =? 0)%nat with false by (rewrite El; reflexivity).
  assert (Hstep : forall st1 : State,
             bind (gets removed_article_titles)
               (fun removed =>
                  bind (lift (unremoved_of removed l))
                    (fun unremoved_articles =>
                       ret (ReturnedPair l
                              (limit_articles cfg unremoved_articles
                                 (if (length unremoved_articles =? 0)%nat
                                  then [out_of_articles_message cfg]
                                  else []))))) st1
             = (Normal
                  (ReturnedPair l
                     (shown_articles cfg (removed_article_titles st1) l)),
                st1)).
  { intros st1. rewrite bind_gets, unremoved_of_visible by exact Hl.
    rewrite bind_lift_normal. unfold ret, shown_articles.
    rewrite limit_articles_take.
    destruct (visible_articles (removed_article_titles st1) l) as [|v vs].
    - rewrite take_nil. reflexivity.
    - cbn [length Nat.eqb app]. rewrite Nat.sub_0_r. reflexivity. }
  destruct (0 <? removed_len r)%nat.
  - rewrite bind_modify, Hstep. reflexivity.
  - rewrite bind_ret, Hstep, set_removed_article_titles_same. reflexivity.
Qed.

(** X11.  For a non-empty list of titled articles,
    [remove_and_limit_news_articles] records the removed title (unless
    it is empty) and returns the list it was given together with the
    page's articles: the first [num_displayed_articles] of those whose
    title has not been removed, in the list's order, or the placeholder
    alone when no title is left.  No removed title is shown, and the
    stored list itself is not shortened. *)
Theorem remove_and_limit_shows_first_visible (cfg : Config)
    (l : list article) (r : removed_arg) (st : State) :
  l <> [] ->
  Forall (fun a : article => is_Some (a !! "title")) l ->
  let removed := with_removed r (removed_article_titles st) in
  remove_and_limit_news_articles cfg l r st
  = (Normal (ReturnedPair l (shown_articles cfg removed l)),
     set_removed_article_titles removed st)
  /\ (visible_articles removed l <> [] ->
      shown_articles cfg removed l
      = take (Z.to_nat (num_displayed_articles cfg))
          (visible_articles removed l))
  /\ (visible_articles removed l = [] ->
      shown_articles cfg removed l = [out_of_articles_message cfg]).
Proof.
  intros Hne Hl removed. split; [apply remove_and_limit_shown; assumption|].
  unfold shown_articles.
  destruct (visible_articles removed l); split; congruence.
Qed.

Lemma remove_and_limit_shows_first_visible_witness :
  fst (remove_and_limit_news_articles
         (mkConfig "description" 1 "none" 60 "no") three_articles (RTitle "A")
         initial_state)
  = Normal (ReturnedPair three_articles [stored_article (JStr "B") (JStr "b")]).
Proof.
  destruct (remove_and_limit_shows_first_visible
              (mkConfig "description" 1 "none" 60 "no") three_articles
              (RTitle "A") initial_state) as (Hrun & _ & _).
  - discriminate.
  - repeat constructor; eexists; vm_compute; reflexivity.
  - rewrite Hrun. vm_compute. reflexivity.
Defined.

(** X12.  A request that removes an article while [covid_news] is empty
    does not render: [remove_and_limit_news_articles] hands back the bare
    empty list, the unpacking of which into two names raises
    [ValueError], after the poll has done nothing but copy the handler's
    figures. *)
Theorem notif_without_news_raises (cfg : Config) (dt : time_arg) (w : World)
    (req : Request) (t : string) (st : State) :
  covid_news st = [] ->
  arg_notif req = Some t ->
  render_webpage cfg dt w req st
  = (Raised ValueError,
     set_main_covid_data (england_data st) (local_data st) st).
Proof.
  intros Hnews Hnotif. unfold render_webpage, return_covid_data,
    return_covid_news.
  rewrite bind_gets. cbn [fst snd]. rewrite bind_modify, bind_gets, bind_gets.
  cbn [covid_news displayed_covid_articles set_main_covid_data].
  rewrite Hnews. cbn [length Nat.ltb Nat.leb andb].
  rewrite andb_false_r, bind_ret.
  rewrite Hnotif. cbn [is_not_None].
  unfold bind at 1. unfold remove_and_update_news_article.
  rewrite Hnotif, bind_gets.
  cbn [covid_news set_main_covid_data]. rewrite Hnews.
  reflexivity.
Qed.

Lemma notif_without_news_raises_witness :
  render_webpage config_max4 (StructTime 10 0) ten_o_clock (notif_request "A")
    loaded_state
  = (Raised ValueError,
     set_main_covid_data (england_data loaded_state) (local_data loaded_state)
       loaded_state).
Proof.
  apply (notif_without_news_raises _ _ _ _ "A"); reflexivity.
Defined.

(** ** Entering and cancelling scheduler events *)

Lemma insert_event_latest (e : Event) (q : list Event) :
  Forall (fun x => event_lt e x = false) q -> insert_event e q = q ++ [e].
Proof.
  induction q as [|x q IH]; intros Hq; [reflexivity|].
  apply Forall_cons in Hq as [Hx Hq].
  cbn [insert_event app]. rewrite Hx, IH by exact Hq. reflexivity.
Qed.

Lemma insert_event_before_last (e later : Event) (q : list Event) :
  event_lt e later = true ->
  insert_event e (q ++ [later]) = insert_event e q ++ [later].
Proof.
  intros Hlt. induction q as [|x q IH]; cbn [insert_event app].
  - rewrite Hlt. reflexivity.
  - destruct (event_lt e x); [reflexivity|]. rewrite IH. reflexivity.
Qed.

Lemma insert_event_elem_new (e : Event) (q : list Event) :
  e ∈ insert_event e q.
Proof.
  induction q as [|x q IH]; cbn [insert_event]; [left|].
  destruct (event_lt e x); [left | right; exact IH].
Qed.

Lemma event_lt_irrefl (e : Event) : event_lt e e = false.
Proof.
  unfold event_lt. rewrite !Z.ltb_irrefl, Nat.ltb_irrefl, !Z.eqb_refl.
  reflexivity.
Qed.

Lemma set_scheduler_of_twice (src : source) (s s' : scheduler) (st : State) :
  set_scheduler_of src s (set_scheduler_of src s' st)
  = set_scheduler_of src s st.
Proof. destruct src; reflexivity. Qed.

Lemma recorded_fresh (r : queue_info) (info : list queue_info) :
  (forall u, u ∈ info -> event_name u <> event_name r) ->
  recorded r info = info ++ [r].
Proof.
  intros Hfresh. unfold recorded.
  destruct (existsb _ info) eqn:Hex; [|reflexivity].
  apply existsb_exists in Hex as (u & Hin & Hu).
  apply bool_decide_eq_true in Hu. subst u.
  exfalso. apply (Hfresh r); [apply list_elem_of_In, Hin | reflexivity].
Qed.

Lemma cancel_named_past_end (name : string) (fuel i : nat)
    (l : list queue_info) (s : scheduler) :
  l !! i = None -> cancel_named name fuel i l s = (l, s).
Proof.
  intros Hnone. destruct fuel; cbn [cancel_named]; [reflexivity|].
  rewrite Hnone. reflexivity.
Qed.

Lemma cancel_named_absent (name : string) (l : list queue_info)
    (s : scheduler) :
  (forall u, u ∈ l -> event_name u <> name) ->
  forall fuel i, cancel_named name fuel i l s = (l, s).
Proof.
  intros Habs. induction fuel as [|fuel IH]; intros i; cbn [cancel_named];
    [reflexivity|].
  destruct (l !! i) as [u|] eqn:Hu; [|reflexivity].
  rewrite bool_decide_eq_false_2; [apply IH|].
  apply Habs. eapply list_elem_of_lookup_2. exact Hu.
Qed.

(** The second loop of the removal functions on a list whose only
    record of the name is the last one. *)
Lemma cancel_named_last (name : string) (info : list queue_info)
    (r : queue_info) (s : scheduler) :
  (forall u, u ∈ info -> event_name u <> name) ->
  event_name r = name ->
  cancel_named name (length (info ++ [r])) 0 (info ++ [r]) s
  = (info, cancel_or_keep (event_id r) s).
Proof.
  intros Hfresh Hr.
  assert (Hgen : forall k i fuel,
             (i + k = length info)%nat -> (k < fuel)%nat ->
             cancel_named name fuel i (info ++ [r]) s
             = (info, cancel_or_keep (event_id r) s)).
  { induction k as [|k IH]; intros i fuel Hi Hfuel;
      (destruct fuel as [|fuel]; [lia|]); cbn [cancel_named].
    - replace i with (length info) by lia.
      rewrite (list_lookup_middle info [] r (length info) eq_refl).
      rewrite bool_decide_eq_true_2 by exact Hr.
      rewrite list_remove_app by (intros Hin; apply (Hfresh r Hin); exact Hr).
      rewrite app_nil_r.
      apply cancel_named_past_end. apply lookup_ge_None. lia.
    - destruct (lookup_lt_is_Some_2 info i ltac:(lia)) as [u Hu].
      rewrite lookup_app_l by lia. rewrite Hu.
      rewrite bool_decide_eq_false_2
        by (apply Hfresh; eapply list_elem_of_lookup_2; exact Hu).
      apply IH; lia. }
  apply (Hgen (length info)); [lia|]. rewrite length_app. cbn [length]. lia.
Qed.

(** X13.  Scheduling and cancelling undo each other.  When an update
    with an unused name is scheduled while nothing is due, and its event
    sorts behind every queued one, then cancelling it at once leaves the
    module as it was: the same queue, the same records, and only the
    scheduler's sequence counter one higher. *)
Theorem schedule_then_cancel_restores (cfg : Config) (w : World)
    (src : source) (delay : Z) (name : string) (rep : bool) (st : State) :
  nothing_due w src st -> 0 < delay ->
  fresh_name src name st ->
  enters_last w src delay st ->
  sequenced (scheduler_of src st) ->
  bind (schedule_on cfg w src delay name rep)
    (fun _ => remove_queue_update src name false) st
  = (Normal tt,
     set_scheduler_of src
       (mkScheduler (sq_queue (scheduler_of src st))
          (S (sq_counter (scheduler_of src st)))) st).
Proof.
  intros Hdue Hd Hfresh Hlast Hseq. unfold bind.
  rewrite schedule_on_nothing_due by assumption.
  rewrite remove_queue_update_pure. unfold scheduled_on, removed_queue.
  rewrite queue_info_of_put, scheduler_of_put. cbn zeta.
  unfold sched_enter. fold (entered_event w src delay (scheduler_of src st)).
  set (e := entered_event w src delay (scheduler_of src st)) in *.
  rewrite (insert_event_latest e _ Hlast). cbn [sq_queue].
  rewrite last_snoc. cbn [default].
  rewrite recorded_fresh by exact Hfresh.
  rewrite cancel_named_last by (try exact Hfresh; reflexivity).
  cbn [fst snd event_id]. unfold cancel_or_keep, sched_cancel. cbn [sq_queue].
  rewrite list_remove_app.
  - rewrite put_put, app_nil_r. cbn [sq_counter].
    rewrite set_scheduler_as_put. reflexivity.
  - intros Hin. unfold sequenced in Hseq. rewrite Forall_forall in Hseq.
    specialize (Hseq e Hin). subst e. cbn [entered_event ev_sequence] in Hseq.
    lia.
Qed.

Lemma schedule_then_cancel_restores_witness :
  bind (schedule_on config_max4 ten_o_clock Covid 3600 "U" false)
    (fun _ => remove_queue_update Covid "U" false) loaded_state
  = (Normal tt, set_covid_scheduler (mkScheduler [] 1) loaded_state).
Proof.
  apply (schedule_then_cancel_restores config_max4 ten_o_clock Covid 3600
           "U" false loaded_state).
  - intros e He. inversion He.
  - lia.
  - intros u Hu. inversion Hu.
  - apply Forall_nil_2.
  - apply Forall_nil_2.
Defined.

(** X14.  The record of a new update names the last event of the queue,
    which is the new event only when nothing later is queued.  When an
    event of another update lies later, the new update's record names
    that one: cancelling the new update then takes the other update's
    event out of the queue and leaves the new event to fire. *)
Theorem record_names_last_queued_event (cfg : Config) (w : World)
    (src : source) (delay : Z) (name : string) (rep : bool) (st : State)
    (earlier : list Event) (later : Event) :
  nothing_due w src st -> 0 < delay ->
  fresh_name src name st ->
  sq_queue (scheduler_of src st) = earlier ++ [later] ->
  later ∉ earlier ->
  event_lt (entered_event w src delay (scheduler_of src st)) later = true ->
  let entered := entered_event w src delay (scheduler_of src st) in
  let st1 := snd (schedule_on cfg w src delay name rep st) in
  let st2 := snd (remove_queue_update src name false st1) in
  fst (schedule_on cfg w src delay name rep st) = Normal tt
  /\ queue_info_of src st1
     = queue_info_of src st ++ [mkQueueInfo later name rep]
  /\ sq_queue (scheduler_of src st2) = insert_event entered earlier
  /\ entered ∈ sq_queue (scheduler_of src st2)
  /\ (later ∉ sq_queue (scheduler_of src st2))
  /\ queue_info_of src st2 = queue_info_of src st.
Proof.
  intros Hdue Hd Hfresh Hq Hnin Hlt entered st1 st2.
  assert (Hne : later <> entered).
  { intros ->. subst entered. rewrite event_lt_irrefl in Hlt. discriminate. }
  assert (Hst1 : schedule_on cfg w src delay name rep st
                 = (Normal tt,
                    put src
                      (queue_info_of src st ++ [mkQueueInfo later name rep])
                      (mkScheduler (insert_event entered earlier ++ [later])
                         (S (sq_counter (scheduler_of src st)))) st)).
  { rewrite schedule_on_nothing_due by assumption.
    unfold scheduled_on, sched_enter.
    fold (entered_event w src delay (scheduler_of src st)). fold entered.
    rewrite Hq, (insert_event_before_last _ _ _ Hlt). cbn [sq_queue].
    rewrite last_snoc. cbn [default].
    rewrite recorded_fresh by exact Hfresh. reflexivity. }
  assert (Hst2 : st2
                 = put src (queue_info_of src st)
                     (mkScheduler (insert_event entered earlier)
                        (S (sq_counter (scheduler_of src st)))) st).
  { subst st2 st1. rewrite Hst1. cbn [snd].
    rewrite remove_queue_update_pure. unfold removed_queue. cbn [snd].
    rewrite queue_info_of_put, scheduler_of_put. cbn zeta.
    rewrite cancel_named_last by (try exact Hfresh; reflexivity).
    cbn [fst snd event_id]. unfold cancel_or_keep, sched_cancel.
    cbn [sq_queue sq_counter]. rewrite list_remove_app.
    - rewrite app_nil_r. apply put_put.
    - intros Hin. apply insert_event_elem in Hin as [Heq|Hin];
        [exact (Hne Heq) | exact (Hnin Hin)]. }
  split; [rewrite Hst1; reflexivity|].
  split; [subst st1; rewrite Hst1; cbn [snd]; apply queue_info_of_put|].
  rewrite Hst2, scheduler_of_put, queue_info_of_put. cbn [sq_queue].
  split; [reflexivity|]. split; [apply insert_event_elem_new|].
  split; [|reflexivity].
  intros Hin. apply insert_event_elem in Hin as [Heq|Hin];
    [exact (Hne Heq) | exact (Hnin Hin)].
Qed.

Lemma record_names_last_queued_event_witness :
  covid_queue_info
    (snd (schedule_on config_max4 ten_o_clock Covid 3600 "new" false
            pending_state))
  = [ mkQueueInfo tomorrow_event "old" false;
      mkQueueInfo tomorrow_event "new" false ]
  /\ sq_queue
       (covid_scheduler
          (snd (remove_queue_update Covid "new" false
                  (snd (schedule_on config_max4 ten_o_clock Covid 3600 "new"
                          false pending_state)))))
     = [mkEvent 39600 1 1 covid_API_request_action].
Proof.
  destruct (record_names_last_queued_event config_max4 ten_o_clock Covid 3600
              "new" false pending_state [] tomorrow_event)
    as (_ & Hinfo & Hqueue & _).
  - intros e He. apply list_elem_of_singleton in He. subst e.
    vm_compute. reflexivity.
  - lia.
  - intros u Hu. apply list_elem_of_singleton in Hu. subst u. discriminate.
  - reflexivity.
  - intros Hin. inversion Hin.
  - vm_compute. reflexivity.
  - split; [exact Hinfo | exact Hqueue].
Defined.

(** X15.  An update whose delay has already run out when it is entered
    into an empty queue is fired by the [run] that follows; the queue is
    empty again when the function reads its last element, so the call
    leaves through [IndexError] after the refresh, without a record of
    the update. *)
Theorem immediate_update_raises_IndexError (cfg : Config) (w : World)
    (src : source) (delay : Z) (name : string) (rep : bool) (st : State) :
  sq_queue (scheduler_of src st) = [] -> delay <= 0 ->
  let fired :=
    run_action cfg w (request_action src)
      (set_scheduler_of src
         (mkScheduler [] (S (sq_counter (scheduler_of src st)))) st) in
  fst fired = Normal tt ->
  schedule_on cfg w src delay name rep st = (Raised IndexError, snd fired).
Proof.
  intros Hq Hd fired Hfired. unfold schedule_on.
  rewrite bind_modify. unfold bind at 1. unfold scheduler_run.
  rewrite scheduler_of_set. unfold sched_enter. rewrite Hq.
  cbn [insert_event sq_queue length scheduler_run_from].
  rewrite scheduler_of_set.
  cbn [sq_queue sq_counter ev_time ev_action].
  replace (time_time w <? time_time w + delay) with false
    by (symmetry; apply Z.ltb_ge; lia).
  rewrite set_scheduler_of_twice. fold fired.
  pose proof (run_action_keeps_scheduler cfg w (request_action src) src
                (set_scheduler_of src
                   (mkScheduler [] (S (sq_counter (scheduler_of src st)))) st))
    as Hkeep.
  fold fired in Hkeep. rewrite scheduler_of_set in Hkeep.
  destruct fired as [[[]|x] st2]; cbn [fst snd] in *; [|discriminate].
  rewrite bind_gets, Hkeep. reflexivity.
Qed.

Lemma immediate_update_raises_IndexError_witness :
  fst (schedule_on config_max4 answering_world Covid 0 "U" false initial_state)
  = Raised IndexError.
Proof.
  rewrite (immediate_update_raises_IndexError config_max4 answering_world
             Covid 0 "U" false initial_state).
  - reflexivity.
  - reflexivity.
  - lia.
  - vm_compute. reflexivity.
Defined.



Lemma drop_named_past_end (name : string) (fuel i : nat)
    (l : list queue_info) :
  l !! i = None -> drop_named name fuel i l = l.
Proof.
  intros Hnone. destruct fuel; cbn [drop_named]; [reflexivity|].
  rewrite Hnone. reflexivity.
Qed.

Lemma drop_named_loop (name : string) (fuel : nat) :
  forall pre suf : list queue_info,
    Forall (fun u => named name u = false) pre ->
    no_two_adjacent (named name) suf ->
    (length suf <= fuel)%nat ->
    drop_named name fuel (length pre) (pre ++ suf)
    = pre ++ List.filter (other_name name) suf.
Proof.
  induction fuel as [|fuel IH]; intros pre suf Hpre Hadj Hlen.
  - destruct suf; [reflexivity | cbn [length] in Hlen; lia].
  - destruct suf as [|u suf'].
    { apply drop_named_past_end. apply lookup_ge_None.
      rewrite app_nil_r. lia. }
    cbn [drop_named].
    rewrite (list_lookup_middle pre suf' u (length pre) eq_refl).
    cbn [List.filter]. unfold other_name at 1. fold (named name u).
    destruct (named name u) eqn:Hu; cbn [negb].
    + rewrite list_remove_app.
      2:{ intros Hin. rewrite Forall_forall in Hpre.
          specialize (Hpre u Hin). congruence. }
      destruct suf' as [|v suf''].
      * cbn [List.filter]. rewrite !app_nil_r. apply drop_named_past_end.
        apply lookup_ge_None. lia.
      * destruct Hadj as [Huv Hadj']. specialize (Huv Hu).
        replace (pre ++ v :: suf'') with ((pre ++ [v]) ++ suf'')
          by (rewrite <- app_assoc; reflexivity).
        replace (S (length pre)) with (length (pre ++ [v]))
          by (rewrite length_app; cbn [length]; lia).
        rewrite IH.
        -- cbn [List.filter]. unfold other_name at 2. fold (named name v).
           rewrite Huv. cbn [negb]. rewrite <- app_assoc. reflexivity.
        -- apply Forall_app. split; [exact Hpre|].
           apply Forall_cons. split; [exact Huv | apply Forall_nil; exact I].
        -- destruct suf''; [exact I|]. destruct Hadj' as [_ H]. exact H.
        -- cbn [length] in Hlen. lia.
    + replace (pre ++ u :: suf') with ((pre ++ [u]) ++ suf')
        by (rewrite <- app_assoc; reflexivity).
      replace (S (length pre)) with (length (pre ++ [u]))
        by (rewrite length_app; cbn [length]; lia).
      rewrite IH.
      * rewrite <- app_assoc. reflexivity.
      * apply Forall_app. split; [exact Hpre|].
        apply Forall_cons. split; [exact Hu | apply Forall_nil; exact I].
      * destruct suf' as [|v suf'']; [exact I|]. destruct Hadj as [_ H].
        exact H.
      * cbn [length] in Hlen. lia.
Qed.

(** X17.  With [expired = True] the removal functions delete records
    of the name in their first loop, without cancelling; the loop that
    cancels only sees what the first one left.  When no two records of
    the name are adjacent, every record of the name is deleted and the
    scheduler queue, with whatever events of the update it still holds,
    is left as it was.  When the list is two records of the name side
    by side, as after scheduling the update twice, the first loop steps
    over the second record, and the second loop deletes it and cancels
    its event. *)
Theorem retiring_leaves_the_queue (src : source) (name : string) (st : State) :
  (no_two_adjacent (named name) (queue_info_of src st) ->
   remove_queue_update src name true st
   = (Normal tt,
      set_queue_info_of src
        (List.filter (other_name name) (queue_info_of src st)) st)
   /\ scheduler_of src (snd (remove_queue_update src name true st))
      = scheduler_of src st)
  /\ (forall first second,
        queue_info_of src st = [first; second] ->
        event_name first = name -> event_name second = name ->
        remove_queue_update src name true st
        = (Normal tt,
           put src []
             (cancel_or_keep (event_id second) (scheduler_of src st)) st)).
Proof.
  split.
  - intros Hadj.
    assert (Hrun : remove_queue_update src name true st
                   = (Normal tt,
                      set_queue_info_of src
                        (List.filter (other_name name) (queue_info_of src st))
                        st)).
    { rewrite remove_queue_update_pure. unfold removed_queue.
      rewrite (drop_named_loop name _ [] (queue_info_of src st))
        by (try apply Forall_nil_2; try exact Hadj; lia).
      cbn [app]. rewrite cancel_named_absent.
      - cbn [fst snd]. rewrite set_queue_info_as_put. reflexivity.
      - intros u Hu. apply list_elem_of_In, filter_In in Hu as [_ Hu].
        unfold other_name in Hu. apply negb_true_iff in Hu.
        apply bool_decide_eq_false in Hu. exact Hu. }
    split; [exact Hrun|]. rewrite Hrun. apply scheduler_of_set_queue_info.
  - intros first second Hinfo Hfirst Hsecond.
    rewrite remove_queue_update_pure. unfold removed_queue. rewrite Hinfo.
    cbn [length drop_named lookup list_lookup].
    rewrite (bool_decide_eq_true_2 _ Hfirst).
    cbn [list_remove]. rewrite decide_True by reflexivity.
    cbn [lookup list_lookup length cancel_named].
    rewrite (bool_decide_eq_true_2 _ Hsecond).
    cbn [list_remove]. rewrite decide_True by reflexivity.
    cbn [lookup list_lookup fst snd]. reflexivity.
Qed.

Lemma retiring_leaves_the_queue_witness :
  remove_queue_update Covid "old" true pending_state
  = (Normal tt, set_covid_queue_info [] pending_state).
Proof.
  apply (proj1 (retiring_leaves_the_queue Covid "old" pending_state) I).
Defined.

(** ** What a poll leaves in place *)

Lemma bind_normal_inv {A B} (c : M A) (k : A -> M B) (st st' : State) (b : B) :
  bind c k st = (Normal b, st') ->
  exists a st1, c st = (Normal a, st1) /\ k a st1 = (Normal b, st').
Proof.
  unfold bind. destruct (c st) as [[a|e] st1]; [eauto | discriminate].
Qed.

Section Frame.

Context (R : State -> State -> Prop).
Hypothesis R_refl : forall st, R st st.
Hypothesis R_trans : forall a b c, R a b -> R b c -> R a c.
Hypothesis R_news :
  forall t c st,
    R st (set_covid_news (covid_news st ++ [stored_article t c]) st).
Hypothesis R_removed :
  forall r st,
    R st (set_removed_article_titles (removed_article_titles st ++ [r]) st).
Hypothesis R_scheduler : forall src s st, R st (set_scheduler_of src s st).
Hypothesis R_queue_info : forall src l st, R st (set_queue_info_of src l st).
Hypothesis R_england : forall v st, R st (set_england_data v st).
Hypothesis R_local : forall v st, R st (set_local_data v st).
Hypothesis R_registry : forall v st, R st (set_scheduled_updates v st).
Hypothesis R_displayed :
  forall v st, R st (set_displayed_covid_articles v st).
Hypothesis R_main : forall e l st, R st (set_main_covid_data e l st).

Lemma preserves_ret {A} (a : A) : preserves R (ret a).
Proof. intros st. apply R_refl. Qed.

Lemma preserves_raise {A} (e : exn) : preserves R (raise (A := A) e).
Proof. intros st. apply R_refl. Qed.

Lemma preserves_lift {A} (o : outcome A) : preserves R (lift o).
Proof. intros st. apply R_refl. Qed.

Lemma preserves_gets {A} (f : State -> A) : preserves R (gets f).
Proof. intros st. apply R_refl. Qed.

Lemma preserves_modify (g : State -> State) :
  (forall st, R st (g st)) -> preserves R (modify g).
Proof. intros Hg st. apply Hg. Qed.

Lemma preserves_bind {A B} (c : M A) (k : A -> M B) :
  preserves R c -> (forall a, preserves R (k a)) -> preserves R (bind c k).
Proof.
  intros Hc Hk st. unfold bind. specialize (Hc st).
  destruct (c st) as [[a|e] st1]; cbn [snd] in Hc; [|exact Hc].
  eapply R_trans; [exact Hc | apply Hk].
Qed.

Lemma preserves_for_in_from {A} (items : State -> list A)
    (body : A -> M unit) :
  (forall x, preserves R (body x)) ->
  forall fuel i, preserves R (for_in_from items body fuel i).
Proof.
  intros Hbody. induction fuel as [|fuel IH]; intros i st;
    cbn [for_in_from]; [apply R_refl|].
  destruct (items st !! i) as [x|]; [|apply R_refl].
  pose proof (Hbody x st) as Hx.
  destruct (body x st) as [[?|e] st1]; cbn [snd] in Hx; [|exact Hx].
  eapply R_trans; [exact Hx | apply IH].
Qed.

Lemma preserves_for_in {A} (items : State -> list A) (body : A -> M unit) :
  (forall x, preserves R (body x)) -> preserves R (for_in items body).
Proof. intros Hbody st. apply preserves_for_in_from. exact Hbody. Qed.

Lemma preserves_for_each {A} (l : list A) (body : A -> M unit) :
  (forall x, preserves R (body x)) -> preserves R (for_each l body).
Proof.
  intros Hbody. induction l as [|x l IH]; cbn [for_each].
  - apply preserves_ret.
  - apply preserves_bind; [apply Hbody | intros _; exact IH].
Qed.

Ltac frame_with known :=
  repeat first
    [ known
    | apply preserves_ret
    | apply preserves_raise
    | apply preserves_lift
    | apply preserves_gets
    | apply preserves_bind; [|intros ?]
    | apply preserves_for_each; intros ?
    | apply preserves_for_in; intros ?
    | apply preserves_modify; intros ?;
      first [ apply R_news | apply R_removed | apply R_scheduler
            | apply R_queue_info | apply R_england | apply R_local
            | apply R_registry | apply R_displayed | apply R_main ]
    | match goal with
      | |- preserves _ (if ?b then _ else _) => destruct b
      | |- preserves _ (match ?x with _ => _ end) => destruct x
      end ].

Lemma covid_API_request_preserves (cfg : Config) (w : World) :
  preserves R (covid_API_request cfg w).
Proof. unfold covid_API_request, set_covid_data. frame_with fail. Qed.

Lemma news_processor_preserves (cfg : Config)
    (j : option (jfield (list article))) :
  preserves R (news_processor cfg j).
Proof. unfold news_processor. frame_with fail. Qed.

Lemma run_action_preserves (cfg : Config) (w : World) (a : action) :
  preserves R (run_action cfg w a).
Proof.
  destruct a; cbn [run_action].
  - apply covid_API_request_preserves.
  - unfold news_API_request.
    frame_with ltac:(apply news_processor_preserves).
Qed.

Lemma scheduler_run_preserves (cfg : Config) (w : World) (src : source) :
  preserves R (scheduler_run cfg w src).
Proof.
  intros st0. unfold scheduler_run.
  generalize (length (sq_queue (scheduler_of src st0))) as fuel.
  intros fuel. revert st0.
  induction fuel as [|fuel IH]; intros st; cbn [scheduler_run_from];
    [apply R_refl|].
  destruct (sq_queue (scheduler_of src st)) as [|e q]; [apply R_refl|].
  destruct (time_time w <? ev_time e); [apply R_refl|].
  set (st1 := set_scheduler_of src _ st).
  assert (H1 : R st st1) by apply R_scheduler.
  pose proof (run_action_preserves cfg w (ev_action e) st1) as H2.
  destruct (run_action cfg w (ev_action e) st1) as [[?|x] st2];
    cbn [snd] in H2.
  - eapply R_trans; [exact H1|]. eapply R_trans; [exact H2 | apply IH].
  - eapply R_trans; [exact H1 | exact H2].
Qed.

Lemma schedule_on_preserves (cfg : Config) (w : World) (src : source)
    (delay : Z) (name : string) (rep : bool) :
  preserves R (schedule_on cfg w src delay name rep).
Proof.
  unfold schedule_on. frame_with ltac:(apply scheduler_run_preserves).
Qed.

Lemma queue_info_remove_preserves (src : source) (u : queue_info) :
  preserves R (queue_info_remove src u).
Proof.
  intros st. unfold queue_info_remove.
  destruct (list_remove u (queue_info_of src st)); cbn [snd];
    [apply R_queue_info | apply R_refl].
Qed.

Lemma try_cancel_preserves (src : source) (e : Event) :
  preserves R (try_cancel src e).
Proof.
  intros st. unfold try_cancel, modify. cbn [snd].
  destruct (sched_cancel e (scheduler_of src st));
    [apply R_scheduler | apply R_refl].
Qed.

Lemma remove_queue_update_preserves (src : source) (name : string)
    (expired : bool) :
  preserves R (remove_queue_update src name expired).
Proof.
  unfold remove_queue_update.
  frame_with ltac:(first [ apply queue_info_remove_preserves
                         | apply try_cancel_preserves ]).
Qed.

Lemma schedule_update_preserves (cfg : Config) (dt : time_arg) (w : World)
    (name : string) (given rep cu nu : option string) :
  preserves R (schedule_update cfg dt w name given rep cu nu).
Proof.
  unfold schedule_update, schedule_covid_updates, update_news. cbv zeta.
  frame_with ltac:(apply schedule_on_preserves).
Qed.

Lemma rearm_body_preserves (cfg : Config) (dt : time_arg) (w : World)
    (u : update) :
  preserves R (rearm_body cfg dt w u).
Proof.
  unfold rearm_body, repeat_updates_scheduler, schedule_covid_updates,
    update_news.
  frame_with ltac:(apply schedule_on_preserves).
Qed.

Lemma scheduled_updates_remove_preserves (u : update) :
  preserves R (scheduled_updates_remove u).
Proof.
  intros st. unfold scheduled_updates_remove.
  destruct (list_remove u (scheduled_updates st)); cbn [snd];
    [apply R_registry | apply R_refl].
Qed.

Lemma remove_scheduled_update_preserves (w : World) (req : Request) :
  preserves R (remove_scheduled_update w req).
Proof.
  unfold remove_scheduled_update, cancel_body, expiry_body,
    expired_bookkeeping, remove_news_update, remove_covid_data_update.
  frame_with ltac:(first [ apply scheduled_updates_remove_preserves
                         | apply remove_queue_update_preserves ]).
Qed.

Lemma remove_and_limit_preserves (cfg : Config) (l : list article)
    (r : removed_arg) :
  preserves R (remove_and_limit_news_articles cfg l r).
Proof.
  unfold remove_and_limit_news_articles. cbv zeta. frame_with fail.
Qed.

Lemma unpack_articles_preserves (r : limit_result) :
  preserves R (unpack_articles r).
Proof. unfold unpack_articles. frame_with fail. Qed.

Lemma remove_and_update_preserves (cfg : Config) (req : Request) :
  preserves R (remove_and_update_news_article cfg req).
Proof.
  unfold remove_and_update_news_article.
  frame_with ltac:(first [ apply remove_and_limit_preserves
                         | apply unpack_articles_preserves ]).
Qed.

(** The whole of a poll. *)
Lemma render_webpage_preserves (cfg : Config) (dt : time_arg) (w : World)
    (req : Request) :
  preserves R (render_webpage cfg dt w req).
Proof.
  unfold render_webpage, return_covid_data, return_covid_news. cbv zeta.
  frame_with ltac:(first [ apply remove_and_limit_preserves
                         | apply unpack_articles_preserves
                         | apply remove_and_update_preserves
                         | apply remove_scheduled_update_preserves
                         | apply rearm_body_preserves
                         | apply schedule_update_preserves ]).
Qed.

Lemma startup_preserves (cfg : Config) (w : World) :
  preserves R (startup cfg w).
Proof.
  unfold startup, return_covid_data, news_API_request.
  frame_with ltac:(first [ apply covid_API_request_preserves
                         | apply news_processor_preserves ]).
Qed.

(** A poll after it has copied the handler's figures. *)
Lemma render_webpage_after_copy (cfg : Config) (dt : time_arg) (w : World)
    (req : Request) (st : State) :
  R (set_main_covid_data (england_data st) (local_data st) st)
    (snd (render_webpage cfg dt w req st)).
Proof.
  unfold render_webpage, return_covid_data, return_covid_news. cbv zeta.
  rewrite bind_gets, bind_modify. cbn [fst snd].
  match goal with
  | |- R ?s (snd (?c ?s)) => cut (preserves R c); [intros H; exact (H s)|]
  end.
  frame_with ltac:(first [ apply remove_and_limit_preserves
                         | apply unpack_articles_preserves
                         | apply remove_and_update_preserves
                         | apply remove_scheduled_update_preserves
                         | apply rearm_body_preserves
                         | apply schedule_update_preserves ]).
Qed.

(** A poll that finds page articles and has none to remove. *)
Lemma render_webpage_quiet (cfg : Config) (dt : time_arg) (w : World)
    (req : Request) (st : State) :
  displayed_covid_articles st <> [] ->
  arg_notif req = None ->
  R st (snd (render_webpage cfg dt w req st)).
Proof.
  intros Hshown Hnotif.
  unfold render_webpage, return_covid_data, return_covid_news. cbv zeta.
  rewrite bind_gets, bind_modify. cbn [fst snd].
  apply (R_trans _ (set_main_covid_data (england_data st) (local_data st) st));
    [apply R_main|].
  rewrite !bind_gets.
  cbn [displayed_covid_articles covid_news set_main_covid_data].
  destruct (displayed_covid_articles st) as [|a shown] eqn:Hd;
    [contradiction|].
  cbn [length Nat.eqb andb]. rewrite bind_ret, Hnotif. cbn [is_not_None].
  rewrite bind_ret.
  match goal with
  | |- R ?s (snd (?c ?s)) => cut (preserves R c); [intros H; exact (H s)|]
  end.
  frame_with ltac:(first [ apply remove_scheduled_update_preserves
                         | apply rearm_body_preserves
                         | apply schedule_update_preserves ]).
Qed.

(** A poll that neither schedules an update nor re-arms one. *)
Lemma render_webpage_idle (cfg : Config) (dt : time_arg) (w : World)
    (req : Request) (st : State) :
  arg_two req = None ->
  (tm_hour w =? 23) && (tm_min w =? 59) = false ->
  R st (snd (render_webpage cfg dt w req st)).
Proof.
  intros Htwo Hclock.
  unfold render_webpage, return_covid_data, return_covid_news. cbv zeta.
  rewrite Htwo, Hclock.
  match goal with
  | |- R ?s (snd (?c ?s)) => cut (preserves R c); [intros H; exact (H s)|]
  end.
  frame_with ltac:(first [ apply remove_and_limit_preserves
                         | apply unpack_articles_preserves
                         | apply remove_and_update_preserves
                         | apply remove_scheduled_update_preserves ]).
Qed.

End Frame.

Lemma same_page_data_refl (st : State) : same_page_data st st.
Proof. split; reflexivity. Qed.

Lemma same_page_data_trans (a b c : State) :
  same_page_data a b -> same_page_data b c -> same_page_data a c.
Proof. intros [? ?] [? ?]. split; congruence. Qed.

Lemma lists_grow_refl (st : State) : lists_grow st st.
Proof. split; reflexivity. Qed.

Lemma lists_grow_trans (a b c : State) :
  lists_grow a b -> lists_grow b c -> lists_grow a c.
Proof. intros [? ?] [? ?]. split; etransitivity; eassumption. Qed.

(** What a page is built from: the figures in [main]'s copies, the
    registry and the page articles as the poll leaves them. *)
Lemma render_webpage_page (cfg : Config) (dt : time_arg) (w : World)
    (req : Request) (st st' : State) (page : Page) :
  render_webpage cfg dt w req st = (Normal page, st') ->
  global_get (england_covid_data st') k_cases
  = Normal (national_7day_infections page)
  /\ global_get (local_covid_data st') k_cases
     = Normal (local_7day_infections page)
  /\ (exists h, global_get (england_covid_data st') k_hospital = Normal h
                /\ hospital_cases page = "Hospital cases: " +:+ str_of_stat h)
  /\ (exists d, global_get (england_covid_data st') k_deaths = Normal d
                /\ deaths_total page = "Total deaths: " +:+ str_of_stat d)
  /\ page_updates page = scheduled_updates st'
  /\ news_articles page = displayed_covid_articles st'.
Proof.
  unfold render_webpage. cbv zeta. intros H.
  do 9 (apply bind_normal_inv in H as (? & ? & _ & H)).
  rewrite !bind_gets in H. unfold bind, lift, gets, ret in H.
  destruct (global_get (england_covid_data _) k_cases) as [c1|] eqn:H1;
    [|discriminate].
  destruct (global_get (local_covid_data _) k_cases) as [c2|] eqn:H2;
    [|discriminate].
  destruct (global_get (england_covid_data _) k_hospital) as [h|] eqn:H3;
    [|discriminate].
  destruct (global_get (england_covid_data _) k_deaths) as [d|] eqn:H4;
    [|discriminate].
  injection H as <- <-.
  cbn [national_7day_infections local_7day_infections hospital_cases
       deaths_total page_updates news_articles].
  repeat split; eauto.
Qed.

(** X18.  The figures of a page are the ones the statistics module held
    when the poll began: [render_webpage] copies them first, and nothing
    it does afterwards - not even a refresh that a scheduling request
    of the same poll fires - reaches the copies it renders. *)
Theorem page_shows_figures_of_poll_start (cfg : Config) (dt : time_arg)
    (w : World) (req : Request) (st : State) (page : Page) :
  fst (render_webpage cfg dt w req st) = Normal page ->
  global_get (england_data st) k_cases
  = Normal (national_7day_infections page)
  /\ global_get (local_data st) k_cases = Normal (local_7day_infections page)
  /\ (exists h, global_get (england_data st) k_hospital = Normal h
                /\ hospital_cases page = "Hospital cases: " +:+ str_of_stat h)
  /\ (exists d, global_get (england_data st) k_deaths = Normal d
                /\ deaths_total page = "Total deaths: " +:+ str_of_stat d).
Proof.
  intros Hpage.
  pose proof (render_webpage_after_copy same_page_data same_page_data_refl
                same_page_data_trans) as Hcopy.
  specialize (Hcopy ltac:(intros; split; reflexivity)
                    ltac:(intros; split; reflexivity)
                    ltac:(intros [] ? ?; split; reflexivity)
                    ltac:(intros [] ? ?; split; reflexivity)
                    ltac:(intros; split; reflexivity)
                    ltac:(intros; split; reflexivity)
                    ltac:(intros; split; reflexivity)
                    ltac:(intros; split; reflexivity)
                    cfg dt w req st).
  destruct (render_webpage cfg dt w req st) as [[p|e] st'] eqn:Hrun;
    cbn [fst snd] in *; [|discriminate].
  injection Hpage as ->. destruct Hcopy as [He Hl].
  cbn [england_covid_data local_covid_data set_main_covid_data] in He, Hl.
  destruct (render_webpage_page _ _ _ _ _ _ _ Hrun)
    as (H1 & H2 & H3 & H4 & _).
  rewrite He in H1, H3, H4. rewrite Hl in H2. auto.
Qed.

Lemma page_shows_figures_of_poll_start_witness :
  global_get (england_data busy_state) k_cases = Normal (SInt 1)
  /\ england_data
       (snd (render_webpage config_max4 (StructTime 10 0) answering_world
               busy_request busy_state))
     <> england_data busy_state.
Proof.
  split.
  - apply (page_shows_figures_of_poll_start config_max4 (StructTime 10 0)
             answering_world busy_request busy_state
             (mkPage [requested_update "U" "11:00" None (Some "covid-data")
                        (Some "news")]
                (SInt 1) (SInt 1) "Hospital cases: 2" "Total deaths: 3"
                [stored_article (JStr "B") (JStr "b");
                 stored_article (JStr "C") (JStr "c")])).
    vm_compute. reflexivity.
  - vm_compute. discriminate.
Defined.

(** X19.  No poll loses a stored article or a removed title: whatever
    the request asks for and however the poll ends, the [covid_news] and
    [removed_article_titles] it started with are still there, in place,
    at the front of the lists it leaves. *)
Theorem poll_keeps_articles_and_removed_titles (cfg : Config)
    (dt : time_arg) (w : World) (req : Request) (st : State) :
  covid_news st
  `prefix_of` covid_news (snd (render_webpage cfg dt w req st))
  /\ removed_article_titles st
     `prefix_of` removed_article_titles (snd (render_webpage cfg dt w req st)).
Proof.
  apply (render_webpage_preserves lists_grow lists_grow_refl lists_grow_trans);
    try (intros; split; reflexivity);
    try (intros [] ? ?; split; reflexivity).
  - intros t c s. split; [apply prefix_app_r|]; reflexivity.
  - intros r s. split; [|apply prefix_app_r]; reflexivity.
Qed.

(** X20.  Every stored article has no key but the title and the content:
    the start-up and every poll keep [covid_news] in that format. *)
Theorem stored_articles_keep_their_format (cfg : Config) (dt : time_arg)
    (w : World) (req : Request) (st : State) :
  Forall stored_format (covid_news st) ->
  Forall stored_format (covid_news (snd (startup cfg w st)))
  /\ Forall stored_format (covid_news (snd (render_webpage cfg dt w req st))).
Proof.
  assert (Hrefl : forall s, stored_format_kept s s) by (intros s H; exact H).
  assert (Htrans : forall a b c, stored_format_kept a b ->
                                 stored_format_kept b c ->
                                 stored_format_kept a c)
    by (intros a b c Hab Hbc H; exact (Hbc (Hab H))).
  assert (Hnews : forall t c s,
             stored_format_kept s
               (set_covid_news (covid_news s ++ [stored_article t c]) s)).
  { intros t c s H. cbn [covid_news set_covid_news].
    apply Forall_app. split; [exact H|].
    apply Forall_cons_2; [apply stored_article_format | apply Forall_nil_2]. }
  intros Hst. split.
  - apply (startup_preserves stored_format_kept Hrefl Htrans Hnews);
      try (intros ? ? H; exact H); try (intros ? ? ? H; exact H).
    exact Hst.
  - apply (render_webpage_preserves stored_format_kept Hrefl Htrans Hnews);
      try (intros ? ? H; exact H);
      try (intros [] ? ? H; exact H); try (intros ? ? ? H; exact H).
    exact Hst.
Qed.

Lemma stored_articles_keep_their_format_witness :
  Forall stored_format
    (covid_news (snd (startup config_max4 answering_world initial_state))).
Proof.
  apply (stored_articles_keep_their_format config_max4 (StructTime 10 0)
           answering_world no_request initial_state).
  apply Forall_nil_2.
Defined.

(** ** What the scan of the registry removes *)

Lemma update_expired_reached (w : World) (u : update) :
  update_expired w u = Normal true ->
  match target_hm u with
  | Some (h, m) => negb ((h =? tm_hour w) && (m <=? tm_min w))
  | None => false
  end = false.
Proof.
  unfold update_expired, target_hm.
  destruct (int_of_str (str_take 2 (time u))) as [h|]; [|discriminate].
  cbn [obind]. destruct (h =? tm_hour w) eqn:Hh; [|discriminate].
  destruct (int_of_str (str_drop 3 (time u))) as [m|]; [|discriminate].
  cbn [obind]. intros [= Hm]. rewrite Hh, Hm. reflexivity.
Qed.

Lemma scanned_refl (w : World) (req : Request) (st : State) :
  scanned w req st st.
Proof. split; reflexivity. Qed.

Lemma scanned_trans (w : World) (req : Request) (a b c : State) :
  scanned w req a b -> scanned w req b c -> scanned w req a c.
Proof.
  intros [Hs1 Hf1] [Hs2 Hf2]. split.
  - etransitivity; eassumption.
  - congruence.
Qed.

Lemma scanned_same_registry (w : World) (req : Request) (st st' : State) :
  scheduled_updates st' = scheduled_updates st -> scanned w req st st'.
Proof. intros H. unfold scanned. rewrite H. split; reflexivity. Qed.

Lemma scheduled_updates_remove_scanned (w : World) (req : Request)
    (u : update) :
  stays w req u = false ->
  preserves (scanned w req) (scheduled_updates_remove u).
Proof.
  intros Hu st. unfold scheduled_updates_remove.
  destruct (list_remove u (scheduled_updates st)) as [l|] eqn:Hl; cbn [snd];
    [|apply scanned_refl].
  split; cbn [scheduled_updates set_scheduled_updates].
  - eapply list_remove_sublist. exact Hl.
  - eapply list_remove_filter; eassumption.
Qed.

Lemma remove_queue_update_scanned (w : World) (req : Request) (src : source)
    (name : string) (expired : bool) :
  preserves (scanned w req) (remove_queue_update src name expired).
Proof.
  intros st. apply scanned_same_registry.
  apply remove_queue_update_keeps_registry.
Qed.

Lemma remove_scheduled_update_scanned (w : World) (req : Request) :
  preserves (scanned w req) (remove_scheduled_update w req).
Proof.
  pose proof (scanned_refl w req) as Hrefl.
  pose proof (scanned_trans w req) as Htrans.
  unfold remove_scheduled_update.
  apply preserves_bind; [exact Htrans| |intros _].
  - destruct (arg_update_item req) as [item|] eqn:Hitem;
      [|apply preserves_ret; exact Hrefl].
    apply preserves_for_in; [exact Hrefl | exact Htrans|]. intros u.
    unfold cancel_body, remove_news_update, remove_covid_data_update.
    destruct (bool_decide (title u = item)) eqn:Hu;
      [|apply preserves_ret; exact Hrefl].
    apply bool_decide_eq_true in Hu.
    apply preserves_bind; [exact Htrans| |intros _].
    + apply scheduled_updates_remove_scanned. unfold stays.
      rewrite Hitem, Hu, bool_decide_eq_true_2 by reflexivity. reflexivity.
    + apply preserves_bind; [exact Htrans| |intros _];
        apply remove_queue_update_scanned.
  - apply preserves_for_in; [exact Hrefl | exact Htrans|]. intros u st.
    unfold expiry_body. unfold bind at 1. unfold lift.
    destruct (update_expired w u) as [[|]|e] eqn:He; cbn [snd];
      try apply Hrefl.
    revert st.
    apply (preserves_bind (scanned w req) Htrans
             (scheduled_updates_remove u) (fun _ => expired_bookkeeping u));
      [|intros _].
    + apply scheduled_updates_remove_scanned. unfold stays.
      rewrite (update_expired_reached _ _ He). apply andb_false_r.
    + unfold expired_bookkeeping, remove_covid_data_update,
        remove_news_update.
      destruct (covid u && news u);
        [apply preserves_bind; [exact Htrans| |intros _];
         apply remove_queue_update_scanned|].
      destruct (covid u); [apply remove_queue_update_scanned|].
      destruct (news u);
        [apply remove_queue_update_scanned | apply preserves_ret, Hrefl].
Qed.

(** X21.  The scan of a poll never adds an entry to the registry, and
    an entry stays, in its place, when its title is not the one the
    request cancels and its time, read as two plain numbers, has not
    come: its hour is not the current one, or its minute lies ahead.
    This holds however the scan ends, also when it stops at an entry
    whose time cannot be read. *)
Theorem scan_removes_only_cancelled_or_due (w : World) (req : Request)
    (st : State) :
  sublist (scheduled_updates (snd (remove_scheduled_update w req st)))
    (scheduled_updates st)
  /\ List.filter (stays w req)
       (scheduled_updates (snd (remove_scheduled_update w req st)))
     = List.filter (stays w req) (scheduled_updates st)
  /\ forall u h m,
       u ∈ scheduled_updates st ->
       arg_update_item req <> Some (title u) ->
       target_hm u = Some (h, m) ->
       h <> tm_hour w \/ tm_min w < m ->
       u ∈ scheduled_updates (snd (remove_scheduled_update w req st)).
Proof.
  destruct (remove_scheduled_update_scanned w req st) as [Hsub Hfil].
  split; [exact Hsub|]. split; [exact Hfil|].
  intros u h m Hin Hitem Htarget Hahead.
  assert (Hstays : stays w req u = true).
  { unfold stays. rewrite bool_decide_eq_false_2 by exact Hitem.
    rewrite Htarget. cbn [negb andb]. apply negb_true_iff.
    destruct Hahead as [Hh|Hm].
    - apply Z.eqb_neq in Hh. rewrite Hh. reflexivity.
    - apply andb_false_iff. right. apply Z.leb_gt. exact Hm. }
  assert (Hf : u ∈ List.filter (stays w req)
                     (scheduled_updates
                        (snd (remove_scheduled_update w req st)))).
  { rewrite Hfil. apply list_elem_of_In, filter_In.
    split; [apply list_elem_of_In, Hin | exact Hstays]. }
  apply list_elem_of_In, filter_In in Hf as [Hf _].
  apply list_elem_of_In. exact Hf.
Qed.

Lemma scan_removes_only_cancelled_or_due_witness :
  update_0830
  ∈ scheduled_updates
      (snd (remove_scheduled_update quarter_to_ten (cancel_request "B")
              (set_scheduled_updates [update_0910; update_0830; update_0920]
                 loaded_state))).
Proof.
  apply (proj2 (proj2 (scan_removes_only_cancelled_or_due quarter_to_ten
                         (cancel_request "B")
                         (set_scheduled_updates
                            [update_0910; update_0830; update_0920]
                            loaded_state)))
           update_0830 8 30).
  - right. left.
  - discriminate.
  - vm_compute. reflexivity.
  - left. discriminate.
Defined.

(** ** Requests that cannot be scheduled, and requests without a time *)

Lemma time_buffer_rec_unreadable (depth : nat) (dt : time_arg)
    (given : string) (hn mn : Z) (e : exn) :
  int_of_str (str_take 2 given) = Raised e ->
  time_buffer_rec (S depth) dt given (StructTime hn mn) = Raised e.
Proof.
  intros He. cbn [time_buffer_rec time_index obind py_mul py_add].
  rewrite He. reflexivity.
Qed.

Lemma not_in_a_number_no_digit (c : Ascii.ascii) :
  not_in_a_number c = true -> digit_of c = None.
Proof.
  unfold not_in_a_number, digit_of. intros H.
  apply andb_prop in H as [H _]. apply andb_prop in H as [H _].
  apply andb_prop in H as [_ H].
  apply negb_true_iff in H. cbn zeta in H. rewrite H. reflexivity.
Qed.

Lemma int_digits_stray_character (c : Ascii.ascii) (s : string) :
  digit_of c = None -> str_has c s = true ->
  forall acc, int_digits acc s = None.
Proof.
  intros Hc. induction s as [|x s IH]; cbn [str_has int_digits];
    [discriminate|].
  intros Hin acc. destruct (digit_of x) as [d|] eqn:Hx; [|reflexivity].
  apply IH. apply orb_prop in Hin as [Hin|Hin]; [|exact Hin].
  apply bool_decide_eq_true in Hin. congruence.
Qed.

Lemma int_of_str_stray_character (c : Ascii.ascii) (s : string) :
  not_in_a_number c = true -> str_has c s = true ->
  int_of_str s = Raised ValueError.
Proof.
  intros Hc Hin. unfold int_of_str. destruct s as [|x s]; [reflexivity|].
  rewrite (int_digits_stray_character c _ (not_in_a_number_no_digit _ Hc) Hin).
  reflexivity.
Qed.

(** X22.  A time that has, among its first two characters, one that
    cannot be part of a number - a letter, a colon, any ASCII character
    but a digit, a blank, a sign or an underscore - schedules nothing:
    [time_buffer] raises [ValueError] before [schedule_update] has
    touched the registry or a scheduler.  A request without a time
    argument is such a request: its time is the string of [None]. *)
Theorem unreadable_time_schedules_nothing (cfg : Config) (h0 m0 : Z)
    (w : World) (name : string) (given rep cu nu : option string)
    (c : Ascii.ascii) (st : State) :
  str_has c (str_take 2 (str_of_arg given)) = true ->
  not_in_a_number c = true ->
  schedule_update cfg (StructTime h0 m0) w name given rep cu nu st
  = (Raised ValueError, st).
Proof.
  intros Hin Hc.
  assert (Hgiven : given <> Some "") by (intros ->; discriminate Hin).
  pose proof (int_of_str_stray_character _ _ Hc Hin) as Hread.
  unfold schedule_update. cbv zeta.
  rewrite bool_decide_eq_false_2 by exact Hgiven.
  unfold bind at 1. unfold bind at 1. unfold lift.
  unfold time_buffer. change recursion_limit with (S 999).
  rewrite (time_buffer_rec_unreadable _ _ _ _ _ _ Hread). reflexivity.
Qed.

Lemma unreadable_time_schedules_nothing_witness :
  schedule_update config_max4 (StructTime 10 0) ten_o_clock "U" None None
    (Some "covid-data") None loaded_state
  = (Raised ValueError, loaded_state).
Proof.
  apply (unreadable_time_schedules_nothing config_max4 10 0 ten_o_clock "U"
           None None (Some "covid-data") None (Ascii.ascii_of_nat 78)
           loaded_state).
  - vm_compute. reflexivity.
  - vm_compute. reflexivity.
Defined.

(** X23.  A request whose time is the empty string is registered for
    ["00:00"], and its refreshes are entered [base_update_interval]
    seconds ahead: the registry entry says when the scan will retire the
    update, not when it will run. *)
Theorem empty_time_uses_base_interval (cfg : Config) (dt : time_arg)
    (w : World) (name : string) (rep cu nu : option string) (st : State) :
  0 < base_update_interval cfg ->
  nothing_due w Covid st -> nothing_due w News st ->
  schedule_update cfg dt w name (Some "") rep cu nu st
  = (Normal tt,
     refreshed w (base_update_interval cfg) name (is_not_None rep)
       (is_not_None cu) (is_not_None nu)
       (set_scheduled_updates
          (registered (requested_update name "00:00" rep cu nu)
             (scheduled_updates st)) st)).
Proof.
  intros Hd Hc Hn. unfold schedule_update.
  rewrite bool_decide_eq_true_2 by reflexivity.
  rewrite bind_ret. cbn [fst snd]. rewrite bind_gets.
  fold (requested_update name "00:00" rep cu nu).
  set (rec := requested_update name "00:00" rep cu nu).
  set (st0 := set_scheduled_updates (registered rec (scheduled_updates st)) st).
  unfold bind at 1.
  assert (Hst0 : (if existsb (fun u => bool_decide (rec = u))
                       (scheduled_updates st)
                  then ret tt
                  else modify (set_scheduled_updates
                                 (scheduled_updates st ++ [rec]))) st
                 = (Normal tt, st0)).
  { subst st0. unfold registered. destruct (existsb _ _).
    - unfold ret. rewrite set_scheduled_updates_same. reflexivity.
    - reflexivity. }
  rewrite Hst0.
  assert (Hc0 : nothing_due w Covid st0) by exact Hc.
  assert (Hn0 : nothing_due w News st0) by exact Hn.
  unfold refreshed, schedule_covid_updates, update_news.
  destruct (is_not_None cu), (is_not_None nu); cbn [andb].
  - unfold bind. rewrite schedule_on_nothing_due by assumption.
    apply schedule_on_nothing_due; [|assumption].
    intros e He. apply Hn0. exact He.
  - apply schedule_on_nothing_due; assumption.
  - apply schedule_on_nothing_due; assumption.
  - reflexivity.
Qed.

Lemma empty_time_uses_base_interval_witness :
  scheduled_updates
    (snd (schedule_update config_max4 (StructTime 10 0) ten_o_clock "U"
            (Some "") None (Some "covid-data") None loaded_state))
  = [requested_update "U" "00:00" None (Some "covid-data") None]
  /\ sq_queue
       (covid_scheduler
          (snd (schedule_update config_max4 (StructTime 10 0) ten_o_clock "U"
                  (Some "") None (Some "covid-data") None loaded_state)))
     = [mkEvent (36000 + 60) 1 0 covid_API_request_action].
Proof.
  rewrite (empty_time_uses_base_interval config_max4 (StructTime 10 0)
             ten_o_clock "U" None (Some "covid-data") None loaded_state).
  - split; vm_compute; reflexivity.
  - reflexivity.
  - intros e He. inversion He.
  - intros e He. inversion He.
Defined.

(** ** Polls and refreshes *)






(** X25.  The page articles are renewed only when they have run out or
    the request removes one.  A poll that finds articles on the page and
    has none to remove leaves them as they are and shows them again,
    whatever news has been stored in the meantime. *)
Theorem page_articles_kept_until_removal (cfg : Config) (dt : time_arg)
    (w : World) (req : Request) (st : State) :
  displayed_covid_articles st <> [] ->
  arg_notif req = None ->
  displayed_covid_articles (snd (render_webpage cfg dt w req st))
  = displayed_covid_articles st
  /\ forall page,
       fst (render_webpage cfg dt w req st) = Normal page ->
       news_articles page = displayed_covid_articles st.
Proof.
  intros Hshown Hnotif.
  assert (Hkept : same_displayed st (snd (render_webpage cfg dt w req st))).
  { apply render_webpage_quiet; try assumption; unfold same_displayed;
      try (intros; reflexivity); try (intros [] ? ?; reflexivity).
    intros a b c Hab Hbc. congruence. }
  split; [exact Hkept|]. intros page Hpage.
  destruct (render_webpage cfg dt w req st) as [[p|x] st'] eqn:Hrun;
    cbn [fst snd] in *; [|discriminate].
  injection Hpage as ->.
  destruct (render_webpage_page _ _ _ _ _ _ _ Hrun) as (_ & _ & _ & _ & _ & H).
  rewrite H. exact Hkept.
Qed.

Lemma page_articles_kept_until_removal_witness :
  displayed_covid_articles
    (snd (render_webpage config_max4 (StructTime 10 0) answering_world
            schedule_request
            (set_displayed_covid_articles [removed_article_A] busy_state)))
  = [removed_article_A].
Proof.
  apply (page_articles_kept_until_removal config_max4 (StructTime 10 0)
           answering_world schedule_request
           (set_displayed_covid_articles [removed_article_A] busy_state)).
  - discriminate.
  - reflexivity.
Defined.

(** X26.  Due events do not fire by themselves.  The schedulers are run
    only inside a scheduling call, so a poll that neither schedules an
    update nor re-arms one (the clock is not at 23:59) refreshes
    nothing: the statistics and the stored news are what they were,
    however long the queued events are overdue. *)
Theorem idle_poll_fires_nothing (cfg : Config) (dt : time_arg) (w : World)
    (req : Request) (st : State) :
  arg_two req = None ->
  (tm_hour w =? 23) && (tm_min w =? 59) = false ->
  england_data (snd (render_webpage cfg dt w req st)) = england_data st
  /\ local_data (snd (render_webpage cfg dt w req st)) = local_data st
  /\ covid_news (snd (render_webpage cfg dt w req st)) = covid_news st.
Proof.
  intros Htwo Hclock.
  apply (render_webpage_idle same_handler_data); try assumption;
    unfold same_handler_data;
    try (intros; repeat split; reflexivity);
    try (intros [] ? ?; repeat split; reflexivity).
  intros a b c (? & ? & ?) (? & ? & ?). repeat split; congruence.
Qed.

Lemma idle_poll_fires_nothing_witness :
  england_data
    (snd (render_webpage config_max4 (StructTime 10 0) answering_world
            no_request busy_state))
  = england_data busy_state
  /\ sq_queue
       (covid_scheduler
          (snd (render_webpage config_max4 (StructTime 10 0) answering_world
                  no_request busy_state)))
     = [mkEvent 100 1 0 covid_API_request_action].
Proof.
  split.
  - apply (idle_poll_fires_nothing config_max4 (StructTime 10 0)
             answering_world no_request busy_state); reflexivity.
  - vm_compute. reflexivity.
Defined.

(** ** The configuration readers *)

Lemma and_chain_null (first : json) (rest : list json) :
  and_chain first rest = JsNull
  <-> exists pre post,
        first :: rest = pre ++ JsNull :: post
        /\ Forall (fun v => py_truthy v = true) pre.
Proof.
  revert first. induction rest as [|v rest IH]; intros first;
    cbn [and_chain].
  - split.
    + intros ->. exists [], []. split; [reflexivity | apply Forall_nil_2].
    + intros (pre & post & Heq & Hpre).
      destruct pre as [|p pre]; cbn [app] in Heq.
      * congruence.
      * injection Heq as _ Heq. destruct pre; discriminate.
  - destruct (py_truthy first) eqn:Hfirst.
    + rewrite IH. split.
      * intros (pre & post & Heq & Hpre). exists (first :: pre), post.
        split; [cbn [app]; congruence|].
        apply Forall_cons_2; assumption.
      * intros (pre & post & Heq & Hpre).
        destruct pre as [|p pre]; cbn [app] in Heq.
        -- injection Heq as -> _. discriminate.
        -- injection Heq as -> Heq. apply Forall_cons in Hpre as [_ Hpre].
           exists pre, post. split; assumption.
    + split.
      * intros ->. exists [], (v :: rest).
        split; [reflexivity | apply Forall_nil_2].
      * intros (pre & post & Heq & Hpre).
        destruct pre as [|p pre]; cbn [app] in Heq.
        -- congruence.
        -- injection Heq as -> _. apply Forall_cons in Hpre as [Hp _].
           congruence.
Qed.

(** X27.  The completeness test of the three readers,
    [(v1 and ... and vn) is not None], fails exactly when some value is
    [null] and every value before it is true.  A [null] behind a value
    that is false without being [null] - an empty string, a zero - is
    not seen, and a false value that is not [null] passes. *)
Theorem completeness_test_sees_first_false_value (first : json)
    (rest : list json) :
  config_complete first rest = false
  <-> exists pre post,
        first :: rest = pre ++ JsNull :: post
        /\ Forall (fun v => py_truthy v = true) pre.
Proof.
  rewrite <- and_chain_null. unfold config_complete.
  destruct (and_chain first rest); split; congruence.
Qed.

(** X28.  The [while] of a reader returns in its first turn or never.
    With a file that passes the completeness test, a caller's name the
    reader knows gets its values at once, and any other name keeps the
    loop turning for ever; with a file that fails the test the reader
    falls off its end and returns [None], for every name: the dashboard
    is not stopped. *)
Theorem readers_return_at_once_or_never (fuel : nat) (func_name : string) :
  (forall location location_type commas,
     config_data_loop (S fuel) func_name location location_type commas
     = if config_complete location [location_type; commas] then
         if decide (func_name = "process_covid_json_data") then
           Returns (Single commas)
         else if decide (func_name = "covid_API_request") then
           Returns (Tuple [location; location_type])
         else Spins
       else Returns (Single JsNull))
  /\ (forall queries language sort_by displayed_content
        num_displayed_articles no_articles_message news_api_key,
        get_config_data_loop (S fuel) func_name queries language sort_by
          displayed_content num_displayed_articles no_articles_message
          news_api_key
        = if config_complete queries
               [language; sort_by; displayed_content; num_displayed_articles;
                no_articles_message; news_api_key] then
            if decide (func_name = "news_API_request") then
              Returns (Tuple [queries; language; sort_by; news_api_key])
            else if decide (func_name = "news_processor") then
              Returns (Single displayed_content)
            else if decide (func_name = "remove_and_limit_news_articles") then
              Returns (Tuple [num_displayed_articles; no_articles_message])
            else Spins
          else Returns (Single JsNull))
  /\ (forall image title location base_update_interval base_flask_route
        reroute_flask_route,
        find_config_data_loop (S fuel) func_name image title location
          base_update_interval base_flask_route reroute_flask_route
        = if config_complete image
               [title; location; base_update_interval; base_flask_route;
                reroute_flask_route] then
            if decide (func_name = "render_webpage") then
              Returns (Tuple [image; title; location])
            else if decide (func_name = "schedule_update") then
              Returns (Single base_update_interval)
            else if decide (func_name = "global") then
              Returns (Tuple [base_flask_route; reroute_flask_route])
            else Spins
          else Returns (Single JsNull)).
Proof.
  split; [|split].
  - intros location location_type commas.
    induction fuel as [|fuel IH].
    + cbn [config_data_loop]. reflexivity.
    + change (config_data_loop (S (S fuel)) func_name location location_type
                commas)
        with (if config_complete location [location_type; commas] then
                if decide (func_name = "process_covid_json_data") then
                  Returns (Single commas)
                else if decide (func_name = "covid_API_request") then
                  Returns (Tuple [location; location_type])
                else config_data_loop (S fuel) func_name location
                       location_type commas
              else Returns (Single JsNull)).
      rewrite IH.
      destruct (config_complete _ _); [|reflexivity].
      repeat (destruct (decide _); [reflexivity|]). reflexivity.
  - intros queries language sort_by displayed_content num_displayed_articles
      no_articles_message news_api_key.
    induction fuel as [|fuel IH].
    + cbn [get_config_data_loop]. reflexivity.
    + change (get_config_data_loop (S (S fuel)) func_name queries language
                sort_by displayed_content num_displayed_articles
                no_articles_message news_api_key)
        with (if config_complete queries
                   [language; sort_by; displayed_content;
                    num_displayed_articles; no_articles_message; news_api_key]
              then
                if decide (func_name = "news_API_request") then
                  Returns (Tuple [queries; language; sort_by; news_api_key])
                else if decide (func_name = "news_processor") then
                  Returns (Single displayed_content)
                else if decide (func_name = "remove_and_limit_news_articles")
                then
                  Returns (Tuple [num_displayed_articles; no_articles_message])
                else
                  get_config_data_loop (S fuel) func_name queries language
                    sort_by displayed_content num_displayed_articles
                    no_articles_message news_api_key
              else Returns (Single JsNull)).
      rewrite IH.
      destruct (config_complete _ _); [|reflexivity].
      repeat (destruct (decide _); [reflexivity|]). reflexivity.
  - intros image title location base_update_interval base_flask_route
      reroute_flask_route.
    induction fuel as [|fuel IH].
    + cbn [find_config_data_loop]. reflexivity.
    + change (find_config_data_loop (S (S fuel)) func_name image title
                location base_update_interval base_flask_route
                reroute_flask_route)
        with (if config_complete image
                   [title; location; base_update_interval; base_flask_route;
                    reroute_flask_route] then
                if decide (func_name = "render_webpage") then
                  Returns (Tuple [image; title; location])
                else if decide (func_name = "schedule_update") then
                  Returns (Single base_update_interval)
                else if decide (func_name = "global") then
                  Returns (Tuple [base_flask_route; reroute_flask_route])
                else
                  find_config_data_loop (S fuel) func_name image title
                    location base_update_interval base_flask_route
                    reroute_flask_route
              else Returns (Single JsNull)).
      rewrite IH.
      destruct (config_complete _ _); [|reflexivity].
      repeat (destruct (decide _); [reflexivity|]). reflexivity.
Qed.

(** After a caught [FileNotFoundError] the readers leave through
    [UnboundLocalError]: [json.load] reads a name that was never bound. *)
Lemma missing_file_unbound (fuel : nat) (func_name : string)
    (file : ConfigFile) :
  plain_read file = None ->
  config_data fuel func_name file = Fails UnboundLocalError
  /\ get_config_data fuel func_name file = Fails UnboundLocalError
  /\ find_config_data fuel func_name file = Fails UnboundLocalError.
Proof.
  intros Hmissing.
  assert (Hload : load_config file = Fails UnboundLocalError)
    by (unfold load_config; rewrite Hmissing; reflexivity).
  unfold config_data, get_config_data, find_config_data.
  rewrite Hload. repeat split; reflexivity.
Qed.

(** X29.  What [config_data] hands to [process_covid_json_data] is the
    [commas] value of the file whenever the test lets it through, and
    the test looks at nothing behind the first false value: with an
    empty location the reader returns the [commas] setting even when it
    is [null], and with a [null] location it returns [None] whatever the
    [commas] setting is. *)
Theorem commas_setting_behind_false_location (fuel : nat)
    (sections : list (string * json)) (section : list (string * json))
    (location location_type commas : json) :
  json_lookup "covid_data_handler"
    (("encoding", JsString "utf-8") :: sections)
  = Some (JsObject section) ->
  json_lookup "location" section = Some location ->
  json_lookup "location_type" section = Some location_type ->
  json_lookup "commas" section = Some commas ->
  py_truthy location = false ->
  config_data (S fuel) "process_covid_json_data" (config_file sections)
  = Returns (Single (match location with
                     | JsNull => JsNull
                     | _ => commas
                     end)).
Proof.
  intros Hsection Hlocation Htype Hcommas Hfalse.
  unfold config_data, load_config, config_file.
  cbn [plain_read encoded_read of_outcome rbind json_subscript].
  assert (Henc : exists v, json_lookup "encoding"
                             (("encoding", JsString "utf-8") :: sections)
                           = Some v).
  { cbn [json_lookup].
    destruct (json_lookup "encoding" sections) as [later|]; [eauto|].
    rewrite decide_True by reflexivity. eauto. }
  destruct Henc as [v Henc]. rewrite Henc.
  cbn [of_outcome rbind json_subscript].
  rewrite Hsection. cbn [of_outcome rbind json_subscript].
  rewrite Hlocation, Htype, Hcommas. cbn [of_outcome rbind].
  cbn [config_data_loop]. unfold config_complete. cbn [and_chain].
  rewrite Hfalse.
  destruct location; try reflexivity; discriminate.
Qed.

Lemma commas_setting_behind_false_location_witness :
  config_data 1 "process_covid_json_data" blank_location_file
  = Returns (Single JsNull).
Proof.
  apply (commas_setting_behind_false_location 0 _
           [("location", JsString ""); ("location_type", JsString "ltla");
            ("commas", JsNull)]
           (JsString "") (JsString "ltla") JsNull); reflexivity.
Defined.
